(** * weathercli: normalization and terminal rendering, verified

    A shallow embedding of
      - [src/services/weather_models.py]   ([WeatherCodeMapper], [TerminalGraph])
      - [src/api/services/weather_service.py]   ([WeatherService])
      - [src/app.py], [src/api/index.py]   (validation, [/weather], [/forecast])
    followed by the properties of the specification and by further
    properties of the code, each stated against these definitions.

    Modelling conventions.
      - A Python [str] is the Rocq [string] of its UTF-8 bytes; operations
        that work on code points ([strip], [len], slicing) go through
        [codepoints].
      - A JSON document is a [json] term; a [dict] is a [gmap string json].
        A dict display [{k1: v1, ..., kn: vn}] inserts left to right, so a
        key written twice keeps the value written last.
      - The arithmetic of the temperature gauge is that of IEEE 754
        doubles ([Float64]): a finite double is the rational it denotes,
        and every operation rounds its exact result to the nearest double.
        The numbers of a JSON document and the samples of the line graph
        are rationals ([Q]), and the arithmetic of the line graph is exact.
      - A raised exception is [Raise e]; a call that talks to the network
        runs in [io], which threads the log of the requests sent so far.
      - Calls to [logger] are not modelled. *)

From Stdlib Require Import ZArith QArith Qround Qpower String Ascii List Lia Lqa.
From Stdlib Require PrimFloat FloatOps SpecFloat.
From stdpp Require Import gmap strings list fin_maps.

Set Warnings "-register-all".
Local Open Scope Z_scope.

(** ** Python values *)

Module Py.

Inductive json : Type :=
  | JNull
  | JBool (b : bool)
  | JInt (z : Z)
  | JFloat (q : Q)
  | JStr (s : string)
  | JList (l : list json)
  | JObj (m : gmap string json).

Inductive exn : Type :=
  | KeyError (k : json)
  | IndexError
  | TypeError
  | AttributeError
  | ValueError
  | OverflowError
  | ZeroDivisionError.

Inductive outcome (A : Type) : Type :=
  | Ok (a : A)
  | Raise (e : exn).
Arguments Ok {A} a.
Arguments Raise {A} e.

#[global] Instance outcome_ret : MRet outcome := fun A a => Ok a.
#[global] Instance outcome_bind : MBind outcome :=
  fun A B f m => match m with Ok a => f a | Raise e => Raise e end.

(** A dict display: later entries overwrite earlier ones with the same key. *)
Definition dict (kvs : list (string * json)) : json :=
  JObj (foldl (fun m kv => <[kv.1 := kv.2]> m) ∅ kvs).

(** [bool(v)] *)
Definition truthy (v : json) : bool :=
  match v with
  | JNull => false
  | JBool b => b
  | JInt z => negb (z =? 0)
  | JFloat q => negb (Qeq_bool q 0)
  | JStr s => negb (String.eqb s "")
  | JList l => match l with [] => false | _ => true end
  | JObj m => negb (Nat.eqb (size m) 0)
  end.

(** *** Strings *)

Definition chr (n : nat) : string := String (ascii_of_nat n) EmptyString.

Definition bytes (ns : list nat) : string :=
  string_of_list_ascii (map ascii_of_nat ns).

(** A UTF-8 continuation byte, [10xxxxxx]. *)
Definition is_continuation (c : ascii) : bool :=
  let n := nat_of_ascii c in (128 <=? n)%nat && (n <? 192)%nat.

(** The code points of a string, each as the string of its bytes. *)
Definition codepoints (s : string) : list string :=
  let step c (acc : list ascii * list string) :=
    if is_continuation c then (c :: acc.1, acc.2)
    else ([], string_of_list_ascii (c :: acc.1) :: acc.2) in
  let r := foldr step ([], []) (list_ascii_of_string s) in
  match r.1 with
  | [] => r.2
  | stray => string_of_list_ascii stray :: r.2
  end.

Definition join (sep : string) (parts : list string) : string :=
  String.concat sep parts.

(** The code points for which [str.isspace] holds. *)
Definition whitespace : list string :=
  [ chr 9; chr 10; chr 11; chr 12; chr 13; chr 28; chr 29; chr 30; chr 31;
    chr 32; bytes [194; 133]; bytes [194; 160]; bytes [225; 154; 128];
    bytes [226; 128; 128]; bytes [226; 128; 129]; bytes [226; 128; 130];
    bytes [226; 128; 131]; bytes [226; 128; 132]; bytes [226; 128; 133];
    bytes [226; 128; 134]; bytes [226; 128; 135]; bytes [226; 128; 136];
    bytes [226; 128; 137]; bytes [226; 128; 138]; bytes [226; 128; 168];
    bytes [226; 128; 169]; bytes [226; 128; 175]; bytes [226; 129; 159];
    bytes [227; 128; 128] ]%nat.

Definition isspace (c : string) : bool := existsb (String.eqb c) whitespace.

Fixpoint lstrip_cps (cs : list string) : list string :=
  match cs with
  | [] => []
  | c :: cs' => if isspace c then lstrip_cps cs' else cs
  end.

(** [s.strip()] *)
Definition strip (s : string) : string :=
  join "" (rev (lstrip_cps (rev (lstrip_cps (codepoints s))))).

(** [s[:n]] *)
Definition prefix (n : nat) (s : string) : string :=
  join "" (take n (codepoints s)).

Definition is_lower (c : ascii) : bool :=
  let n := nat_of_ascii c in (97 <=? n)%nat && (n <=? 122)%nat.
Definition is_upper (c : ascii) : bool :=
  let n := nat_of_ascii c in (65 <=? n)%nat && (n <=? 90)%nat.
Definition to_upper (c : ascii) : ascii :=
  if is_lower c then ascii_of_nat (nat_of_ascii c - 32) else c.
Definition to_lower (c : ascii) : ascii :=
  if is_upper c then ascii_of_nat (nat_of_ascii c + 32) else c.

Fixpoint title_from (prev_cased : bool) (s : string) : string :=
  match s with
  | EmptyString => EmptyString
  | String c s' =>
      String (if prev_cased then to_lower c else to_upper c)
             (title_from (is_lower c || is_upper c) s')
  end.

(** [s.title()], on ASCII letters; other bytes count as uncased and are kept. *)
Definition title (s : string) : string := title_from false s.

(** [s.replace(old, new)] for a one-character [old]. *)
Fixpoint replace_char (old : ascii) (new : string) (s : string) : string :=
  match s with
  | EmptyString => EmptyString
  | String c s' =>
      if Ascii.eqb c old then new +:+ replace_char old new s'
      else String c (replace_char old new s')
  end.

Fixpoint has_prefix (p s : string) : bool :=
  match p, s with
  | EmptyString, _ => true
  | String a p', String b s' => Ascii.eqb a b && has_prefix p' s'
  | String _ _, EmptyString => false
  end.

(** [sub in s] for two strings. *)
Fixpoint is_substring (sub s : string) : bool :=
  has_prefix sub s ||
  match s with
  | EmptyString => false
  | String _ s' => is_substring sub s'
  end.

(** *** Containers *)

(** [d.get(k, dflt)] *)
Definition get (d : json) (k : string) (dflt : json) : outcome json :=
  match d with
  | JObj m => Ok (default dflt (m !! k))
  | _ => Raise AttributeError
  end.

(** [d[k]] for a string [k] *)
Definition getitem (d : json) (k : string) : outcome json :=
  match d with
  | JObj m =>
      match m !! k with
      | Some v => Ok v
      | None => Raise (KeyError (JStr k))
      end
  | _ => Raise TypeError
  end.

(** [l[i]] for an index [i >= 0]; the keys of a JSON object are strings, so
    an integer key is never found. *)
Definition index (l : json) (i : nat) : outcome json :=
  match l with
  | JList xs =>
      match xs !! i with
      | Some v => Ok v
      | None => Raise IndexError
      end
  | JStr s =>
      match codepoints s !! i with
      | Some c => Ok (JStr c)
      | None => Raise IndexError
      end
  | JObj _ => Raise (KeyError (JInt (Z.of_nat i)))
  | _ => Raise TypeError
  end.

(** [k in d] for a string [k] *)
Definition contains (d : json) (k : string) : outcome bool :=
  match d with
  | JObj m => Ok (bool_decide (is_Some (m !! k)))
  | JList xs =>
      Ok (existsb (fun e => match e with
                            | JStr s => String.eqb s k
                            | _ => false
                            end) xs)
  | JStr s => Ok (is_substring k s)
  | _ => Raise TypeError
  end.

(** [len(v)] *)
Definition len (v : json) : outcome nat :=
  match v with
  | JList xs => Ok (length xs)
  | JStr s => Ok (length (codepoints s))
  | JObj m => Ok (size m)
  | _ => Raise TypeError
  end.

(** *** Numbers *)

Definition Qltb (a b : Q) : bool := negb (Qle_bool b a).

(** [int(x)] on a float: truncation toward zero. *)
Definition int (x : Q) : Z :=
  if Qle_bool 0 x then Qfloor x else Qceiling x.

(** [abs(x)] *)
Definition abs (x : Q) : Q := if Qle_bool 0 x then x else Qopp x.

(** [min(xs)] and [max(xs)] of a non-empty list, given its head and tail. *)
Definition min_list (x : Q) (xs : list Q) : Q :=
  foldl (fun m y => if Qltb y m then y else m) x xs.
Definition max_list (x : Q) (xs : list Q) : Q :=
  foldl (fun m y => if Qltb m y then y else m) x xs.

End Py.
Import Py.

(** ** Doubles *)

(** A Python [float] is an IEEE 754 binary64 number: 53 significant bits,
    the least positive one 2^-1074, the largest (2^53 - 1) * 2^971.  A
    finite double is the rational it denotes.  An operation computes the
    exact result and rounds it to the nearest double, a tie to the one
    whose significand is even ([round64]); a result beyond the largest
    double is an infinity.  The two zeros are one value here: they compare
    equal and truncate to the same integer. *)
Module Float64.

Definition pow2 (e : Z) : Q := (2 ^ e)%Q.

(** To the nearest integer, a tie to the even one. *)
Definition nearest_even (x : Q) : Z :=
  let f := Qfloor x in
  let r := (x - inject_Z f)%Q in
  if Qltb r (1 # 2) then f
  else if Qltb (1 # 2) r then f + 1
  else if Z.even f then f else f + 1.

(** The exponent [k] with [2^k <= q < 2^(k+1)], for a positive [q]. *)
Definition ilog2 (q : Q) : Z :=
  let k := Z.log2 (Qnum q) - Z.log2 (Zpos (Qden q)) in
  if Qle_bool (pow2 k) q then k else k - 1.

(** The exponent of the last place of the doubles around a positive [q]:
    53 bits below the leading one, and never below 2^-1074. *)
Definition ulp_exponent (q : Q) : Z := Z.max (-1074) (ilog2 q - 52).

Definition round_pos (q : Q) : Q :=
  let e := ulp_exponent q in
  (inject_Z (nearest_even (q / pow2 e)) * pow2 e)%Q.

(** The double nearest to [q], were the exponent unbounded above. *)
Definition round64 (q : Q) : Q :=
  match (q ?= 0)%Q with
  | Eq => 0%Q
  | Gt => round_pos q
  | Lt => (- round_pos (- q))%Q
  end.

Definition max_double : Q := (inject_Z (2 ^ 53 - 1) * pow2 971)%Q.

Inductive float : Type :=
  | Fin (q : Q)
  | Inf (negative : bool)
  | NaN.

(** The double that an exact result becomes. *)
Definition of_Q (q : Q) : float :=
  let r := round64 q in
  if Qltb max_double r then Inf false
  else if Qltb r (- max_double) then Inf true
  else Fin r.

Definition is_nan (a : float) : bool :=
  match a with NaN => true | _ => false end.

(** [a < b] and [a <= b]; both are [False] when an operand is a NaN. *)
Definition lt (a b : float) : bool :=
  match a, b with
  | NaN, _ | _, NaN => false
  | Fin x, Fin y => Qltb x y
  | Fin _, Inf s => negb s
  | Inf s, Fin _ => s
  | Inf s, Inf s' => s && negb s'
  end.

Definition le (a b : float) : bool :=
  match a, b with
  | NaN, _ | _, NaN => false
  | Fin x, Fin y => Qle_bool x y
  | Fin _, Inf s => negb s
  | Inf s, Fin _ => s
  | Inf s, Inf s' => s || negb s'
  end.

(** [a - b] *)
Definition sub (a b : float) : float :=
  match a, b with
  | NaN, _ | _, NaN => NaN
  | Fin x, Fin y => of_Q (x - y)
  | Fin _, Inf s => Inf (negb s)
  | Inf s, Fin _ => Inf s
  | Inf s, Inf s' => if Bool.eqb s s' then NaN else Inf s
  end.

(** [a * b] *)
Definition mul (a b : float) : float :=
  match a, b with
  | NaN, _ | _, NaN => NaN
  | Fin x, Fin y => of_Q (x * y)
  | Fin x, Inf s | Inf s, Fin x =>
      if Qeq_bool x 0 then NaN else Inf (xorb s (Qltb x 0))
  | Inf s, Inf s' => Inf (xorb s s')
  end.

(** [a / b]: Python raises on a zero divisor, whatever the dividend. *)
Definition div (a b : float) : outcome float :=
  match b with
  | Fin y =>
      if Qeq_bool y 0 then Raise ZeroDivisionError
      else match a with
           | Fin x => Ok (of_Q (x / y))
           | Inf s => Ok (Inf (xorb s (Qltb y 0)))
           | NaN => Ok NaN
           end
  | Inf _ =>
      match a with
      | Fin _ => Ok (Fin 0)
      | _ => Ok NaN
      end
  | NaN => Ok NaN
  end.

(** [int(a)]: truncation toward zero; an infinity raises [OverflowError]
    and a NaN [ValueError]. *)
Definition to_int (a : float) : outcome Z :=
  match a with
  | Fin q => Ok (int q)
  | Inf _ => Raise OverflowError
  | NaN => Raise ValueError
  end.

(** The double that a Python [int] becomes in an operation with a float;
    exact for the small integers of this program. *)
Definition of_int (z : Z) : float := Fin (inject_Z z).

End Float64.

(** ** Requests to the outside world *)

Module Net.

(** One request: the URL and its query parameters. *)
Definition request : Type := string * json.

(** A computation that may send requests: it receives the log of the
    requests sent so far and returns its outcome with the extended log. *)
Definition io (A : Type) : Type := list request -> outcome A * list request.

#[global] Instance io_ret : MRet io := fun A a log => (Ok a, log).
#[global] Instance io_bind : MBind io :=
  fun A B f m log =>
    match m log with
    | (Ok a, log') => f a log'
    | (Raise e, log') => (Raise e, log')
    end.

Definition lift {A : Type} (o : outcome A) : io A := fun log => (o, log).

End Net.
Import Net.

(** ** [weather_models.py] *)

Module WeatherCodeMapper.

Definition WMO_table : list (Z * (string * string)) :=
  [ (0, ("Clear sky", "clear"));
    (1, ("Mainly clear", "clear"));
    (2, ("Partly cloudy", "cloudy"));
    (3, ("Overcast", "cloudy"));
    (45, ("Fog", "fog"));
    (48, ("Depositing rime fog", "fog"));
    (51, ("Light drizzle", "rain"));
    (53, ("Moderate drizzle", "rain"));
    (55, ("Dense drizzle", "rain"));
    (56, ("Light freezing drizzle", "rain"));
    (57, ("Dense freezing drizzle", "rain"));
    (61, ("Slight rain", "rain"));
    (63, ("Moderate rain", "rain"));
    (65, ("Heavy rain", "rain"));
    (66, ("Light freezing rain", "rain"));
    (67, ("Heavy freezing rain", "rain"));
    (71, ("Slight snow fall", "snow"));
    (73, ("Moderate snow fall", "snow"));
    (75, ("Heavy snow fall", "snow"));
    (77, ("Snow grains", "snow"));
    (80, ("Slight rain showers", "rain"));
    (81, ("Moderate rain showers", "rain"));
    (82, ("Violent rain showers", "rain"));
    (85, ("Slight snow showers", "snow"));
    (86, ("Heavy snow showers", "snow"));
    (95, ("Thunderstorm", "storm"));
    (96, ("Thunderstorm with slight hail", "storm"));
    (99, ("Thunderstorm with heavy hail", "storm")) ]%string.

Definition WMO_CODES : gmap Z (string * string) :=
  foldl (fun m kv => <[kv.1 := kv.2]> m) ∅ WMO_table.

(** The key under which a value is looked up in a dict with integer keys:
    [True == 1], [2.0 == 2]; [None] and strings are hashable but equal to
    no integer; lists and dicts are unhashable. *)
Definition int_key (v : json) : outcome (option Z) :=
  match v with
  | JInt z => Ok (Some z)
  | JBool b => Ok (Some (if b then 1 else 0))
  | JFloat q => Ok (if Qeq_bool q (inject_Z (Qfloor q)) then Some (Qfloor q) else None)
  | JNull | JStr _ => Ok None
  | JList _ | JObj _ => Raise TypeError
  end.

(** [cls.WMO_CODES.get(code, ("Unknown", "unknown"))] *)
Definition lookup_code (code : json) : outcome (string * string) :=
  k ← int_key code;
  Ok (default ("Unknown", "unknown")%string (k ≫= fun z => WMO_CODES !! z)).

Definition get_description (code : json) : outcome string :=
  p ← lookup_code code; Ok p.1.

Definition get_condition (code : json) : outcome string :=
  p ← lookup_code code; Ok p.2.

End WeatherCodeMapper.

Module TerminalGraph.

Definition nl : string := chr 10.
Definition POINT : string := "●".
Definition SEGMENT : string := "─".

Section Graph.

(** [f"{y:6.1f}"]: the formatting of floats is not modelled. *)
Variable format_6_1f : Q -> string.

Definition placeholder (title : string) : string :=
  nl +:+ "[GRAPH] " +:+ title +:+ nl +:+ "Insufficient data for graph display".

Definition graph_cell (row : Z) (normalized : list Q) (i : nat) (norm_val : Q)
  : string :=
  if Qltb (abs (norm_val - inject_Z row)) (1 # 2) then POINT
  else if (0 <? i)%nat then
    match normalized !! (i - 1)%nat with
    | Some prev_val =>
        if (Qle_bool prev_val (inject_Z row) && Qle_bool (inject_Z row) norm_val)
           || (Qle_bool norm_val (inject_Z row) && Qle_bool (inject_Z row) prev_val)
        then SEGMENT else " "
    | None => " "
    end
  else " ".

Definition graph_row (max_val range_val : Q) (height : Z) (unit : string)
    (normalized : list Q) (row : Z) : outcome string :=
  if height - 1 =? 0 then Raise ZeroDivisionError
  else
    let y_value :=
      (max_val - inject_Z row * range_val / inject_Z (height - 1))%Q in
    Ok (format_6_1f y_value +:+ unit +:+ " |" +:+
        join "" (imap (fun i v => graph_cell row normalized i v +:+ " ")
                      normalized)).

Definition create_line_graph (data : list Q) (labels : list string)
    (title : string) (height : Z) (unit : string) : outcome string :=
  match data with
  | [] => Ok (placeholder title)
  | x :: xs =>
      if negb (length data =? length labels)%nat || (length data <? 2)%nat
      then Ok (placeholder title)
      else
        let min_val := min_list x xs in
        let max_val := max_list x xs in
        let range_val :=
          if negb (Qeq_bool min_val max_val) then (max_val - min_val)%Q
          else 1%Q in
        let normalized :=
          map (fun val =>
                 ((val - min_val) / range_val * inject_Z (height - 1))%Q)
              data in
        let rows :=
          map (fun k => height - 1 - Z.of_nat k) (seq 0 (Z.to_nat height)) in
        row_lines ← mapM (graph_row max_val range_val height unit normalized) rows;
        let x_axis :=
          "        +" +:+ join "" (replicate (length data * 2 - 1) SEGMENT) in
        let label_line :=
          "         " +:+ join "  " (map (prefix 3) labels) in
        Ok (join nl ([nl +:+ "[GRAPH] " +:+ title;
                      join "" (replicate 60 "=")]
                     ++ row_lines ++ [x_axis; label_line]))
  end.

End Graph.

End TerminalGraph.

(** ** [weather_models.py]: the glyphs *)

Module WeatherArt.

Definition SUNNY : string :=
  join (chr 10)
    [ "";
      "    \   /";
      "     .-.";
      "  ‒ (   ) ‒";
      "     `-'";
      "    /   \";
      "    " ]%string.

Definition CLOUDY : string :=
  join (chr 10)
    [ "";
      "     .--.";
      "  .-(    ).";
      " (___.__)__)";
      "    " ]%string.

Definition RAINY : string :=
  join (chr 10)
    [ "";
      "     .--.";
      "  .-(    ).";
      " (___.__)__)";
      "  ʻ ʻ ʻ ʻ";
      " ʻ ʻ ʻ ʻ";
      "    " ]%string.

Definition STORMY : string :=
  join (chr 10)
    [ "";
      "     .--.";
      "  .-(    ).";
      " (___.__)__)";
      "    * *";
      "  * * *";
      "    " ]%string.

Definition SNOWY : string :=
  join (chr 10)
    [ "";
      "     .--.";
      "  .-(    ).";
      " (___.__)__)";
      "   * * *";
      "  * * *";
      "    " ]%string.

Definition FOGGY : string :=
  join (chr 10)
    [ "";
      "     .--.";
      "  .-(    ).";
      " (___.__)__)";
      " ≡ ≡ ≡ ≡ ≡";
      "≡ ≡ ≡ ≡ ≡ ≡";
      "    " ]%string.

Definition NIGHT : string :=
  join (chr 10)
    [ "";
      "      *";
      "   *     *";
      " *    (   *";
      "   *     *";
      "      *";
      "    " ]%string.

End WeatherArt.

(** ** [weather_service.py] *)

Module WeatherService.
Import WeatherCodeMapper.

Definition geo_url : string := "https://geocoding-api.open-meteo.com/v1/search".
Definition weather_url : string := "https://api.open-meteo.com/v1/forecast".

Definition bar_length : Z := 50.
Definition MARKER : string := "●".
Definition DENSE : string := "▓".
Definition MEDIUM : string := "▒".
Definition LIGHT : string := "░".
Definition EMPTY : string := ".".

Section Service.

(** What [requests.get(url, params).json()] yields, given the requests sent
    before it; [None] when [_make_request] catches a timeout, a failed
    request or an undecodable body. *)
Variable http_get : list request -> string -> json -> option json.

(** [str(v)] for a value that is not a string, and the formatting of a
    number inside an f-string: not modelled. *)
Variable str_other : json -> string.
Variable str_num : Float64.float -> string.

(** [datetime.fromisoformat] and [datetime.timestamp] in the time zone of
    the process; [None] when they raise [ValueError], the former on a
    string that is not a date, the latter on a date whose year is out of
    range. *)
Variable datetime : Type.
Variable fromisoformat : string -> option datetime.
Variable timestamp : datetime -> option Q.

Definition str (v : json) : string :=
  match v with
  | JStr s => s
  | _ => str_other v
  end.

Definition make_request (url : string) (params : json) : io json :=
  fun log => (Ok (default JNull (http_get log url params)), log ++ [(url, params)]).

(** The query of [get_coordinates], lines 40-45. *)
Definition geo_params (city : string) : json :=
  dict [("name", JStr city); ("count", JInt 1);
        ("language", JStr "en"); ("format", JStr "json")].

Definition get_coordinates (city : string) : io json :=
  if String.eqb city "" || String.eqb (strip city) "" then
    mret (dict [("error", JStr "City name cannot be empty")])
  else
    let city := strip city in
    data ← make_request geo_url (geo_params city);
    if negb (truthy data) then
      mret (dict [("error", JStr ("Failed to fetch coordinates for " +:+ city))])
    else
      lift (
        results ← get data "results" JNull;
        no_results ←
          (if negb (truthy results) then Ok true
           else r ← getitem data "results"; n ← len r; Ok (n =? 0)%nat);
        if no_results : bool then
          Ok (dict [("error", JStr ("City '" +:+ city +:+ "' not found"))])
        else
          r ← getitem data "results";
          location ← index r 0;
          lat ← getitem location "latitude";
          lon ← getitem location "longitude";
          name ← getitem location "name";
          country ← get location "country" (JStr "Unknown");
          admin1 ← get location "admin1" (JStr "");
          Ok (dict [("lat", lat); ("lon", lon); ("name", name);
                    ("country", country); ("admin1", admin1)])).

(** Lines 117-163 of [get_current_weather]: the response assembled from the
    resolved coordinates and the upstream document. *)
Definition current_result (coords data : json) : outcome json :=
  current ← getitem data "current";
  weather_code ← get current "weather_code" (JInt 0);
  description ← get_description weather_code;
  condition ← get_condition weather_code;
  loc_name ← getitem coords "name";
  loc_country ← getitem coords "country";
  loc_lat ← getitem coords "lat";
  loc_lon ← getitem coords "lon";
  temperature ← get current "temperature_2m" JNull;
  feels_like ← get current "apparent_temperature" JNull;
  humidity ← get current "relative_humidity_2m" JNull;
  pressure ← get current "surface_pressure" JNull;
  wind_speed ← get current "wind_speed_10m" JNull;
  wind_direction ← get current "wind_direction_10m" JNull;
  precipitation ← get current "precipitation" (JInt 0);
  time ← get current "time" JNull;
  name ← getitem coords "name";
  main_temp ← get current "temperature_2m" JNull;
  main_feels_like ← get current "apparent_temperature" JNull;
  main_humidity ← get current "relative_humidity_2m" JNull;
  main_pressure ← get current "surface_pressure" JNull;
  speed ← get current "wind_speed_10m" JNull;
  deg ← get current "wind_direction_10m" JNull;
  Ok (dict
    [ ("location", dict
         [ ("name", loc_name);
           ("country", loc_country);
           ("coordinates", dict [("lat", loc_lat); ("lon", loc_lon)]) ]);
      ("current", dict
         [ ("temperature", temperature);
           ("feels_like", feels_like);
           ("humidity", humidity);
           ("pressure", pressure);
           ("wind_speed", wind_speed);
           ("wind_direction", wind_direction);
           ("precipitation", precipitation) ]);
      ("weather", dict
         [ ("code", weather_code);
           ("description", JStr description);
           ("condition", JStr condition) ]);
      ("timestamp", time);
      ("name", name);
      ("main", dict
         [ ("temp", main_temp);
           ("feels_like", main_feels_like);
           ("humidity", main_humidity);
           ("pressure", main_pressure) ]);
      ("weather", JList
         [ dict [ ("main", JStr (title condition));
                  ("description", JStr description) ] ]);
      ("wind", dict [("speed", speed); ("deg", deg)]) ]).

(** The query of [get_current_weather], lines 96-110. *)
Definition current_params (lat lon : json) : json :=
  dict [ ("latitude", lat); ("longitude", lon);
         ("current", JList
            [ JStr "temperature_2m"; JStr "relative_humidity_2m";
              JStr "apparent_temperature"; JStr "precipitation";
              JStr "weather_code"; JStr "surface_pressure";
              JStr "wind_speed_10m"; JStr "wind_direction_10m" ]);
         ("timezone", JStr "auto") ].

Definition get_current_weather (city : string) : io json :=
  coords ← get_coordinates city;
  failed ← lift (contains coords "error");
  if failed : bool then mret coords
  else
    lat ← lift (getitem coords "lat");
    lon ← lift (getitem coords "lon");
    data ← make_request weather_url (current_params lat lon);
    missing ← lift (if negb (truthy data) then Ok true
                    else b ← contains data "current"; Ok (negb b));
    if missing : bool then
      name ← lift (getitem coords "name");
      mret (dict [("error", JStr ("Failed to fetch weather data for " +:+ str name))])
    else lift (current_result coords data).

(** [daily[key][i]] *)
Definition daily_at (daily : json) (key : string) (i : nat) : outcome json :=
  column ← getitem daily key; index column i.

(** The body of the loop of [get_forecast], lines 202-238. *)
Definition forecast_item (daily : json) (i : nat) : outcome json :=
  day ← daily_at daily "time" i;
  date ← match day with
         | JStr s =>
             match fromisoformat (replace_char "Z" "+00:00" s) with
             | Some d => Ok d
             | None => Raise ValueError
             end
         | _ => Raise AttributeError
         end;
  weather_code ← daily_at daily "weather_code" i;
  description ← get_description weather_code;
  condition ← get_condition weather_code;
  item_date ← daily_at daily "time" i;
  temp_max ← daily_at daily "temperature_2m_max" i;
  temp_min ← daily_at daily "temperature_2m_min" i;
  precipitation ← daily_at daily "precipitation_sum" i;
  wind_speed ← daily_at daily "wind_speed_10m_max" i;
  wind_direction ← daily_at daily "wind_direction_10m_dominant" i;
  dt ← match timestamp date with
       | Some t => Ok (JFloat t)
       | None => Raise ValueError
       end;
  main_temp ← daily_at daily "temperature_2m_max" i;
  main_temp_min ← daily_at daily "temperature_2m_min" i;
  main_temp_max ← daily_at daily "temperature_2m_max" i;
  speed ← daily_at daily "wind_speed_10m_max" i;
  Ok (dict
    [ ("date", item_date);
      ("temperature", dict [("max", temp_max); ("min", temp_min)]);
      ("weather", dict
         [ ("code", weather_code);
           ("description", JStr description);
           ("condition", JStr condition) ]);
      ("precipitation", precipitation);
      ("wind", dict [("speed", wind_speed); ("direction", wind_direction)]);
      ("dt", dt);
      ("main", dict
         [ ("temp", main_temp);
           ("temp_min", main_temp_min);
           ("temp_max", main_temp_max);
           ("humidity", JInt 65) ]);
      ("weather", JList
         [ dict [ ("main", JStr (title condition));
                  ("description", JStr description) ] ]);
      ("wind", dict [("speed", speed)]) ]).

(** Lines 198-251 of [get_forecast]. *)
Definition forecast_result (coords data : json) (days : Z) : outcome json :=
  daily ← getitem data "daily";
  times ← getitem daily "time";
  available ← len times;
  let n := Z.to_nat (Z.min days (Z.of_nat available)) in
  forecast_list ← mapM (forecast_item daily) (seq 0 n);
  loc_name ← getitem coords "name";
  loc_country ← getitem coords "country";
  city_name ← getitem coords "name";
  Ok (dict
    [ ("location", dict [("name", loc_name); ("country", loc_country)]);
      ("forecast", JList forecast_list);
      ("list", JList forecast_list);
      ("city", dict [("name", city_name)]) ]).

(** The query of [get_forecast], lines 178-191. *)
Definition forecast_params (lat lon : json) (days : Z) : json :=
  dict [ ("latitude", lat); ("longitude", lon);
         ("daily", JList
            [ JStr "temperature_2m_max"; JStr "temperature_2m_min";
              JStr "weather_code"; JStr "precipitation_sum";
              JStr "wind_speed_10m_max";
              JStr "wind_direction_10m_dominant" ]);
         ("timezone", JStr "auto");
         ("forecast_days", JInt days) ].

Definition get_forecast (city : string) (days : Z) : io json :=
  coords ← get_coordinates city;
  failed ← lift (contains coords "error");
  if failed : bool then mret coords
  else if (days <? 1) || (7 <? days) then
    mret (dict [("error", JStr "Days must be between 1 and 7")])
  else
    lat ← lift (getitem coords "lat");
    lon ← lift (getitem coords "lon");
    data ← make_request weather_url (forecast_params lat lon days);
    missing ← lift (if negb (truthy data) then Ok true
                    else b ← contains data "daily"; Ok (negb b));
    if missing : bool then
      name ← lift (getitem coords "name");
      mret (dict [("error", JStr ("Failed to fetch forecast data for " +:+ str name))])
    else lift (forecast_result coords data days).

(** *** The temperature gauge *)

(** Lines 277-282 of [create_temp_bar]. *)
Definition temp_pos (temp min_range max_range : Float64.float) : outcome Z :=
  if Float64.lt temp min_range then Ok 0
  else if Float64.lt max_range temp then Ok (bar_length - 1)
  else
    ratio ← Float64.div (Float64.sub temp min_range)
                        (Float64.sub max_range min_range);
    Float64.to_int (Float64.mul ratio (Float64.of_int (bar_length - 1))).

(** Lines 284-296: the cells of the bar. *)
Definition bar_cell (temp : Float64.float) (pos i : Z) : string :=
  if i =? pos then MARKER
  else if i <? pos then
    if Float64.lt temp (Float64.of_int 0) then DENSE
    else if Float64.lt temp (Float64.of_int 20) then MEDIUM
    else LIGHT
  else EMPTY.

Definition bar_chars (temp : Float64.float) (pos : Z) : list string :=
  map (fun i => bar_cell temp pos (Z.of_nat i)) (seq 0 (Z.to_nat bar_length)).

Definition create_temp_bar (temp min_range max_range : Float64.float)
  : outcome string :=
  pos ← temp_pos temp min_range max_range;
  let bar := "[" +:+ join "" (bar_chars temp pos) +:+ "]" in
  Ok (str_num min_range +:+ "°C " +:+ bar +:+ " " +:+ str_num max_range
      +:+ "°C" +:+ TerminalGraph.nl +:+ "        Current: " +:+ str_num temp
      +:+ "°C").

End Service.

Arguments forecast_item {datetime} fromisoformat timestamp daily i.
Arguments forecast_result {datetime} fromisoformat timestamp coords data days.
Arguments get_forecast http_get str_other {datetime} fromisoformat timestamp city days _.

End WeatherService.

(** ** [weather_service.py]: glyph selection *)

Module WeatherGlyphs.

(** [s.lower()], on ASCII letters; other bytes are kept. *)
Fixpoint lower (s : string) : string :=
  match s with
  | EmptyString => EmptyString
  | String c s' => String (to_lower c) (lower s')
  end.

(** [for key, value in table.items(): if key in condition: return value],
    then the fallback. *)
Fixpoint first_match (condition : string) (table : list (string * string))
    (fallback : string) : string :=
  match table with
  | [] => fallback
  | (key, value) :: rest =>
      if is_substring key condition then value
      else first_match condition rest fallback
  end.

Definition art_map : list (string * string) :=
  [ ("clear", WeatherArt.SUNNY);
    ("sunny", WeatherArt.SUNNY);
    ("rain", WeatherArt.RAINY);
    ("storm", WeatherArt.STORMY);
    ("snow", WeatherArt.SNOWY);
    ("fog", WeatherArt.FOGGY);
    ("cloudy", WeatherArt.CLOUDY);
    ("overcast", WeatherArt.CLOUDY) ]%string.

Definition get_weather_art (condition : string) (is_night : bool) : string :=
  if is_night
     && existsb (String.eqb (lower condition)) ["clear"; "sunny"]%string
  then WeatherArt.NIGHT
  else first_match (lower condition) art_map WeatherArt.CLOUDY.

Definition icons : list (string * string) :=
  [ ("clear", "[SUN]");
    ("sunny", "[SUN]");
    ("rain", "[RAIN]");
    ("storm", "[STORM]");
    ("snow", "[SNOW]");
    ("fog", "[FOG]");
    ("cloudy", "[CLOUD]");
    ("overcast", "[CLOUD]") ]%string.

Definition get_mini_weather_art (condition : string) : string :=
  first_match (lower condition) icons "[CLOUD]".

(** Line 336 of [display_current_weather], given [datetime.now().hour]. *)
Definition is_night (current_hour : Z) : bool :=
  (current_hour <? 6) || (20 <? current_hour).

End WeatherGlyphs.

(** ** [app.py] and [api/index.py]: validation and the JSON endpoints *)

Module Api.

(** The result of a validator: the value, or the message of the
    [ValueError] it raises. *)
Inductive checked (A : Type) : Type :=
  | Valid (a : A)
  | Invalid (msg : string).
Arguments Valid {A} a.
Arguments Invalid {A} msg.

Definition validate_city (city : string) : checked string :=
  if String.eqb city "" || String.eqb (strip city) "" then
    Invalid "City parameter is required and cannot be empty"
  else if (length (codepoints (strip city)) <? 2)%nat then
    Invalid "City name must be at least 2 characters long"
  else if (100 <? length (codepoints (strip city)))%nat then
    Invalid "City name is too long"
  else Valid (strip city).

(** What a view function raises: a [ValueError] of the validators with
    its message, or an exception of the service. *)
Inductive raised : Type :=
  | Rejected (msg : string)
  | Crashed (e : exn).

(** A response: the JSON body and the status code. *)
Definition response : Type := json * Z.

(** A view function: it returns a response or raises, and extends the
    log of requests. *)
Definition view : Type := list request -> (response + raised) * list request.

Section Endpoints.

Variable http_get : list request -> string -> json -> option json.
Variable str_other : json -> string.
Variable datetime : Type.
Variable fromisoformat : string -> option datetime.
Variable timestamp : datetime -> option Q.

(** [int(s)] for a string, [None] when it raises [ValueError]; and
    [str(e)] for an exception of the service: not modelled. *)
Variable int_of_string : string -> option Z.
Variable exn_text : exn -> string.

(** Lines 56-63 of [app.py]: the [ValueError] raised inside the [try],
    by [int] or by the range check, is caught by the [except] and replaced. *)
Definition validate_days (days_str : string) : checked Z :=
  let attempt : checked Z :=
    match int_of_string days_str with
    | Some days =>
        if (days <? 1) || (7 <? days)
        then Invalid "Days must be between 1 and 7"
        else Valid days
    | None => Invalid "invalid literal for int()"
    end in
  match attempt with
  | Valid days => Valid days
  | Invalid _ => Invalid "Days must be a valid number between 1 and 7"
  end.

(** The decorator [handle_errors]. *)
Definition handle_errors (f : view) : list request -> response * list request :=
  fun log =>
    match f log with
    | (inl resp, log') => (resp, log')
    | (inr (Rejected msg), log') =>
        ((dict [("error", JStr ("Invalid input: " +:+ msg))], 400), log')
    | (inr (Crashed ValueError), log') =>
        ((dict [("error", JStr ("Invalid input: " +:+ exn_text ValueError))],
          400), log')
    | (inr (Crashed _), log') =>
        ((dict [("error", JStr "Internal server error")], 500), log')
    end.

(** [jsonify(data), 404 if "error" in data else 200], after a call of the
    service. *)
Definition answer (call : io json) : view :=
  fun log =>
    match call log with
    | (Ok data, log') =>
        match contains data "error" with
        | Ok true => (inl (data, 404), log')
        | Ok false => (inl (data, 200), log')
        | Raise e => (inr (Crashed e), log')
        end
    | (Raise e, log') => (inr (Crashed e), log')
    end.

(** [request.args.get("city", "").strip()], then
    [validate_city(city_param) if city_param else "London"]. *)
Definition city_of (args : gmap string string) : checked string :=
  let city_param := strip (default ""%string (args !! "city"%string)) in
  if negb (String.eqb city_param "") then validate_city city_param
  else Valid "London"%string.

(** The view of [/weather]. *)
Definition get_current_weather_view (args : gmap string string) : view :=
  fun log =>
    match city_of args with
    | Invalid msg => (inr (Rejected msg), log)
    | Valid city =>
        answer (WeatherService.get_current_weather http_get str_other city) log
    end.

(** The view of [/forecast]. *)
Definition get_forecast_view (args : gmap string string) : view :=
  fun log =>
    let days_param := default "5"%string (args !! "days"%string) in
    match city_of args with
    | Invalid msg => (inr (Rejected msg), log)
    | Valid city =>
        match validate_days days_param with
        | Invalid msg => (inr (Rejected msg), log)
        | Valid days =>
            answer (WeatherService.get_forecast http_get str_other
                      fromisoformat timestamp city days) log
        end
    end.

Definition get_current_weather (args : gmap string string)
  : list request -> response * list request :=
  handle_errors (get_current_weather_view args).

Definition get_forecast (args : gmap string string)
  : list request -> response * list request :=
  handle_errors (get_forecast_view args).

End Endpoints.

Arguments get_forecast http_get str_other {datetime} fromisoformat timestamp
  int_of_string exn_text args _.
Arguments get_forecast_view http_get str_other {datetime} fromisoformat
  timestamp int_of_string args _.

End Api.

(** ** Vocabulary of the properties *)

(** The value a dict display gives to a key: that of its last entry for it. *)
Definition last_entry {K : Type} `{EqDecision K} {V : Type}
    (k : K) (kvs : list (K * V)) : option V :=
  foldl (fun acc kv => if decide (kv.1 = k) then Some kv.2 else acc) None kvs.

(** [d[k]] when [d] is an object that has the key. *)
Definition field (d : json) (k : string) : option json :=
  match d with
  | JObj m => m !! k
  | _ => None
  end.

(** [d[k1][k2]] *)
Definition field2 (d : json) (k1 k2 : string) : option json :=
  v ← field d k1; field v k2.

(** [current.get(k)] on the object [cur]. *)
Definition reading (cur : gmap string json) (k : string) : json :=
  default JNull (cur !! k).

(** [s] contains [t]. *)
Definition mentions (s t : string) : Prop :=
  exists pre post : string, s = pre +:+ t +:+ post.

(** A string that is empty or made of whitespace only. *)
Definition blank (s : string) : bool := forallb isspace (codepoints s).

(** The requests of a log that went to a given URL. *)
Definition sent_to (url : string) (log : list request) : list request :=
  List.filter (fun r => String.eqb r.1 url) log.

(** *** The weather-code table of section 4.1 of the specification *)

Definition documented_categories : list (list Z * string) :=
  [ ([0; 1], "clear");
    ([2; 3], "cloudy");
    ([45; 48], "fog");
    ([51; 53; 55; 56; 57; 61; 63; 65; 66; 67; 80; 81; 82], "rain");
    ([71; 73; 75; 77; 85; 86], "snow");
    ([95; 96; 99], "storm") ]%string.

Definition documented_codes : list Z :=
  concat (map fst documented_categories).

(** [describe(code)]: the results of the two class methods, as a pair. *)
Definition describe (code : Z) : outcome (string * string) :=
  d ← WeatherCodeMapper.get_description (JInt code);
  c ← WeatherCodeMapper.get_condition (JInt code);
  Ok (d, c).

(** *** The temperature gauge of section 4.5 of the specification *)

(** The default range of [create_temp_bar]. *)
Definition min_range : Float64.float := Float64.of_int (-20).
Definition max_range : Float64.float := Float64.of_int 50.

(** [(temp - minRange) / (maxRange - minRange) * (barLength - 1)],
    as a Python expression on doubles. *)
Definition scaled (temp : Float64.float) : outcome Float64.float :=
  ratio ← Float64.div (Float64.sub temp min_range)
                      (Float64.sub max_range min_range);
  Ok (Float64.mul ratio (Float64.of_int (WeatherService.bar_length - 1))).

(** The same expression on the value of a finite temperature: each
    operation rounds. *)
Definition span : Q := Float64.round64 (inject_Z 50 - inject_Z (-20)).
Definition scaled_value (t : Q) : Q :=
  Float64.round64
    (Float64.round64 (Float64.round64 (t - inject_Z (-20)) / span)
     * inject_Z (WeatherService.bar_length - 1)).

(** A temperature that is a finite double. *)
Definition finite (temp : Float64.float) : bool :=
  match temp with
  | Float64.Fin q =>
      Qle_bool (- Float64.max_double) q && Qle_bool q Float64.max_double
  | _ => false
  end.

Definition clamp (x lo hi : Z) : Z := Z.max lo (Z.min x hi).

(** [round(x)]: to the nearest integer, a tie to the even one. *)
Definition round (x : Q) : Z :=
  let f := Qfloor x in
  let r := (x - inject_Z f)%Q in
  if Qltb r (1 # 2) then f
  else if Qltb (1 # 2) r then f + 1
  else if Z.even f then f else f + 1.

(** [round(a)] on a double: Python raises on an infinity and on a NaN. *)
Definition round_float (a : Float64.float) : outcome Z :=
  match a with
  | Float64.Fin q => Ok (round q)
  | Float64.Inf _ => Raise OverflowError
  | Float64.NaN => Raise ValueError
  end.

(** The position as the specification words it, and with [int] in the
    place of [round]. *)
Definition spec_pos (temp : Float64.float) : outcome Z :=
  e ← scaled temp;
  r ← round_float e;
  Ok (clamp r 0 (WeatherService.bar_length - 1)).

Definition truncated_pos (temp : Float64.float) : outcome Z :=
  e ← scaled temp;
  r ← Float64.to_int e;
  Ok (clamp r 0 (WeatherService.bar_length - 1)).

(** The number of cells of a bar that show a given glyph. *)
Definition count_cells (glyph : string) (cells : list string) : nat :=
  count_occ string_dec cells glyph.

(** What [get_coordinates] can return: an error object, the coordinates of
    the best match, or an exception raised on a malformed document. *)
Inductive resolution : outcome json -> Prop :=
  | resolution_error (msg : string) :
      resolution (Ok (dict [("error"%string, JStr msg)]))
  | resolution_found (lat lon name country admin1 : json) :
      resolution (Ok (dict [ ("lat"%string, lat); ("lon"%string, lon);
                             ("name"%string, name);
                             ("country"%string, country);
                             ("admin1"%string, admin1) ]))
  | resolution_raise (e : exn) : resolution (Raise e).

(** What [get_forecast] returns for a day count outside 1..7, given what
    [get_coordinates] returned. *)
Definition after_day_check (out : outcome json) : outcome json :=
  match out with
  | Ok coords =>
      match field coords "error" with
      | Some _ => Ok coords
      | None => Ok (dict [("error"%string, JStr "Days must be between 1 and 7")])
      end
  | Raise e => Raise e
  end.

(** *** Upstream documents *)

(** A value that can be a dict key. *)
Definition hashable (v : json) : bool :=
  match v with
  | JList _ | JObj _ => false
  | _ => true
  end.

Definition column (daily : json) (key : string) : list json :=
  match field daily key with
  | Some (JList xs) => xs
  | _ => []
  end.

Definition is_column (daily : json) (k : nat) (key : string) : bool :=
  match field daily key with
  | Some (JList xs) => Nat.eqb (length xs) k
  | _ => false
  end.

Definition daily_keys : list string :=
  [ "time"; "weather_code"; "temperature_2m_max"; "temperature_2m_min";
    "precipitation_sum"; "wind_speed_10m_max";
    "wind_direction_10m_dominant" ]%string.

Section Daily.

Variable datetime : Type.
Variable fromisoformat : string -> option datetime.
Variable timestamp : datetime -> option Q.

(** A date string that [fromisoformat] reads and [timestamp] converts. *)
Definition readable_date (v : json) : bool :=
  match v with
  | JStr s =>
      match fromisoformat (replace_char "Z" "+00:00" s) with
      | Some d => bool_decide (is_Some (timestamp d))
      | None => false
      end
  | _ => false
  end.

(** A daily document that contains [k] days: each of the seven columns is
    a list of [k] entries, the dates are readable and the weather codes
    are hashable. *)
Definition has_days (daily : json) (k : nat) : bool :=
  forallb (is_column daily k) daily_keys
  && forallb readable_date (column daily "time")
  && forallb hashable (column daily "weather_code").

End Daily.

Arguments readable_date {datetime} fromisoformat timestamp v.
Arguments has_days {datetime} fromisoformat timestamp daily k.

(** What a run of either operation of the service looks like: the
    requests it adds to the log, and the shape of what it returns. *)
Definition run_shape (city : string) (second : json -> json -> request)
    (log log' : list request) (out : outcome json) : Prop :=
  exists new : list request,
    log' = log ++ new
    /\ (new = []
        \/ new = [(WeatherService.geo_url, WeatherService.geo_params (strip city))]
        \/ exists lat lon : json,
             new = [(WeatherService.geo_url, WeatherService.geo_params (strip city)); second lat lon])
    /\ (forall r : json,
          out = Ok r ->
          (exists msg : string, r = dict [("error"%string, JStr msg)])
          \/ (field r "error" = None /\ length new = 2%nat
              /\ exists kvs, r = dict kvs)).

(** *** The line graph *)

(** [range_val] and [normalized] of [create_line_graph], lines 108-113,
    for the samples [x :: xs]. *)
Definition graph_range (x : Q) (xs : list Q) : Q :=
  if negb (Qeq_bool (min_list x xs) (max_list x xs))
  then (max_list x xs - min_list x xs)%Q
  else 1%Q.

Definition normalize (x : Q) (xs : list Q) (height : Z) (val : Q) : Q :=
  ((val - min_list x xs) / graph_range x xs * inject_Z (height - 1))%Q.

Definition normalized (x : Q) (xs : list Q) (height : Z) : list Q :=
  map (normalize x xs height) (x :: xs).

(** The glyph that fills the gauge left of the marker, lines 289-294. *)
Definition fill_glyph (temp : Float64.float) : string :=
  if Float64.lt temp (Float64.of_int 0) then WeatherService.DENSE
  else if Float64.lt temp (Float64.of_int 20) then WeatherService.MEDIUM
  else WeatherService.LIGHT.

(** *** Code points *)

(** The step and the state of the scan inside [codepoints]: the
    continuation bytes waiting for their lead byte, and the code points
    completed so far. *)
Definition scan_step (c : ascii) (acc : list ascii * list string)
  : list ascii * list string :=
  if is_continuation c then (c :: acc.1, acc.2)
  else ([], string_of_list_ascii (c :: acc.1) :: acc.2).

Definition scan (l : list ascii) : list ascii * list string :=
  foldr scan_step ([], []) l.

Definition continuations (l : list ascii) : Prop :=
  Forall (fun b => is_continuation b = true) l.

(** A lead byte followed by continuation bytes. *)
Definition whole (s : string) : Prop :=
  match s with
  | EmptyString => False
  | String c cs =>
      is_continuation c = false /\ continuations (list_ascii_of_string cs)
  end.

(** Continuation bytes without a lead byte, at the start of a string. *)
Definition stray (s : string) : Prop :=
  s <> EmptyString /\ continuations (list_ascii_of_string s).

(** A list of code points as [codepoints] produces them. *)
Definition chunked (cs : list string) : Prop :=
  match cs with
  | [] => True
  | c :: rest => (whole c \/ stray c) /\ Forall whole rest
  end.

Definition bytes_of (cs : list string) : list ascii :=
  concat (map list_ascii_of_string cs).

(** *** Glyphs *)

(** The large glyph and the compact token of each kind of weather. *)
Definition glyph_pairs : list (string * string) :=
  [ (WeatherArt.SUNNY, "[SUN]"); (WeatherArt.RAINY, "[RAIN]");
    (WeatherArt.STORMY, "[STORM]"); (WeatherArt.SNOWY, "[SNOW]");
    (WeatherArt.FOGGY, "[FOG]"); (WeatherArt.CLOUDY, "[CLOUD]") ]%string.

(** The glyphs of each category of the weather-code table. *)
Definition category_glyphs : list (string * (string * string)) :=
  [ ("clear", (WeatherArt.SUNNY, "[SUN]"));
    ("cloudy", (WeatherArt.CLOUDY, "[CLOUD]"));
    ("fog", (WeatherArt.FOGGY, "[FOG]"));
    ("rain", (WeatherArt.RAINY, "[RAIN]"));
    ("snow", (WeatherArt.SNOWY, "[SNOW]"));
    ("storm", (WeatherArt.STORMY, "[STORM]"));
    ("unknown", (WeatherArt.CLOUDY, "[CLOUD]")) ]%string.

(** *** Date order *)

(** ISO 8601 dates in ascending order, compared as text. *)
Definition date_le (a b : json) : bool :=
  match a, b with
  | JStr x, JStr y => String.leb x y
  | _, _ => false
  end.

Fixpoint in_date_order (dates : list json) : bool :=
  match dates with
  | [] => true
  | a :: rest =>
      match rest with
      | [] => true
      | b :: _ => date_le a b
      end && in_date_order rest
  end.

(** The dates of the items of a forecast. *)
Definition dates_of (items : list json) : list json :=
  map (fun item => default JNull (field item "date")) items.

(** *** The doubles of the machine *)

(** The value of a primitive double, and whether [Float64] computes what
    the binary64 unit computes on a pair of operands. *)
Definition of_prim (f : PrimFloat.float) : Float64.float :=
  match FloatOps.Prim2SF f with
  | SpecFloat.S754_zero _ => Float64.Fin 0
  | SpecFloat.S754_infinity s => Float64.Inf s
  | SpecFloat.S754_nan => Float64.NaN
  | SpecFloat.S754_finite s m e =>
      Float64.Fin ((if s then - (1) else 1) * inject_Z (Zpos m) * Float64.pow2 e)
  end.

Definition same (a b : Float64.float) : bool :=
  match a, b with
  | Float64.Fin x, Float64.Fin y => Qeq_bool x y
  | Float64.Inf s, Float64.Inf s' => Bool.eqb s s'
  | Float64.NaN, Float64.NaN => true
  | _, _ => false
  end.

Definition agrees (ab : PrimFloat.float * PrimFloat.float) : bool :=
  let a := of_prim ab.1 in
  let b := of_prim ab.2 in
  same (Float64.sub a b) (of_prim (PrimFloat.sub ab.1 ab.2))
  && same (Float64.mul a b) (of_prim (PrimFloat.mul ab.1 ab.2))
  && match Float64.div a b with
     | Ok q => same q (of_prim (PrimFloat.div ab.1 ab.2))
     | Raise _ => same b (Float64.Fin 0)
     end
  && Bool.eqb (Float64.lt a b) (PrimFloat.ltb ab.1 ab.2)
  && Bool.eqb (Float64.le a b) (PrimFloat.leb ab.1 ab.2).

(** *** A sample world *)

Module Sample.

Definition location : json :=
  dict [ ("name", JStr "London"); ("latitude", JFloat (515 # 10));
         ("longitude", JFloat (-(1 # 10))); ("country", JStr "United Kingdom");
         ("admin1", JStr "England") ].

Definition geo_document : json := dict [("results", JList [location])].

(** The current reading; [with_precipitation] decides whether the
    [precipitation] field is part of it. *)
Definition current_document (with_precipitation : bool) : json :=
  dict [ ("current", dict
           ([ ("time", JStr "2024-05-01T12:00");
              ("temperature_2m", JFloat (147 # 10));
              ("relative_humidity_2m", JInt 60);
              ("apparent_temperature", JFloat (139 # 10)) ]
            ++ (if with_precipitation
                then [("precipitation", JFloat (2 # 10))]
                else [])
            ++ [ ("weather_code", JInt 0);
                 ("surface_pressure", JFloat (10132 # 10));
                 ("wind_speed_10m", JFloat (35 # 10));
                 ("wind_direction_10m", JInt 180) ])) ].

(** A three-day forecast; [with_precipitation] decides whether the
    [precipitation_sum] column is part of it. *)
Definition daily_document (with_precipitation : bool) : json :=
  dict ([ ("time", JList [JStr "2024-05-01"; JStr "2024-05-02"; JStr "2024-05-03"]);
          ("weather_code", JList [JInt 0; JInt 61; JInt 3]);
          ("temperature_2m_max", JList [JFloat (181 # 10); JFloat (165 # 10); JInt 17]);
          ("temperature_2m_min", JList [JFloat (92 # 10); JInt 10; JFloat (88 # 10)]) ]
        ++ (if with_precipitation
            then [("precipitation_sum", JList [JInt 0; JFloat (42 # 10); JInt 0])]
            else [])
        ++ [ ("wind_speed_10m_max", JList [JFloat (35 # 10); JInt 5; JFloat (21 # 10)]);
             ("wind_direction_10m_dominant", JList [JInt 180; JInt 200; JInt 90]) ]).

Definition forecast_document (with_precipitation : bool) : json :=
  dict [("daily", daily_document with_precipitation)].

(** The geocoder knows the city; the forecast service answers a query that
    asks for daily columns with the forecast and any other with the
    current reading. *)
Definition http_get (with_precipitation : bool)
    (log : list request) (url : string) (params : json) : option json :=
  if String.eqb url WeatherService.geo_url then Some geo_document
  else match field params "daily" with
       | Some _ => Some (forecast_document with_precipitation)
       | None => Some (current_document with_precipitation)
       end.

(** The same forecast with its days in another order. *)
Definition shuffled_daily_document : json :=
  dict [ ("time", JList [JStr "2024-05-03"; JStr "2024-05-01"; JStr "2024-05-02"]);
         ("weather_code", JList [JInt 3; JInt 0; JInt 61]);
         ("temperature_2m_max", JList [JInt 17; JFloat (181 # 10); JFloat (165 # 10)]);
         ("temperature_2m_min", JList [JFloat (88 # 10); JFloat (92 # 10); JInt 10]);
         ("precipitation_sum", JList [JInt 0; JInt 0; JFloat (42 # 10)]);
         ("wind_speed_10m_max", JList [JFloat (21 # 10); JFloat (35 # 10); JInt 5]);
         ("wind_direction_10m_dominant", JList [JInt 90; JInt 180; JInt 200]) ].

Definition shuffled_http_get
    (log : list request) (url : string) (params : json) : option json :=
  if String.eqb url WeatherService.geo_url then Some geo_document
  else Some (dict [("daily", shuffled_daily_document)]).

(** A network on which every request fails. *)
Definition offline (log : list request) (url : string) (params : json)
  : option json := None.

Definition str_other (v : json) : string := "?".
Definition str_num (q : Q) : string := "?".
Definition str_float (a : Float64.float) : string := "?".
Definition fromisoformat (s : string) : option string :=
  if String.eqb s "" then None else Some s.
Definition timestamp (d : string) : option Q := Some 0%Q.


(** Decimal digits, with an optional minus sign: a stand-in for [int]. *)
Fixpoint digits (acc : Z) (s : string) : option Z :=
  match s with
  | EmptyString => Some acc
  | String c s' =>
      let n := nat_of_ascii c in
      if (48 <=? n)%nat && (n <=? 57)%nat
      then digits (10 * acc + Z.of_nat (n - 48)) s'
      else None
  end.

Definition int_of_string (s : string) : option Z :=
  match s with
  | EmptyString => None
  | String "-" (String c s') => Z.opp <$> digits 0 (String c s')
  | _ => digits 0 s
  end.

Definition exn_text (e : exn) : string := "?".

(** The service in the sample world. *)
Definition current_weather (with_precipitation : bool) (city : string)
  : outcome json * list request :=
  WeatherService.get_current_weather (http_get with_precipitation) str_other
    city [].

Definition forecast (with_precipitation : bool) (city : string) (days : Z)
  : outcome json * list request :=
  WeatherService.get_forecast (http_get with_precipitation) str_other
    fromisoformat timestamp city days [].

(** The value of an outcome, [None] for an exception. *)
Definition value (o : outcome json) : json :=
  match o with
  | Ok v => v
  | Raise _ => JNull
  end.

End Sample.
(** * Properties *)

(** ** Dict displays *)

Section Displays.
Context {K : Type} `{Countable K} {V : Type}.

Lemma lookup_display_from (kvs : list (K * V)) (m : gmap K V) (acc : option V) (k : K) :
  m !! k = acc ->
  foldl (fun m kv => <[kv.1 := kv.2]> m) m kvs !! k
  = foldl (fun acc kv => if decide (kv.1 = k) then Some kv.2 else acc) acc kvs.
Proof.
  revert m acc. induction kvs as [|[k' v] kvs IH]; intros m acc Hm; simpl.
  - exact Hm.
  - apply IH. destruct (decide (k' = k)) as [->|Hne].
    + apply lookup_insert_eq.
    + by rewrite lookup_insert_ne.
Qed.

Lemma lookup_display (kvs : list (K * V)) (k : K) :
  foldl (fun m kv => <[kv.1 := kv.2]> m) (∅ : gmap K V) kvs !! k = last_entry k kvs.
Proof. apply lookup_display_from, lookup_empty. Qed.

End Displays.

Lemma field_dict (kvs : list (string * json)) (k : string) :
  field (dict kvs) k = last_entry k kvs.
Proof. apply lookup_display. Qed.

Lemma getitem_dict (kvs : list (string * json)) (k : string) :
  getitem (dict kvs) k =
  match last_entry k kvs with
  | Some v => Ok v
  | None => Raise (KeyError (JStr k))
  end.
Proof. unfold getitem, dict. by rewrite lookup_display. Qed.

Lemma contains_dict (kvs : list (string * json)) (k : string) :
  contains (dict kvs) k =
  Ok match last_entry k kvs with
     | Some _ => true
     | None => false
     end.
Proof.
  unfold contains, dict. rewrite lookup_display.
  by destruct (last_entry k kvs).
Qed.

(** Evaluates [last_entry] at a literal key over a display with literal
    keys, leaving the values alone. *)
Ltac eval_entries :=
  unfold last_entry; cbn [foldl fst snd];
  repeat first [ rewrite decide_True by reflexivity
               | rewrite decide_False by discriminate ].

Ltac list_member :=
  repeat (first [ apply list_elem_of_here | apply list_elem_of_further ]).

(** ** WeatherCodeMapper *)

Section Mapper.
Import WeatherCodeMapper.

Lemma lookup_code_int (code : Z) :
  lookup_code (JInt code)
  = Ok (default ("Unknown", "unknown")%string (last_entry code WMO_table)).
Proof.
  unfold lookup_code, WMO_CODES.
  cbn [int_key mbind outcome_bind option_bind]. by rewrite lookup_display.
Qed.

Lemma describe_int (code : Z) :
  describe code
  = Ok (default ("Unknown", "unknown")%string (last_entry code WMO_table)).
Proof.
  unfold describe, get_description, get_condition.
  rewrite lookup_code_int. cbn [mbind outcome_bind]. by destruct (default _ _).
Qed.

Lemma describe_outside (code : Z) :
  code ∉ documented_codes -> last_entry code WMO_table = None.
Proof.
  intros Hout. unfold last_entry, WMO_table. cbn [foldl fst snd].
  repeat (case_decide as Heq;
          [ exfalso; apply Hout; rewrite <- Heq; vm_compute; list_member
          | clear Heq ]).
  reflexivity.
Qed.

(** C7. The mapper is total on the integers; each of the 28 codes of the
    table gets the description and the category listed here, which are
    those of lines 62-89; the categories are the documented ones; every
    other integer gets ("Unknown", "unknown"). *)
Theorem mapper_total_and_exact :
  (forall code : Z, exists p, describe code = Ok p)
  /\ Forall (fun entry : Z * (string * string) =>
               get_description (JInt entry.1) = Ok entry.2.1
               /\ get_condition (JInt entry.1) = Ok entry.2.2
               /\ describe entry.1 = Ok entry.2)
       [ (0, ("Clear sky", "clear"));
         (1, ("Mainly clear", "clear"));
         (2, ("Partly cloudy", "cloudy"));
         (3, ("Overcast", "cloudy"));
         (45, ("Fog", "fog"));
         (48, ("Depositing rime fog", "fog"));
         (51, ("Light drizzle", "rain"));
         (53, ("Moderate drizzle", "rain"));
         (55, ("Dense drizzle", "rain"));
         (56, ("Light freezing drizzle", "rain"));
         (57, ("Dense freezing drizzle", "rain"));
         (61, ("Slight rain", "rain"));
         (63, ("Moderate rain", "rain"));
         (65, ("Heavy rain", "rain"));
         (66, ("Light freezing rain", "rain"));
         (67, ("Heavy freezing rain", "rain"));
         (71, ("Slight snow fall", "snow"));
         (73, ("Moderate snow fall", "snow"));
         (75, ("Heavy snow fall", "snow"));
         (77, ("Snow grains", "snow"));
         (80, ("Slight rain showers", "rain"));
         (81, ("Moderate rain showers", "rain"));
         (82, ("Violent rain showers", "rain"));
         (85, ("Slight snow showers", "snow"));
         (86, ("Heavy snow showers", "snow"));
         (95, ("Thunderstorm", "storm"));
         (96, ("Thunderstorm with slight hail", "storm"));
         (99, ("Thunderstorm with heavy hail", "storm")) ]%string
  /\ (forall (codes : list Z) (cat : string) (code : Z),
        (codes, cat) ∈ documented_categories -> code ∈ codes ->
        exists d : string,
          (code, (d, cat)) ∈ WMO_table
          /\ get_description (JInt code) = Ok d
          /\ get_condition (JInt code) = Ok cat
          /\ describe code = Ok (d, cat))
  /\ (forall code : Z,
        code ∉ documented_codes ->
        get_description (JInt code) = Ok "Unknown"%string
        /\ get_condition (JInt code) = Ok "unknown"%string
        /\ describe code = Ok ("Unknown", "unknown")%string).
Proof.
  split; [| split; [| split]].
  - intros code. rewrite describe_int. eauto.
  - repeat (constructor; [split; [| split]; vm_compute; reflexivity |]).
    constructor.
  - intros codes cat code Hcat Hcode. unfold documented_categories in Hcat.
    repeat (apply elem_of_cons in Hcat as [Hcat | Hcat]);
      try (by apply elem_of_nil in Hcat);
      injection Hcat as -> ->;
      repeat (apply elem_of_cons in Hcode as [-> | Hcode]);
      try (by apply elem_of_nil in Hcode);
      unfold get_description, get_condition;
      rewrite describe_int, lookup_code_int;
      (eexists; split; [| split; [| split]; vm_compute; reflexivity]);
      unfold WMO_table; list_member.
  - intros code Hout. unfold get_description, get_condition.
    rewrite describe_int, lookup_code_int, (describe_outside code Hout).
    by cbn.
Qed.

(** The theorem at code 63 (documented, rain) and at code 4 (not in the table). *)
Lemma mapper_total_and_exact_witness :
  (exists d : string,
     (63, (d, "rain"%string)) ∈ WMO_table
     /\ get_description (JInt 63) = Ok d
     /\ get_condition (JInt 63) = Ok "rain"%string
     /\ describe 63 = Ok (d, "rain"%string))
  /\ describe 4 = Ok ("Unknown", "unknown")%string.
Proof.
  split.
  - apply (proj1 (proj2 (proj2 mapper_total_and_exact))
             [51; 53; 55; 56; 57; 61; 63; 65; 66; 67; 80; 81; 82] "rain"%string 63).
    + unfold documented_categories. list_member.
    + list_member.
  - apply (proj2 (proj2 (proj2 mapper_total_and_exact)) 4).
    unfold documented_codes. cbn. intros Hin.
    repeat (apply elem_of_cons in Hin as [Hin | Hin]; [discriminate Hin |]).
    by apply elem_of_nil in Hin.
Defined.

End Mapper.

(** ** Whitespace and [strip] *)

Lemma lstrip_cps_blank (cs : list string) :
  forallb isspace cs = true -> lstrip_cps cs = [].
Proof.
  induction cs as [|c cs IH]; cbn [forallb lstrip_cps]; [done |].
  intros [Hc Hcs]%andb_prop. rewrite Hc. by apply IH.
Qed.

Lemma strip_blank (s : string) : blank s = true -> strip s = ""%string.
Proof.
  unfold blank, strip. intros Hs. by rewrite (lstrip_cps_blank _ Hs).
Qed.

Example strip_spaces : strip "  New York	 " = "New York"%string.
Proof. reflexivity. Qed.

Example strip_no_break_space :
  strip (bytes [194; 160; 80; 97; 114; 105; 115; 226; 128; 137]%nat) = "Paris"%string.
Proof. reflexivity. Qed.

Example title_clear : title "clear" = "Clear"%string.
Proof. reflexivity. Qed.

(** ** TerminalGraph *)

Section GraphProps.
Import TerminalGraph.
Variable format_6_1f : Q -> string.

Lemma placeholder_mentions_title (title : string) :
  mentions (placeholder title) title.
Proof.
  exists (nl +:+ "[GRAPH] ")%string,
         (nl +:+ "Insufficient data for graph display")%string.
  reflexivity.
Qed.

(** C8. With fewer than two samples, or with values and labels of unequal
    length, the renderer returns the text of line 106: a line break,
    "[GRAPH] " and the title, a line break, and "Insufficient data for
    graph display". The text contains the title; nothing is raised. *)
Theorem line_graph_insufficient_data
    (data : list Q) (labels : list string) (title : string) (height : Z)
    (unit : string) :
  (length data < 2)%nat \/ length data <> length labels ->
  create_line_graph format_6_1f data labels title height unit
  = Ok (chr 10 +:+ "[GRAPH] " +:+ title +:+ chr 10
        +:+ "Insufficient data for graph display")%string
  /\ mentions (chr 10 +:+ "[GRAPH] " +:+ title +:+ chr 10
               +:+ "Insufficient data for graph display") title.
Proof.
  intros Hshort. split.
  - change (chr 10 +:+ "[GRAPH] " +:+ title +:+ chr 10
            +:+ "Insufficient data for graph display")%string
      with (placeholder title).
    unfold create_line_graph. destruct data as [|x xs]; [done |].
    destruct Hshort as [Hlt | Hne].
    + apply Nat.ltb_lt in Hlt. rewrite Hlt. by rewrite orb_true_r.
    + apply Nat.eqb_neq in Hne. by rewrite Hne.
  - apply placeholder_mentions_title.
Qed.

End GraphProps.

(** The theorem on a single sample, and on three samples with two labels. *)
Lemma line_graph_insufficient_data_witness :
  TerminalGraph.create_line_graph Sample.str_num [21 # 2] ["05/01"%string]
    "Max Temperature Trend" 10 "°C"
  = Ok (chr 10 +:+ "[GRAPH] Max Temperature Trend" +:+ chr 10
        +:+ "Insufficient data for graph display")%string
  /\ TerminalGraph.create_line_graph Sample.str_num [1; 2; 3]%Q
       ["a"; "b"]%string "Wind" 10 ""
     = Ok (chr 10 +:+ "[GRAPH] Wind" +:+ chr 10
           +:+ "Insufficient data for graph display")%string.
Proof.
  split.
  - apply (proj1 (line_graph_insufficient_data Sample.str_num [21 # 2]
                    ["05/01"%string] "Max Temperature Trend" 10 "°C"
                    ltac:(left; cbn; lia))).
  - apply (proj1 (line_graph_insufficient_data Sample.str_num [1; 2; 3]%Q
                    ["a"; "b"]%string "Wind" 10 ""
                    ltac:(right; cbn; lia))).
Defined.

(** A graph that is drawn: two samples on three rows. *)
Example line_graph_two_samples :
  TerminalGraph.create_line_graph (fun _ => "   0.0"%string) [0; 2]%Q
    ["Mon"; "Tuesday"]%string "T" 3 "C"
  = Ok (join TerminalGraph.nl
          [ (TerminalGraph.nl +:+ "[GRAPH] T");
            "============================================================";
            "   0.0C |  ● ";
            "   0.0C |  ─ ";
            "   0.0C |● ─ ";
            "        +───";
            "         Mon  Tue" ])%string.
Proof. vm_compute. reflexivity. Qed.

(** ** get_coordinates *)

Section CoordinatesProps.
Import WeatherService.
Variable http_get : list request -> string -> json -> option json.

(** C10. A city that is empty or made of whitespace only is answered with
    the error object at once: the log of requests is returned unchanged. *)
Theorem blank_city_sends_no_request (city : string) (log : list request) :
  blank city = true ->
  get_coordinates http_get city log
  = (Ok (dict [("error"%string, JStr "City name cannot be empty")]), log).
Proof.
  intros Hblank. unfold get_coordinates.
  rewrite (strip_blank city Hblank). cbn [String.eqb].
  by rewrite orb_true_r.
Qed.

End CoordinatesProps.

(** The theorem on the empty city and on a city of a space, a tab and a
    no-break space. *)
Lemma blank_city_sends_no_request_witness :
  WeatherService.get_coordinates Sample.offline "" []
  = (Ok (dict [("error"%string, JStr "City name cannot be empty")]), [])
  /\ WeatherService.get_coordinates (Sample.http_get true)
       (" 	" +:+ bytes [194; 160]%nat) []
     = (Ok (dict [("error"%string, JStr "City name cannot be empty")]), []).
Proof.
  split.
  - apply (blank_city_sends_no_request Sample.offline "" []). reflexivity.
  - apply (blank_city_sends_no_request (Sample.http_get true)
             (" 	" +:+ bytes [194; 160]%nat) []).
    vm_compute. reflexivity.
Defined.

(** ** Doubles *)

Section Doubles.
Import Float64.
Local Open Scope Q_scope.

Lemma Qltb_lt (a b : Q) : Qltb a b = true <-> a < b.
Proof.
  unfold Qltb. rewrite negb_true_iff. split.
  - intros Hf. apply Qnot_le_lt. intros Hle. apply Qle_bool_iff in Hle. congruence.
  - intros Hlt. destruct (Qle_bool b a) eqn:E; [| done].
    apply Qle_bool_iff in E. exfalso. by apply (Qlt_not_le a b).
Qed.

Lemma Qltb_ge (a b : Q) : Qltb a b = false <-> b <= a.
Proof. unfold Qltb. rewrite negb_false_iff. apply Qle_bool_iff. Qed.

(** Rounding to the nearest integer. *)
Lemma nearest_even_cases (x : Q) :
  let f := Qfloor x in
  (nearest_even x = f /\ x - inject_Z f <= 1 # 2
     /\ (x - inject_Z f == 1 # 2 -> Z.even f = true))
  \/ (nearest_even x = (f + 1)%Z /\ 1 # 2 <= x - inject_Z f
     /\ (x - inject_Z f == 1 # 2 -> Z.even f = false)).
Proof.
  intros f. unfold nearest_even. fold f.
  destruct (Qltb (x - inject_Z f) (1 # 2)) eqn:E1.
  - apply Qltb_lt in E1. left. split; [reflexivity |]. split; [lra |].
    intros Hhalf. lra.
  - apply Qltb_ge in E1.
    destruct (Qltb (1 # 2) (x - inject_Z f)) eqn:E2.
    + apply Qltb_lt in E2. right. split; [reflexivity |]. split; [lra |].
      intros Hhalf. lra.
    + apply Qltb_ge in E2. destruct (Z.even f) eqn:E3.
      * left. split; [reflexivity |]. split; [lra |]. intros _. reflexivity.
      * right. split; [reflexivity |]. split; [lra |]. intros _. reflexivity.
Qed.

Lemma floor_bounds (x : Q) :
  inject_Z (Qfloor x) <= x /\ x < inject_Z (Qfloor x) + 1.
Proof.
  split; [apply Qfloor_le |].
  pose proof (Qlt_floor x) as Hlt. rewrite inject_Z_plus in Hlt. exact Hlt.
Qed.

Lemma nearest_even_monotone (x y : Q) :
  x <= y -> (nearest_even x <= nearest_even y)%Z.
Proof.
  intros Hxy.
  pose proof (Qfloor_resp_le _ _ Hxy) as Hf.
  pose proof (floor_bounds x) as [Hx1 Hx2].
  pose proof (floor_bounds y) as [Hy1 Hy2].
  destruct (nearest_even_cases x) as [(-> & Hx & Hxe) | (-> & Hx & Hxe)];
    destruct (nearest_even_cases y) as [(-> & Hy & Hye) | (-> & Hy & Hye)];
    try lia.
  destruct (Z.eq_dec (Qfloor x) (Qfloor y)) as [E | E]; [| lia].
  exfalso. rewrite <- E in *.
  assert (x - inject_Z (Qfloor x) == 1 # 2) as Hhalf by lra.
  assert (y - inject_Z (Qfloor x) == 1 # 2) as Hhalf' by lra.
  specialize (Hxe Hhalf). specialize (Hye Hhalf'). congruence.
Qed.

Lemma nearest_even_Z (z : Z) : nearest_even (inject_Z z) = z.
Proof.
  unfold nearest_even. rewrite Qfloor_Z.
  assert (Qltb (inject_Z z - inject_Z z) (1 # 2) = true) as ->; [| reflexivity].
  apply Qltb_lt. lra.
Qed.

Lemma nearest_even_at_most (x : Q) (n : Z) :
  x <= inject_Z n -> (nearest_even x <= n)%Z.
Proof.
  intros Hx. rewrite <- (nearest_even_Z n). by apply nearest_even_monotone.
Qed.

Lemma nearest_even_at_least (x : Q) (n : Z) :
  inject_Z n <= x -> (n <= nearest_even x)%Z.
Proof.
  intros Hx. rewrite <- (nearest_even_Z n). by apply nearest_even_monotone.
Qed.

(** Powers of two. *)
Lemma pow2_pos (e : Z) : 0 < pow2 e.
Proof. apply Qpower_0_lt. reflexivity. Qed.

Lemma pow2_plus (a b : Z) : pow2 (a + b) == pow2 a * pow2 b.
Proof. apply Qpower_plus. discriminate. Qed.

Lemma pow2_le (a b : Z) : (a <= b)%Z -> pow2 a <= pow2 b.
Proof. intros Hab. apply Qpower_le_compat_l; [exact Hab |]. discriminate. Qed.

Lemma pow2_lt_inv (a b : Z) : pow2 a < pow2 b -> (a < b)%Z.
Proof. intros Hab. apply (Qpower_lt_compat_l_inv 2); [exact Hab | reflexivity]. Qed.

Lemma pow2_Z (n : Z) : (0 <= n)%Z -> pow2 n == inject_Z (2 ^ n).
Proof. intros Hn. unfold pow2. by rewrite Zpower_Qpower. Qed.

(** [ilog2] finds the binade of a positive rational. *)
Lemma ilog2_spec (q : Q) :
  0 < q -> pow2 (ilog2 q) <= q /\ q < pow2 (ilog2 q + 1).
Proof.
  intros Hq. unfold ilog2.
  destruct q as [n d]. cbn [Qnum Qden].
  assert (0 < n)%Z as Hn.
  { unfold Qlt in Hq. cbn in Hq. lia. }
  set (a := Z.log2 n). set (b := Z.log2 (Z.pos d)).
  pose proof (Z.log2_spec n Hn) as [Ha1 Ha2]. fold a in Ha1, Ha2.
  pose proof (Z.log2_spec (Z.pos d) ltac:(lia)) as [Hb1 Hb2]. fold b in Hb1, Hb2.
  pose proof (Z.log2_nonneg n) as Ha0. fold a in Ha0.
  pose proof (Z.log2_nonneg (Z.pos d)) as Hb0. fold b in Hb0.
  assert (n # d == inject_Z n / inject_Z (Z.pos d)) as Hnd by apply Qmake_Qdiv.
  assert (0 < inject_Z (Z.pos d)) as Hd.
  { replace 0 with (inject_Z 0) by reflexivity. rewrite <- Zlt_Qlt. lia. }
  assert (pow2 a <= inject_Z n) as Qa1.
  { rewrite pow2_Z by lia. rewrite <- Zle_Qle. exact Ha1. }
  assert (inject_Z n < pow2 (a + 1)) as Qa2.
  { rewrite pow2_Z by lia. rewrite <- Zlt_Qlt.
    replace (a + 1)%Z with (Z.succ a) by lia. exact Ha2. }
  assert (pow2 b <= inject_Z (Z.pos d)) as Qb1.
  { rewrite pow2_Z by lia. rewrite <- Zle_Qle. exact Hb1. }
  assert (inject_Z (Z.pos d) < pow2 (b + 1)) as Qb2.
  { rewrite pow2_Z by lia. rewrite <- Zlt_Qlt.
    replace (b + 1)%Z with (Z.succ b) by lia. exact Hb2. }
  assert (n # d < pow2 (a - b + 1)) as Hup.
  { rewrite Hnd. apply Qlt_shift_div_r; [exact Hd |].
    apply Qlt_le_trans with (pow2 (a + 1)); [exact Qa2 |].
    replace (a + 1)%Z with ((a - b + 1) + b)%Z by lia.
    rewrite pow2_plus. apply Qmult_le_l; [apply pow2_pos | exact Qb1]. }
  assert (pow2 (a - b - 1) <= n # d) as Hlo.
  { rewrite Hnd. apply Qle_shift_div_l; [exact Hd |].
    apply Qle_trans with (pow2 a); [| exact Qa1].
    replace a with ((a - b - 1) + (b + 1))%Z at 2 by lia.
    rewrite pow2_plus. apply Qmult_le_l; [apply pow2_pos |].
    apply Qlt_le_weak, Qb2. }
  destruct (Qle_bool (pow2 (a - b)) (n # d)) eqn:E.
  - apply Qle_bool_iff in E. split; [exact E | exact Hup].
  - split; [exact Hlo |].
    replace (a - b - 1 + 1)%Z with (a - b)%Z by lia.
    apply Qnot_le_lt. intros Hle. apply Qle_bool_iff in Hle. congruence.
Qed.

Lemma ilog2_monotone (x y : Q) : 0 < x -> x <= y -> (ilog2 x <= ilog2 y)%Z.
Proof.
  intros Hx Hxy.
  assert (0 < y) as Hy by lra.
  destruct (ilog2_spec x Hx) as [Hx1 _].
  destruct (ilog2_spec y Hy) as [_ Hy2].
  assert (pow2 (ilog2 x) < pow2 (ilog2 y + 1)) as Hlt by lra.
  apply pow2_lt_inv in Hlt. lia.
Qed.

(** Rounding to the nearest double is monotone: within a binade because
    rounding to the nearest integer is, and across binades because the
    doubles of a binade lie between its two powers of two. *)
Lemma round_pos_monotone (x y : Q) :
  0 < x -> x <= y -> round_pos x <= round_pos y.
Proof.
  intros Hx Hxy.
  assert (0 < y) as Hy by lra.
  pose proof (ilog2_monotone x y Hx Hxy) as Hlog.
  destruct (ilog2_spec x Hx) as [_ Hx2].
  destruct (ilog2_spec y Hy) as [Hy1 _].
  unfold round_pos.
  set (e1 := ulp_exponent x). set (e2 := ulp_exponent y).
  assert (e1 <= e2)%Z as He by (unfold e1, e2, ulp_exponent; lia).
  destruct (Z.eq_dec e1 e2) as [E | E].
  - rewrite <- E. apply Qmult_le_compat_r; [| apply Qlt_le_weak, pow2_pos].
    rewrite <- Zle_Qle. apply nearest_even_monotone.
    apply Qmult_le_compat_r; [exact Hxy |].
    apply Qlt_le_weak, Qinv_lt_0_compat, pow2_pos.
  - apply Qle_trans with (pow2 (e1 + 53)).
    + rewrite (Qmult_comm _ (pow2 e1)), pow2_plus.
      apply Qmult_le_l; [apply pow2_pos |].
      rewrite (pow2_Z 53) by lia. rewrite <- Zle_Qle.
      apply nearest_even_at_most. rewrite <- (pow2_Z 53) by lia.
      apply Qle_shift_div_r; [apply pow2_pos |].
      rewrite <- pow2_plus. apply Qlt_le_weak.
      apply Qlt_le_trans with (pow2 (ilog2 x + 1)); [exact Hx2 |].
      apply pow2_le. unfold e1, ulp_exponent. lia.
    + apply Qle_trans with (pow2 (e2 + 52)); [apply pow2_le; lia |].
      rewrite (Qmult_comm _ (pow2 e2)), pow2_plus.
      apply Qmult_le_l; [apply pow2_pos |].
      rewrite (pow2_Z 52) by lia. rewrite <- Zle_Qle.
      apply nearest_even_at_least. rewrite <- (pow2_Z 52) by lia.
      apply Qle_shift_div_l; [apply pow2_pos |].
      rewrite <- pow2_plus.
      apply Qle_trans with (pow2 (ilog2 y)); [| exact Hy1].
      apply pow2_le. unfold e1, e2, ulp_exponent in *. lia.
Qed.

Lemma round_pos_nonneg (x : Q) : 0 < x -> 0 <= round_pos x.
Proof.
  intros Hx. unfold round_pos.
  apply Qmult_le_0_compat; [| apply Qlt_le_weak, pow2_pos].
  replace 0 with (inject_Z 0) by reflexivity. rewrite <- Zle_Qle.
  apply nearest_even_at_least.
  apply Qle_shift_div_l; [apply pow2_pos |].
  change (inject_Z 0) with 0. rewrite Qmult_0_l. lra.
Qed.

Lemma round64_monotone (x y : Q) : x <= y -> round64 x <= round64 y.
Proof.
  intros Hxy. unfold round64.
  destruct (Qcompare_spec x 0) as [Ex | Ex | Ex];
    destruct (Qcompare_spec y 0) as [Ey | Ey | Ey]; try lra.
  - apply round_pos_nonneg. exact Ey.
  - pose proof (round_pos_nonneg (- x) ltac:(lra)). lra.
  - apply Qopp_le_compat. apply round_pos_monotone; lra.
  - pose proof (round_pos_nonneg (- x) ltac:(lra)).
    pose proof (round_pos_nonneg y ltac:(lra)). lra.
  - apply round_pos_monotone; lra.
Qed.

Lemma round64_between (lo hi x : Q) :
  lo <= x <= hi -> round64 lo <= round64 x <= round64 hi.
Proof. intros [Hlo Hhi]. split; by apply round64_monotone. Qed.

(** A result within the range of doubles is finite. *)
Lemma of_Q_fin (q : Q) :
  - max_double <= round64 q <= max_double -> of_Q q = Fin (round64 q).
Proof.
  intros [Hlo Hhi]. unfold of_Q. cbv zeta.
  rewrite (proj2 (Qltb_ge _ _) Hhi), (proj2 (Qltb_ge _ _) Hlo). reflexivity.
Qed.

Lemma div_fin (x y : Q) :
  ~ y == 0 -> div (Fin x) (Fin y) = Ok (of_Q (x / y)).
Proof.
  intros Hy. unfold div.
  destruct (Qeq_bool y 0) eqn:E; [| reflexivity].
  apply Qeq_bool_iff in E. contradiction.
Qed.

End Doubles.

(** Decides a closed comparison of rationals by computation. *)
Ltac qcompute :=
  first [ apply Qle_bool_iff | apply Qltb_lt | apply Qeq_bool_iff ];
  vm_compute; reflexivity.

(** ** The temperature gauge *)

Section GaugeProps.
Import WeatherService Float64.

(** [int] truncates toward zero: it is monotone, and it keeps a value
    within integer bounds that enclose it. *)
Lemma int_nonneg (x : Q) : (0 <= x)%Q -> int x = Qfloor x /\ 0 <= Qfloor x.
Proof.
  intros Hx. unfold int. rewrite (proj2 (Qle_bool_iff 0 x) Hx). split; [done |].
  change 0 with (Qfloor (inject_Z 0)). by apply Qfloor_resp_le.
Qed.

Lemma int_neg (x : Q) : (x < 0)%Q -> int x = Qceiling x /\ Qceiling x <= 0.
Proof.
  intros Hx. unfold int.
  destruct (Qle_bool 0 x) eqn:E.
  - apply Qle_bool_iff in E. exfalso. by apply (Qlt_not_le x 0).
  - split; [done |].
    change 0 with (Qceiling (inject_Z 0)). apply Qceiling_resp_le.
    by apply Qlt_le_weak.
Qed.

Lemma int_monotone (x y : Q) : (x <= y)%Q -> int x <= int y.
Proof.
  intros Hxy.
  destruct (Qlt_le_dec x 0) as [Hx | Hx], (Qlt_le_dec y 0) as [Hy | Hy].
  - destruct (int_neg x Hx) as [-> _], (int_neg y Hy) as [-> _].
    by apply Qceiling_resp_le.
  - destruct (int_neg x Hx) as [-> ?], (int_nonneg y Hy) as [-> ?]. lia.
  - exfalso. apply (Qlt_not_le y 0 Hy). by apply Qle_trans with x.
  - destruct (int_nonneg x Hx) as [-> _], (int_nonneg y Hy) as [-> _].
    by apply Qfloor_resp_le.
Qed.

Lemma int_at_least (x : Q) (n : Z) : (inject_Z n <= x)%Q -> 0 <= n -> n <= int x.
Proof.
  intros Hn Hpos.
  assert (0 <= x)%Q as Hx.
  { apply Qle_trans with (inject_Z n); [| done].
    change (inject_Z 0 <= inject_Z n)%Q. by rewrite <- Zle_Qle. }
  destruct (int_nonneg x Hx) as [-> _].
  rewrite <- (Qfloor_Z n). by apply Qfloor_resp_le.
Qed.

Lemma int_at_most (x : Q) (n : Z) : (0 <= x)%Q -> (x <= inject_Z n)%Q -> int x <= n.
Proof.
  intros Hx Hn. destruct (int_nonneg x Hx) as [-> _].
  rewrite <- (Qfloor_Z n). by apply Qfloor_resp_le.
Qed.

Lemma int_nonpos (x : Q) : (x <= 0)%Q -> int x <= 0.
Proof. intros Hx. change 0 with (int 0). by apply int_monotone. Qed.

Lemma clamp_range (x lo hi : Z) : lo <= hi -> lo <= clamp x lo hi <= hi.
Proof. unfold clamp. lia. Qed.

Lemma clamp_monotone (x y lo hi : Z) : x <= y -> clamp x lo hi <= clamp y lo hi.
Proof. unfold clamp. lia. Qed.

(** The scaled temperature with the default range. *)
Lemma range_span : sub max_range min_range = Fin span.
Proof. vm_compute. reflexivity. Qed.

Lemma span_positive : (0 < span)%Q.
Proof. qcompute. Qed.

Lemma scaled_value_monotone (t1 t2 : Q) :
  (t1 <= t2)%Q -> (scaled_value t1 <= scaled_value t2)%Q.
Proof.
  intros Ht. unfold scaled_value.
  apply round64_monotone. apply Qmult_le_compat_r; [| qcompute].
  apply round64_monotone.
  apply Qmult_le_compat_r; [| apply Qlt_le_weak, Qinv_lt_0_compat, span_positive].
  apply round64_monotone. lra.
Qed.

Lemma scaled_value_at_min : (scaled_value (inject_Z (-20)) == 0)%Q.
Proof. qcompute. Qed.

Lemma scaled_value_at_max : (scaled_value (inject_Z 50) == inject_Z 49)%Q.
Proof. qcompute. Qed.

(** On a finite temperature no operation of the expression overflows. *)
Lemma scaled_finite (t : Q) :
  (- max_double <= t <= max_double)%Q ->
  scaled (Fin t) = Ok (Fin (scaled_value t)).
Proof.
  intros [Hlo Hhi]. unfold scaled. rewrite range_span.
  change (sub (Fin t) min_range) with (of_Q (t - inject_Z (-20))).
  destruct (round64_between (- max_double - inject_Z (-20))
              (max_double - inject_Z (-20)) (t - inject_Z (-20)))
    as [H1lo H1hi]; [split; lra |].
  set (r1 := round64 (t - inject_Z (-20))) in *.
  assert (- max_double <= r1 <= max_double)%Q as [B1lo B1hi].
  { split.
    - apply Qle_trans with (round64 (- max_double - inject_Z (-20))); [qcompute | done].
    - apply Qle_trans with (round64 (max_double - inject_Z (-20))); [done | qcompute]. }
  rewrite (of_Q_fin (t - inject_Z (-20))) by done. fold r1.
  rewrite div_fin by (intros Hz; pose proof span_positive; lra).
  cbn [mbind outcome_bind].
  assert (- max_double / span <= r1 / span <= max_double / span)%Q as Hq.
  { unfold Qdiv. split; (apply Qmult_le_compat_r;
      [done | apply Qlt_le_weak, Qinv_lt_0_compat, span_positive]). }
  destruct (round64_between _ _ _ Hq) as [H2lo H2hi].
  set (r2 := round64 (r1 / span)) in *.
  assert (- max_double <= r2 <= max_double)%Q as [B2lo B2hi].
  { split.
    - apply Qle_trans with (round64 (- max_double / span)); [qcompute | done].
    - apply Qle_trans with (round64 (max_double / span)); [done | qcompute]. }
  rewrite (of_Q_fin (r1 / span)) by done. fold r2.
  change (mul (Fin r2) (of_int (bar_length - 1)))
    with (of_Q (r2 * inject_Z (bar_length - 1))).
  assert (round64 (- max_double / span) * inject_Z (bar_length - 1)
          <= r2 * inject_Z (bar_length - 1)
          <= round64 (max_double / span) * inject_Z (bar_length - 1))%Q as Hm.
  { split; (apply Qmult_le_compat_r; [done | qcompute]). }
  destruct (round64_between _ _ _ Hm) as [H3lo H3hi].
  rewrite of_Q_fin; [reflexivity |]. split.
  - eapply Qle_trans; [| exact H3lo]. qcompute.
  - eapply Qle_trans; [exact H3hi |]. qcompute.
Qed.

Lemma scaled_then_int (temp : float) :
  (ratio ← div (sub temp min_range) (sub max_range min_range);
   to_int (mul ratio (of_int (bar_length - 1))))
  = (e ← scaled temp; to_int e).
Proof. unfold scaled. by destruct (div _ _). Qed.

(** What lines 277-282 compute on a finite temperature. *)
Lemma temp_pos_fin (t : Q) :
  temp_pos (Fin t) min_range max_range
  = if Qltb t (inject_Z (-20)) then Ok 0
    else if Qltb (inject_Z 50) t then Ok (bar_length - 1)
    else Ok (int (scaled_value t)).
Proof.
  unfold temp_pos.
  change (lt (Fin t) min_range) with (Qltb t (inject_Z (-20))).
  change (lt max_range (Fin t)) with (Qltb (inject_Z 50) t).
  destruct (Qltb t (inject_Z (-20))) eqn:Hlo; [done |].
  destruct (Qltb (inject_Z 50) t) eqn:Hhi; [done |].
  apply Qltb_ge in Hlo, Hhi.
  rewrite scaled_then_int, scaled_finite; [done |]. split.
  - apply Qle_trans with (inject_Z (-20)); [qcompute | done].
  - apply Qle_trans with (inject_Z 50); [done | qcompute].
Qed.

Lemma scaled_value_in_range (t : Q) :
  (inject_Z (-20) <= t)%Q -> (t <= inject_Z 50)%Q ->
  0 <= int (scaled_value t) <= bar_length - 1.
Proof.
  intros Hlo Hhi.
  pose proof (scaled_value_monotone _ _ Hlo) as H0.
  pose proof (scaled_value_monotone _ _ Hhi) as H49.
  rewrite scaled_value_at_min in H0. rewrite scaled_value_at_max in H49.
  pose proof (int_at_most _ 49 H0 H49).
  destruct (int_nonneg _ H0) as [Hint ?]. unfold bar_length. lia.
Qed.

(** A position that is computed lies on the bar. *)
Lemma temp_pos_on_bar (temp : float) (pos : Z) :
  temp_pos temp min_range max_range = Ok pos -> 0 <= pos <= bar_length - 1.
Proof.
  destruct temp as [t | [] |].
  - rewrite temp_pos_fin.
    destruct (Qltb t (inject_Z (-20))) eqn:Hlo; [intros [= <-]; done |].
    destruct (Qltb (inject_Z 50) t) eqn:Hhi; [intros [= <-]; done |].
    apply Qltb_ge in Hlo, Hhi. intros [= <-]. by apply scaled_value_in_range.
  - intros [= <-]. done.
  - intros [= <-]. done.
  - vm_compute. discriminate.
Qed.

(** Every temperature that is a number has a position. *)
Lemma temp_pos_number (temp : float) :
  is_nan temp = false ->
  exists pos : Z, temp_pos temp min_range max_range = Ok pos.
Proof.
  destruct temp as [t | [] |]; intros Hnan; [| by eexists | by eexists | done].
  rewrite temp_pos_fin.
  destruct (Qltb t (inject_Z (-20))); [by eexists |].
  destruct (Qltb (inject_Z 50) t); by eexists.
Qed.

Lemma temp_pos_below (temp : float) :
  lt temp min_range = true -> temp_pos temp min_range max_range = Ok 0.
Proof. intros Hlt. unfold temp_pos. by rewrite Hlt. Qed.

Lemma temp_pos_above (temp : float) :
  lt max_range temp = true ->
  temp_pos temp min_range max_range = Ok (bar_length - 1).
Proof.
  intros Hlt. unfold temp_pos. rewrite Hlt.
  destruct temp as [t | [] |]; try done.
  change (lt (Fin t) min_range) with (Qltb t (inject_Z (-20))).
  change (lt max_range (Fin t)) with (Qltb (inject_Z 50) t) in Hlt.
  apply Qltb_lt in Hlt.
  assert (Qltb t (inject_Z (-20)) = false) as ->; [| done].
  apply Qltb_ge. unfold inject_Z in *. lra.
Qed.

(** The position does not decrease when the temperature rises. *)
Lemma temp_pos_monotone (t1 t2 : float) (p1 p2 : Z) :
  le t1 t2 = true ->
  temp_pos t1 min_range max_range = Ok p1 ->
  temp_pos t2 min_range max_range = Ok p2 ->
  p1 <= p2.
Proof.
  intros Hle H1 H2.
  pose proof (temp_pos_on_bar _ _ H1) as B1.
  pose proof (temp_pos_on_bar _ _ H2) as B2.
  destruct t1 as [x | [] |], t2 as [y | [] |]; try discriminate Hle.
  - change (Qle_bool x y = true) in Hle. apply Qle_bool_iff in Hle.
    rewrite temp_pos_fin in H1, H2.
    destruct (Qltb x (inject_Z (-20))) eqn:Hx1; [injection H1 as <-; lia |].
    destruct (Qltb y (inject_Z (-20))) eqn:Hy1.
    { apply Qltb_ge in Hx1. apply Qltb_lt in Hy1. lra. }
    destruct (Qltb (inject_Z 50) y) eqn:Hy2; [injection H2 as <-; lia |].
    destruct (Qltb (inject_Z 50) x) eqn:Hx2.
    { apply Qltb_lt in Hx2. apply Qltb_ge in Hy2. lra. }
    injection H1 as <-. injection H2 as <-.
    by apply int_monotone, scaled_value_monotone.
  - injection H2 as <-. lia.
  - injection H1 as <-. lia.
  - injection H1 as <-. lia.
  - injection H1 as <-. lia.
  - injection H2 as <-. lia.
Qed.

(** On a finite temperature the position is the scaled temperature
    truncated toward zero and clamped to the bar. *)
Lemma temp_pos_truncated (temp : float) :
  finite temp = true ->
  temp_pos temp min_range max_range = truncated_pos temp.
Proof.
  destruct temp as [t | |]; [| discriminate..].
  intros [Hlo Hhi]%andb_prop. apply Qle_bool_iff in Hlo, Hhi.
  unfold truncated_pos. rewrite scaled_finite by done.
  cbn [mbind outcome_bind to_int]. rewrite temp_pos_fin. unfold clamp.
  destruct (Qltb t (inject_Z (-20))) eqn:H1.
  - apply Qltb_lt in H1.
    assert (scaled_value t <= 0)%Q as Hs.
    { rewrite <- scaled_value_at_min. apply scaled_value_monotone. lra. }
    pose proof (int_nonpos _ Hs). f_equal. unfold bar_length. lia.
  - apply Qltb_ge in H1. destruct (Qltb (inject_Z 50) t) eqn:H2.
    + apply Qltb_lt in H2.
      assert (inject_Z 49 <= scaled_value t)%Q as Hs.
      { rewrite <- scaled_value_at_max. apply scaled_value_monotone. lra. }
      pose proof (int_at_least _ 49 Hs ltac:(lia)). f_equal. unfold bar_length. lia.
    + apply Qltb_ge in H2.
      pose proof (scaled_value_in_range t H1 H2). f_equal. lia.
Qed.

(** A row of cells of which the one at [pos] only shows the glyph. *)
Lemma count_single (glyph : string) (f : nat -> string) (pos n : nat) :
  f pos = glyph -> (forall i, i <> pos -> f i <> glyph) ->
  forall start : nat,
    count_cells glyph (map f (seq start n))
    = if bool_decide (start <= pos < start + n)%nat then 1%nat else 0%nat.
Proof.
  intros Hpos Hother. unfold count_cells.
  induction n as [|n IH]; intros start; cbn [seq map count_occ].
  - rewrite bool_decide_eq_false_2; [done | lia].
  - rewrite (IH (S start)). destruct (string_dec (f start) glyph) as [Heq | Hne].
    + assert (start = pos) as -> by (destruct (decide (start = pos)); [done | by destruct (Hother start)]).
      rewrite bool_decide_eq_false_2 by lia.
      rewrite bool_decide_eq_true_2 by lia. done.
    + assert (start <> pos) by congruence.
      destruct (decide (S start <= pos < S start + n)%nat).
      * rewrite !bool_decide_eq_true_2 by lia. done.
      * rewrite !bool_decide_eq_false_2 by lia. done.
Qed.

Lemma bar_cell_marker (temp : float) (pos i : Z) :
  bar_cell temp pos i = MARKER <-> i = pos.
Proof.
  unfold bar_cell. destruct (Z.eqb_spec i pos) as [-> | Hne]; [done |].
  split; [| done].
  destruct (i <? pos); [destruct (lt temp _); [| destruct (lt temp _)] |];
    discriminate.
Qed.

Lemma bar_chars_one_marker (temp : float) (pos : Z) :
  0 <= pos <= bar_length - 1 ->
  length (bar_chars temp pos) = Z.to_nat bar_length
  /\ count_cells MARKER (bar_chars temp pos) = 1%nat.
Proof.
  intros Hpos. unfold bar_chars. split.
  - by rewrite length_map, length_seq.
  - rewrite (count_single MARKER _ (Z.to_nat pos)).
    + rewrite bool_decide_eq_true_2; [done |]. unfold bar_length in *. lia.
    + apply bar_cell_marker. lia.
    + intros i Hi Hm. apply bar_cell_marker in Hm. lia.
Qed.

(** The cell at [pos], and no other, shows the marker. *)
Lemma bar_chars_marker_at (temp : float) (pos : Z) (i : nat) :
  0 <= pos <= bar_length - 1 ->
  bar_chars temp pos !! i = Some MARKER <-> i = Z.to_nat pos.
Proof.
  intros Hpos. unfold bar_chars. rewrite list_lookup_fmap. split.
  - destruct (seq 0 (Z.to_nat bar_length) !! i) as [j |] eqn:Hj; [| discriminate].
    apply lookup_seq in Hj as [-> _]. cbn [fmap option_fmap option_map Nat.add].
    intros [= Hm]. apply bar_cell_marker in Hm. lia.
  - intros ->. rewrite (proj2 (lookup_seq 0 _ (Z.to_nat pos) (Z.to_nat pos))).
    + cbn [fmap option_fmap option_map]. f_equal. apply bar_cell_marker. lia.
    + unfold bar_length in *. split; lia.
Qed.

(** The bar is made of the fill glyph of the temperature band up to the
    marker, the marker, and the placeholder after it. *)
Lemma bar_chars_layout (temp : float) (pos : Z) :
  0 <= pos <= bar_length - 1 ->
  bar_chars temp pos
  = replicate (Z.to_nat pos) (fill_glyph temp)
    ++ MARKER :: replicate (Z.to_nat (bar_length - 1 - pos)) EMPTY.
Proof.
  intros Hpos. unfold bar_chars, bar_cell, fill_glyph.
  assert (pos ∈ seqZ 0 50) as Hin by (apply elem_of_seqZ; unfold bar_length in *; lia).
  destruct (lt temp (of_int 0)), (lt temp (of_int 20));
    revert Hin; clear;
    cbv [seqZ Z.to_nat Pos.to_nat Pos.iter_op Init.Nat.add seq fmap list_fmap
         Z.of_nat Pos.of_succ_nat Pos.succ Z.add];
    intros Hin;
    repeat (apply elem_of_cons in Hin as [-> | Hin]; [vm_compute; reflexivity |]);
    by apply elem_of_nil in Hin.
Qed.

(** Each cell of the bar is one code point of the joined string. *)
Lemma bar_codepoints (temp : float) (pos : Z) :
  0 <= pos <= bar_length - 1 ->
  codepoints (join "" (bar_chars temp pos)) = bar_chars temp pos.
Proof.
  intros Hpos. unfold bar_chars, bar_cell.
  assert (pos ∈ seqZ 0 50) as Hin by (apply elem_of_seqZ; unfold bar_length in *; lia).
  destruct (lt temp (of_int 0)), (lt temp (of_int 20));
    revert Hin; clear; cbv [seqZ Z.to_nat Pos.to_nat Pos.iter_op Init.Nat.add seq fmap list_fmap Z.of_nat Pos.of_succ_nat Pos.succ Z.add];
    intros Hin;
    repeat (apply elem_of_cons in Hin as [-> | Hin]; [vm_compute; reflexivity |]);
    by apply elem_of_nil in Hin.
Qed.

End GaugeProps.

Section GaugeTheorems.
Import WeatherService Float64.
Variable str_num : float -> string.

(** The text of the gauge, given the position of the marker. *)
Lemma create_temp_bar_at (temp : float) (pos : Z) :
  temp_pos temp min_range max_range = Ok pos ->
  create_temp_bar str_num temp min_range max_range
  = Ok (str_num min_range +:+ "°C " +:+
        ("[" +:+ join "" (bar_chars temp pos) +:+ "]") +:+ " " +:+
        str_num max_range +:+ "°C" +:+ TerminalGraph.nl +:+
        "        Current: " +:+ str_num temp +:+ "°C")%string.
Proof. intros Hpos. unfold create_temp_bar. by rewrite Hpos. Qed.

(** C4, as the code has it. For a temperature that is a number the gauge
    is rendered without an error and its marker is the cell at [pos]:
    the scaled temperature, computed in doubles, truncated toward zero
    ([int], not [round]) and clamped to the bar when the temperature is
    finite; 0 for a temperature below the range and [barLength - 1] for
    one above it, the infinities included. *)
Theorem gauge_position_truncates (temp : float) :
  is_nan temp = false ->
  exists pos : Z,
    temp_pos temp min_range max_range = Ok pos
    /\ (finite temp = true -> truncated_pos temp = Ok pos)
    /\ (lt temp min_range = true -> pos = 0)
    /\ (lt max_range temp = true -> pos = bar_length - 1)
    /\ 0 <= pos <= bar_length - 1
    /\ (forall i : nat, bar_chars temp pos !! i = Some MARKER <-> i = Z.to_nat pos)
    /\ create_temp_bar str_num temp min_range max_range
       = Ok (str_num min_range +:+ "°C " +:+
             ("[" +:+ join "" (bar_chars temp pos) +:+ "]") +:+ " " +:+
             str_num max_range +:+ "°C" +:+ TerminalGraph.nl +:+
             "        Current: " +:+ str_num temp +:+ "°C")%string.
Proof.
  intros Hnan. destruct (temp_pos_number temp Hnan) as [pos Hpos].
  pose proof (temp_pos_on_bar temp pos Hpos) as Hbar.
  exists pos. split; [done |]. split; [| split; [| split; [| split; [| split]]]].
  - intros Hfin. by rewrite <- temp_pos_truncated.
  - intros Hlt. rewrite (temp_pos_below temp Hlt) in Hpos. congruence.
  - intros Hlt. rewrite (temp_pos_above temp Hlt) in Hpos. congruence.
  - done.
  - intros i. by apply bar_chars_marker_at.
  - by apply create_temp_bar_at.
Qed.


End GaugeTheorems.

(** C4, as the specification words it, fails at 1 degree: the scaled
    temperature is about 14.7, which [int] truncates to 14 and [round]
    takes to 15. *)
Lemma gauge_position_not_rounded :
  WeatherService.temp_pos (Float64.of_int 1) min_range max_range = Ok 14
  /\ spec_pos (Float64.of_int 1) = Ok 15
  /\ truncated_pos (Float64.of_int 1) = Ok 14
  /\ WeatherService.temp_pos (Float64.of_int 1) min_range max_range
     <> spec_pos (Float64.of_int 1).
Proof. repeat split; try (vm_compute; reflexivity). vm_compute. discriminate. Qed.

(** The amended C4 at -30 degrees, at 1 degree and at plus infinity. *)
Lemma gauge_position_truncates_witness :
  (exists pos : Z,
      WeatherService.temp_pos (Float64.of_int (-30)) min_range max_range = Ok pos
      /\ pos = 0)
  /\ (exists pos : Z,
        WeatherService.temp_pos (Float64.of_int 1) min_range max_range = Ok pos
        /\ truncated_pos (Float64.of_int 1) = Ok pos
        /\ WeatherService.bar_chars (Float64.of_int 1) pos !! 14%nat
           = Some WeatherService.MARKER)
  /\ (exists pos : Z,
        WeatherService.temp_pos (Float64.Inf false) min_range max_range = Ok pos
        /\ pos = 49).
Proof.
  split; [| split].
  - destruct (gauge_position_truncates Sample.str_float (Float64.of_int (-30))
                ltac:(reflexivity))
      as (pos & Hpos & _ & Hlow & _).
    exists pos. split; [exact Hpos |]. apply Hlow. vm_compute. reflexivity.
  - destruct (gauge_position_truncates Sample.str_float (Float64.of_int 1)
                ltac:(reflexivity))
      as (pos & Hpos & Htrunc & _ & _ & _ & Hmark & _).
    exists pos. split; [exact Hpos |].
    assert (truncated_pos (Float64.of_int 1) = Ok pos) as Ht.
    { apply Htrunc. vm_compute. reflexivity. }
    split; [exact Ht |]. apply Hmark.
    assert (Ok pos = Ok 14) as [= ->]; [| reflexivity].
    rewrite <- Ht. vm_compute. reflexivity.
  - destruct (gauge_position_truncates Sample.str_float (Float64.Inf false)
                ltac:(reflexivity))
      as (pos & Hpos & _ & _ & Hhigh & _).
    exists pos. split; [exact Hpos |]. apply Hhigh. reflexivity.
Defined.


Example gauge_positions :
  WeatherService.temp_pos (Float64.of_int 5) min_range max_range = Ok 17
  /\ WeatherService.temp_pos (Float64.Fin (43 # 2)) min_range max_range = Ok 29
  /\ WeatherService.temp_pos Float64.NaN min_range max_range = Raise ValueError.
Proof. repeat split; vm_compute; reflexivity. Qed.

Example gauge_bar_at_minus_5 :
  join "" (WeatherService.bar_chars (Float64.of_int (-5)) 10)
  = "▓▓▓▓▓▓▓▓▓▓●......................................."%string.
Proof. vm_compute. reflexivity. Qed.

(** ** The doubles of the machine *)

Module Binary64.
Import PrimFloat.

(** [Float64] and the binary64 unit of the machine compute the same
    differences, products, quotients and comparisons on these operands,
    among them subnormal numbers, ties, overflows and the infinities. *)
Example float64_agrees_with_binary64 :
  forallb agrees
    [ (-0x1.6db6db6db6db7p+3, -20); (0x1.1249249249249p+3, 70);
      (0x1.f5c28f5c28f5cp-4, 49); (0x1.999999999999ap-4, 0x1.999999999999ap-3);
      (1, 3); (3, 1); (0x1p-1074, 2); (0x1p-1074, 0x1.8p+0);
      (0x0.00000000007e8p-1022, 3); (0x0.012688b70e62bp-1022, 0x1.3333333333333p-2);
      (0x1.fffffffffffffp+1023, -0x1.fffffffffffffp+1023);
      (0x1.fffffffffffffp+1023, 0x1p+970); (0x1.fffffffffffffp+1023, 0x1p+969);
      (0x1.1ccf385ebc8ap+1023, -0x1.1ccf385ebc8ap+1023);
      (0x1.fffffffffffffp+52, 0x1p-1); (0x1.ffffffffffffep+52, 0x1p-1);
      (0x1p+53, 1); (0x1.0000000000001p+0, 0x1.0000000000001p+0);
      (-0x1.d333333333333p+2, 0x1.70ef54646d497p-57);
      (PrimFloat.infinity, 2); (2, PrimFloat.infinity);
      (PrimFloat.infinity, PrimFloat.infinity);
      (PrimFloat.neg_infinity, PrimFloat.infinity);
      (PrimFloat.nan, 1); (1, PrimFloat.nan); (0, 5); (-5, 0) ]%float
  = true.
Proof. vm_compute. reflexivity. Qed.

(** The gauge at the double nearest to -11.428571428571429, where the exact
    quotient is just below 6 and the quotient of doubles is 6. *)
Example gauge_position_rounds_up :
  WeatherService.temp_pos (of_prim (-0x1.6db6db6db6db7p+3)%float)
    min_range max_range = Ok 6.
Proof. vm_compute. reflexivity. Qed.

(** A range whose width overflows: the quotient of two infinities is a
    NaN, on which [int] raises. *)
Example gauge_range_overflow :
  WeatherService.temp_pos (of_prim 0x1.1ccf385ebc8ap+1023%float)
    (of_prim (-0x1.1ccf385ebc8ap+1023)%float)
    (of_prim 0x1.1ccf385ebc8ap+1023%float)
  = Raise ValueError.
Proof. vm_compute. reflexivity. Qed.

End Binary64.

(** ** The service *)

Section ServiceProps.
Import WeatherService.
Variable http_get : list request -> string -> json -> option json.
Variable str_other : json -> string.

Lemma io_bind_run {A B : Type} (m : io A) (f : A -> io B) (log : list request) :
  (m ≫= f) log
  = match m log with
    | (Ok a, log') => f a log'
    | (Raise e, log') => (Raise e, log')
    end.
Proof. reflexivity. Qed.

Lemma get_coordinates_cases (city : string) (log : list request) :
  exists (out : outcome json) (log' : list request),
    get_coordinates http_get city log = (out, log')
    /\ resolution out
    /\ (log' = log \/ log' = log ++ [(geo_url, geo_params (strip city))]).
Proof.
  unfold get_coordinates.
  destruct (String.eqb city "" || String.eqb (strip city) "").
  { do 2 eexists. split; [reflexivity |]. split; [constructor | by left]. }
  rewrite io_bind_run. unfold make_request.
  set (data := default JNull _).
  destruct (truthy data); cbn [negb].
  2:{ do 2 eexists. split; [reflexivity |]. split; [constructor | by right]. }
  unfold lift.
  do 2 eexists. split; [reflexivity |]. split; [| by right].
  destruct (get data "results" JNull) as [results |]; cbn [mbind outcome_bind];
    [| constructor].
  match goal with |- resolution (mbind _ ?m) => destruct m as [[] |] end;
    cbn [mbind outcome_bind]; try constructor.
  repeat (match goal with |- resolution (mbind _ ?m) => destruct m end;
          cbn [mbind outcome_bind]; [| constructor]).
  constructor.
Qed.

Lemma current_result_shape (coords data r : json) :
  current_result coords data = Ok r ->
  exists (cur : gmap string json) (description condition : string)
         (name country lat lon : json),
    field data "current" = Some (JObj cur)
    /\ WeatherCodeMapper.get_description (default (JInt 0) (cur !! "weather_code"%string)) = Ok description
    /\ WeatherCodeMapper.get_condition (default (JInt 0) (cur !! "weather_code"%string)) = Ok condition
    /\ r = dict
    [ ("location", dict
         [ ("name", name);
           ("country", country);
           ("coordinates", dict [("lat", lat); ("lon", lon)]) ]);
      ("current", dict
         [ ("temperature", reading cur "temperature_2m");
           ("feels_like", reading cur "apparent_temperature");
           ("humidity", reading cur "relative_humidity_2m");
           ("pressure", reading cur "surface_pressure");
           ("wind_speed", reading cur "wind_speed_10m");
           ("wind_direction", reading cur "wind_direction_10m");
           ("precipitation", default (JInt 0) (cur !! "precipitation"%string)) ]);
      ("weather", dict
         [ ("code", default (JInt 0) (cur !! "weather_code"%string));
           ("description", JStr description);
           ("condition", JStr condition) ]);
      ("timestamp", reading cur "time");
      ("name", name);
      ("main", dict
         [ ("temp", reading cur "temperature_2m");
           ("feels_like", reading cur "apparent_temperature");
           ("humidity", reading cur "relative_humidity_2m");
           ("pressure", reading cur "surface_pressure") ]);
      ("weather", JList
         [ dict [ ("main", JStr (title condition));
                  ("description", JStr description) ] ]);
      ("wind", dict [("speed", reading cur "wind_speed_10m");
                     ("deg", reading cur "wind_direction_10m")]) ]%string.
Proof.
  unfold current_result. intros Hr.
  destruct data as [| | | | | | m]; try discriminate Hr. cbn [getitem] in Hr.
  destruct (m !! "current"%string) as [current |] eqn:Hcur; [| discriminate Hr].
  cbn [mbind outcome_bind] in Hr.
  destruct current as [| | | | | | cur]; try discriminate Hr.
  cbn [get mbind outcome_bind] in Hr.
  destruct (WeatherCodeMapper.get_description _) as [description |] eqn:Hd;
    [| discriminate Hr].
  cbn [mbind outcome_bind] in Hr.
  destruct (WeatherCodeMapper.get_condition _) as [condition |] eqn:Hc;
    [| discriminate Hr].
  cbn [mbind outcome_bind] in Hr.
  destruct (getitem coords "name") as [name |]; [| discriminate Hr].
  cbn [mbind outcome_bind] in Hr.
  destruct (getitem coords "country") as [country |]; [| discriminate Hr].
  cbn [mbind outcome_bind] in Hr.
  destruct (getitem coords "lat") as [lat |]; [| discriminate Hr].
  cbn [mbind outcome_bind] in Hr.
  destruct (getitem coords "lon") as [lon |]; [| discriminate Hr].
  cbn [mbind outcome_bind] in Hr.
  injection Hr as <-.
  exists cur, description, condition, name, country, lat, lon.
  done.
Qed.

Lemma io_bind_lift {A B : Type} (o : outcome A) (f : A -> io B) (log : list request) :
  (lift o ≫= f) log
  = match o with
    | Ok a => f a log
    | Raise e => (Raise e, log)
    end.
Proof. by destruct o. Qed.

Lemma found_fields (lat lon name country admin1 : json) :
  let coords := dict [ ("lat", lat); ("lon", lon); ("name", name);
                       ("country", country); ("admin1", admin1) ]%string in
  contains coords "error" = Ok false
  /\ getitem coords "lat" = Ok lat
  /\ getitem coords "lon" = Ok lon
  /\ getitem coords "name" = Ok name
  /\ getitem coords "country" = Ok country.
Proof.
  intros coords. unfold coords. rewrite contains_dict, !getitem_dict.
  repeat split; by eval_entries.
Qed.

Lemma get_current_weather_success (city : string) (log log' : list request) (r : json) :
  get_current_weather http_get str_other city log = (Ok r, log') ->
  field r "error" = None ->
  exists (lat lon name country admin1 data : json) (log1 : list request),
    let coords := dict [ ("lat", lat); ("lon", lon); ("name", name);
                         ("country", country); ("admin1", admin1) ]%string in
    get_coordinates http_get city log = (Ok coords, log1)
    /\ data = default JNull (http_get log1 weather_url (current_params lat lon))
    /\ log' = log1 ++ [(weather_url, current_params lat lon)]
    /\ current_result coords data = Ok r.
Proof.
  unfold get_current_weather. rewrite io_bind_run.
  destruct (get_coordinates_cases city log) as (out & log1 & -> & Hres & _).
  destruct Hres as [msg | lat lon name country admin1 | e].
  - rewrite io_bind_lift, contains_dict. eval_entries.
    intros [= <- <-]. rewrite field_dict. by eval_entries.
  - destruct (found_fields lat lon name country admin1)
      as (Herr & Hlat & Hlon & Hname & Hcountry).
    cbv zeta in *. rewrite io_bind_lift, Herr.
    rewrite io_bind_lift, Hlat, io_bind_lift, Hlon.
    rewrite io_bind_run. unfold make_request.
    set (data := default JNull _).
    rewrite io_bind_lift.
    destruct (truthy data); cbn [negb].
    + destruct (contains data "current") as [[] |]; cbn [mbind outcome_bind negb].
      * unfold lift. intros [= Hr <-] _.
        by exists lat, lon, name, country, admin1, data, log1.
      * rewrite io_bind_lift, Hname. intros [= <- <-].
        rewrite field_dict. by eval_entries.
      * discriminate.
    + rewrite io_bind_lift, Hname. intros [= <- <-].
      rewrite field_dict. by eval_entries.
  - discriminate.
Qed.

Variable datetime : Type.
Variable fromisoformat : string -> option datetime.
Variable timestamp : datetime -> option Q.


Lemma forecast_item_shape (daily item : json) (i : nat) :
  forecast_item fromisoformat timestamp daily i = Ok item ->
  exists (date code temp_max temp_min precipitation speed direction dt : json)
         (description condition : string),
    daily_at daily "time" i = Ok date
    /\ daily_at daily "weather_code" i = Ok code
    /\ daily_at daily "precipitation_sum" i = Ok precipitation
    /\ WeatherCodeMapper.get_description code = Ok description
    /\ WeatherCodeMapper.get_condition code = Ok condition
    /\ item = dict
    [ ("date", date);
      ("temperature", dict [("max", temp_max); ("min", temp_min)]);
      ("weather", dict
         [ ("code", code);
           ("description", JStr description);
           ("condition", JStr condition) ]);
      ("precipitation", precipitation);
      ("wind", dict [("speed", speed); ("direction", direction)]);
      ("dt", dt);
      ("main", dict
         [ ("temp", temp_max);
           ("temp_min", temp_min);
           ("temp_max", temp_max);
           ("humidity", JInt 65) ]);
      ("weather", JList
         [ dict [ ("main", JStr (title condition));
                  ("description", JStr description) ] ]);
      ("wind", dict [("speed", speed)]) ]%string.
Proof.
  unfold forecast_item. intros Hitem.
  destruct (daily_at daily "time" i) as [date |] eqn:Hdate; [| discriminate Hitem].
  cbn [mbind outcome_bind] in Hitem.
  destruct date as [| | | | s | |]; try discriminate Hitem.
  destruct (fromisoformat _) as [d |]; [| discriminate Hitem].
  cbn [mbind outcome_bind] in Hitem.
  destruct (daily_at daily "weather_code" i) as [code |] eqn:Hcode;
    [| discriminate Hitem].
  cbn [mbind outcome_bind] in Hitem.
  destruct (WeatherCodeMapper.get_description code) as [description |] eqn:Hd;
    [| discriminate Hitem].
  cbn [mbind outcome_bind] in Hitem.
  destruct (WeatherCodeMapper.get_condition code) as [condition |] eqn:Hc;
    [| discriminate Hitem].
  cbn [mbind outcome_bind] in Hitem.
  destruct (daily_at daily "temperature_2m_max" i) as [temp_max |];
    [| discriminate Hitem].
  cbn [mbind outcome_bind] in Hitem.
  destruct (daily_at daily "temperature_2m_min" i) as [temp_min |];
    [| discriminate Hitem].
  cbn [mbind outcome_bind] in Hitem.
  destruct (daily_at daily "precipitation_sum" i) as [precipitation |] eqn:Hp;
    [| discriminate Hitem].
  cbn [mbind outcome_bind] in Hitem.
  destruct (daily_at daily "wind_speed_10m_max" i) as [speed |];
    [| discriminate Hitem].
  cbn [mbind outcome_bind] in Hitem.
  destruct (daily_at daily "wind_direction_10m_dominant" i) as [direction |];
    [| discriminate Hitem].
  cbn [mbind outcome_bind] in Hitem.
  destruct (timestamp d) as [t |]; [| discriminate Hitem].
  cbn [mbind outcome_bind] in Hitem.
  injection Hitem as <-.
  by exists (JStr s), code, temp_max, temp_min, precipitation, speed, direction,
            (JFloat t), description, condition.
Qed.

Lemma is_column_at (daily : json) (k : nat) (key : string) (i : nat) :
  is_column daily k key = true -> (i < k)%nat ->
  exists x : json,
    daily_at daily key i = Ok x /\ column daily key !! i = Some x.
Proof.
  unfold is_column, column, daily_at, field, getitem.
  destruct daily as [| | | | | | m]; try discriminate.
  destruct (m !! key) as [[| | | | | xs |] |]; try discriminate.
  intros Hlen%Nat.eqb_eq Hi. cbn [mbind outcome_bind index].
  destruct (lookup_lt_is_Some_2 xs i ltac:(lia)) as [x Hx].
  exists x. by rewrite Hx.
Qed.

Lemma hashable_lookup (v : json) :
  hashable v = true -> exists p, WeatherCodeMapper.lookup_code v = Ok p.
Proof.
  unfold WeatherCodeMapper.lookup_code.
  destruct v; cbn [hashable]; intros Hv; try discriminate Hv;
    cbn [WeatherCodeMapper.int_key mbind outcome_bind]; eauto.
Qed.

Lemma forallb_lookup {A : Type} (p : A -> bool) (l : list A) (i : nat) (x : A) :
  forallb p l = true -> l !! i = Some x -> p x = true.
Proof.
  intros Hall Hx. rewrite forallb_forall in Hall. apply Hall.
  apply list_elem_of_In. by eapply list_elem_of_lookup_2.
Qed.

Lemma forecast_item_ok (daily : json) (k i : nat) :
  has_days fromisoformat timestamp daily k = true -> (i < k)%nat ->
  exists item : json,
    forecast_item fromisoformat timestamp daily i = Ok item
    /\ field item "date" = column daily "time" !! i.
Proof.
  unfold has_days, daily_keys. cbn [forallb].
  intros [[Hcols Hdates]%andb_prop Hcodes]%andb_prop Hi.
  repeat match type of Hcols with
         | _ && _ = true => apply andb_prop in Hcols as [?Hcol Hcols]
         end.
  destruct (is_column_at _ _ _ i Hcol Hi) as (date & Hdate & Hdate_col).
  destruct (is_column_at _ _ _ i Hcol0 Hi) as (code & Hcode & Hcode_col).
  destruct (is_column_at _ _ _ i Hcol1 Hi) as (temp_max & Htmax & _).
  destruct (is_column_at _ _ _ i Hcol2 Hi) as (temp_min & Htmin & _).
  destruct (is_column_at _ _ _ i Hcol3 Hi) as (precipitation & Hprec & _).
  destruct (is_column_at _ _ _ i Hcol4 Hi) as (speed & Hspeed & _).
  destruct (is_column_at _ _ _ i Hcol5 Hi) as (direction & Hdir & _).
  pose proof (forallb_lookup _ _ _ _ Hdates Hdate_col) as Hreadable.
  pose proof (forallb_lookup _ _ _ _ Hcodes Hcode_col) as Hhash.
  destruct (hashable_lookup code Hhash) as [[description condition] Hlookup].
  unfold readable_date in Hreadable.
  destruct date as [| | | | s | |]; try discriminate Hreadable.
  destruct (fromisoformat _) as [d |] eqn:Hfrom; [| discriminate Hreadable].
  apply bool_decide_eq_true_1 in Hreadable as [t Ht].
  assert (WeatherCodeMapper.get_description code = Ok description) as Hd.
  { unfold WeatherCodeMapper.get_description. by rewrite Hlookup. }
  assert (WeatherCodeMapper.get_condition code = Ok condition) as Hc.
  { unfold WeatherCodeMapper.get_condition. by rewrite Hlookup. }
  unfold forecast_item.
  rewrite Hdate, Htmax, Htmin, Hprec, Hspeed, Hdir. cbn [mbind outcome_bind].
  rewrite Hfrom. cbn [mbind outcome_bind].
  rewrite Hcode. cbn [mbind outcome_bind].
  rewrite Hd. cbn [mbind outcome_bind].
  rewrite Hc. cbn [mbind outcome_bind].
  rewrite Ht. cbn [mbind outcome_bind].
  eexists. split; [reflexivity |].
  rewrite field_dict, Hdate_col. by eval_entries.
Qed.

Lemma mapM_outcome {A B : Type} (f : A -> outcome B) (l : list A) :
  (forall x, x ∈ l -> exists y, f x = Ok y) ->
  exists ys : list B, mapM f l = Ok ys /\ Forall2 (fun x y => f x = Ok y) l ys.
Proof.
  induction l as [| x l IH]; intros Hall.
  - exists []. by split.
  - destruct (Hall x ltac:(left)) as [y Hy].
    destruct IH as (ys & Hys & Hall2).
    { intros x' Hx'. apply Hall. by right. }
    exists (y :: ys). split; [| by constructor].
    cbn [mapM]. rewrite Hy. cbn [mbind outcome_bind].
    rewrite Hys. by cbn [mbind outcome_bind mret outcome_ret].
Qed.

Lemma field_getitem (d v : json) (k : string) :
  field d k = Some v -> getitem d k = Ok v.
Proof. destruct d; try discriminate. cbn [field getitem]. by intros ->. Qed.

Lemma is_column_field (daily : json) (k : nat) (key : string) :
  is_column daily k key = true ->
  exists xs : list json, field daily key = Some (JList xs) /\ length xs = k.
Proof.
  unfold is_column. destruct (field daily key) as [[| | | | | xs |] |];
    try discriminate.
  intros Hlen%Nat.eqb_eq. by exists xs.
Qed.

Lemma truthy_field (d v : json) (k : string) : field d k = Some v -> truthy d = true.
Proof.
  destruct d as [| | | | | | m]; try discriminate. cbn [field truthy].
  intros Hk. apply negb_true_iff, Nat.eqb_neq. intros Hsize.
  apply map_size_empty_inv in Hsize. by rewrite Hsize, lookup_empty in Hk.
Qed.

Lemma contains_field (d v : json) (k : string) :
  field d k = Some v -> contains d k = Ok true.
Proof.
  destruct d as [| | | | | | m]; try discriminate. cbn [field contains].
  intros ->. done.
Qed.

Lemma Forall2_impl_elem {A B : Type} (P Q : A -> B -> Prop) (l : list A) (ys : list B) :
  Forall2 P l ys -> (forall x y, x ∈ l -> P x y -> Q x y) -> Forall2 Q l ys.
Proof.
  induction 1 as [| x y l ys Hxy Hrest IH]; intros Himp; constructor.
  - apply Himp; [left | done].
  - apply IH. intros x' y' Hx'. apply Himp. by right.
Qed.

Lemma forecast_result_ok (coords data daily name country : json) (days : Z) (k : nat) :
  field data "daily" = Some daily ->
  has_days fromisoformat timestamp daily k = true ->
  getitem coords "name" = Ok name ->
  getitem coords "country" = Ok country ->
  exists items : list json,
    forecast_result fromisoformat timestamp coords data days
    = Ok (dict [ ("location", dict [("name", name); ("country", country)]);
                 ("forecast", JList items);
                 ("list", JList items);
                 ("city", dict [("name", name)]) ]%string)
    /\ Forall2 (fun i item =>
                  forecast_item fromisoformat timestamp daily i = Ok item
                  /\ field item "date" = column daily "time" !! i)
         (seq 0 (Z.to_nat (Z.min days (Z.of_nat k)))) items.
Proof.
  intros Hdaily Hdays Hname Hcountry.
  assert (is_column daily k "time" = true) as Htime.
  { unfold has_days, daily_keys in Hdays. cbn [forallb] in Hdays.
    by apply andb_prop in Hdays as [[[? _]%andb_prop _]%andb_prop _]. }
  destruct (is_column_field _ _ _ Htime) as (times & Htimes & Hlen).
  set (n := Z.to_nat (Z.min days (Z.of_nat k))).
  destruct (mapM_outcome (forecast_item fromisoformat timestamp daily) (seq 0 n))
    as (items & Hitems & Hall).
  { intros i Hi%elem_of_seq.
    destruct (forecast_item_ok daily k i Hdays ltac:(lia)) as (item & ? & _).
    eauto. }
  exists items. split.
  - unfold forecast_result.
    rewrite (field_getitem _ _ _ Hdaily). cbn [mbind outcome_bind].
    rewrite (field_getitem _ _ _ Htimes). cbn [mbind outcome_bind len].
    rewrite Hlen. fold n. rewrite Hitems. cbn [mbind outcome_bind].
    rewrite Hname. cbn [mbind outcome_bind]. rewrite Hcountry.
    by cbn [mbind outcome_bind].
  - eapply Forall2_impl_elem; [exact Hall |].
    intros i item Hi%elem_of_seq Hitem. split; [done |].
    destruct (forecast_item_ok daily k i Hdays ltac:(lia)) as (item' & Hitem' & Hdate).
    congruence.
Qed.

Lemma coordinates_found (city : string) (log log1 : list request) (coords : json) :
  get_coordinates http_get city log = (Ok coords, log1) ->
  field coords "error" = None ->
  exists lat lon name country admin1 : json,
    coords = dict [ ("lat", lat); ("lon", lon); ("name", name);
                    ("country", country); ("admin1", admin1) ]%string.
Proof.
  intros Hget Hok.
  destruct (get_coordinates_cases city log) as (out & log' & Hcases & Hres & _).
  rewrite Hget in Hcases. injection Hcases as <- <-.
  inversion Hres as [msg Hmsg | lat lon name country admin1 Hfound |]; subst coords.
  - rewrite field_dict in Hok. revert Hok. by eval_entries.
  - by exists lat, lon, name, country, admin1.
Qed.

Lemma sent_to_geo (log : list request) (params : json) :
  sent_to weather_url (log ++ [(geo_url, params)]) = sent_to weather_url log.
Proof. unfold sent_to. rewrite List.filter_app. cbn. apply app_nil_r. Qed.

(** *** Current weather *)

(** C3. In a successful current-weather response the canonical and the
    legacy view hold the same values: temperature, feels-like, humidity,
    pressure, wind speed and wind direction. *)
Theorem current_views_agree (city : string) (log log' : list request) (r : json) :
  get_current_weather http_get str_other city log = (Ok r, log') ->
  field r "error" = None ->
  exists temperature feels_like humidity pressure wind_speed wind_direction : json,
    (field2 r "current" "temperature" = Some temperature
     /\ field2 r "main" "temp" = Some temperature)
    /\ (field2 r "current" "feels_like" = Some feels_like
        /\ field2 r "main" "feels_like" = Some feels_like)
    /\ (field2 r "current" "humidity" = Some humidity
        /\ field2 r "main" "humidity" = Some humidity)
    /\ (field2 r "current" "pressure" = Some pressure
        /\ field2 r "main" "pressure" = Some pressure)
    /\ (field2 r "current" "wind_speed" = Some wind_speed
        /\ field2 r "wind" "speed" = Some wind_speed)
    /\ (field2 r "current" "wind_direction" = Some wind_direction
        /\ field2 r "wind" "deg" = Some wind_direction).
Proof.
  intros Hrun Hok.
  destruct (get_current_weather_success city log log' r Hrun Hok)
    as (lat & lon & name & country & admin1 & data & log1 & _ & _ & _ & Hres).
  destruct (current_result_shape _ _ _ Hres)
    as (cur & description & condition & n & c & la & lo & _ & _ & _ & ->).
  exists (reading cur "temperature_2m"), (reading cur "apparent_temperature"),
         (reading cur "relative_humidity_2m"), (reading cur "surface_pressure"),
         (reading cur "wind_speed_10m"), (reading cur "wind_direction_10m").
  unfold field2.
  repeat split;
    rewrite field_dict; eval_entries; cbn [mbind option_bind];
    rewrite field_dict; by eval_entries.
Qed.

(** C1, as the code has it. The legacy entries are written after the
    canonical ones under the same keys and replace them: in a successful
    current-weather response [weather] is the one-element legacy list and
    has no [code] or [condition]; in a forecast item [wind] holds [speed]
    alone and [weather] is the legacy list. *)
Theorem legacy_entries_replace_canonical :
  (forall (city : string) (log log' : list request) (r : json),
      get_current_weather http_get str_other city log = (Ok r, log') ->
      field r "error" = None ->
      exists description condition : string,
        field r "weather"
        = Some (JList [ dict [ ("main", JStr (title condition));
                               ("description", JStr description) ] ])%string
        /\ field2 r "weather" "code" = None
        /\ field2 r "weather" "condition" = None)
  /\ (forall (daily item : json) (i : nat),
        forecast_item fromisoformat timestamp daily i = Ok item ->
        exists (speed : json) (description condition : string),
          field item "wind" = Some (dict [("speed"%string, speed)])
          /\ field2 item "wind" "direction" = None
          /\ field item "weather"
             = Some (JList [ dict [ ("main", JStr (title condition));
                                    ("description", JStr description) ] ])%string
          /\ field2 item "weather" "code" = None).
Proof.
  split.
  - intros city log log' r Hrun Hok.
    destruct (get_current_weather_success city log log' r Hrun Hok)
      as (lat & lon & name & country & admin1 & data & log1 & _ & _ & _ & Hres).
    destruct (current_result_shape _ _ _ Hres)
      as (cur & description & condition & n & c & la & lo & _ & _ & _ & ->).
    exists description, condition. unfold field2.
    repeat split; rewrite field_dict; by eval_entries.
  - intros daily item i Hitem.
    destruct (forecast_item_shape _ _ _ Hitem)
      as (date & code & tmax & tmin & prec & speed & dir & dt & description
          & condition & _ & _ & _ & _ & _ & ->).
    exists speed, description, condition. unfold field2.
    repeat split; rewrite field_dict; by eval_entries.
Qed.

(** The current-weather half of C5: without a [precipitation] field in
    the upstream reading, the response reports 0. *)
Lemma current_precipitation_defaults (city : string) (log log' : list request)
    (r : json) :
  get_current_weather http_get str_other city log = (Ok r, log') ->
  field r "error" = None ->
  exists (data : json) (cur : gmap string json),
    field data "current" = Some (JObj cur)
    /\ (cur !! "precipitation"%string = None ->
        field2 r "current" "precipitation" = Some (JInt 0)).
Proof.
  intros Hrun Hok.
  destruct (get_current_weather_success city log log' r Hrun Hok)
    as (lat & lon & name & country & admin1 & data & log1 & _ & _ & _ & Hres).
  destruct (current_result_shape _ _ _ Hres)
    as (cur & description & condition & n & c & la & lo & Hcur & _ & _ & ->).
  exists data, cur. split; [done |]. intros Hnone. unfold field2.
  rewrite field_dict; eval_entries; cbn [mbind option_bind].
  rewrite field_dict; eval_entries. by rewrite Hnone.
Qed.

(** *** Forecast *)

(** The method itself, were it called with a day count outside 1..7,
    resolves the city first, which sends the geocoding request unless the
    city is blank; it hands on the error or the exception of the resolver,
    and otherwise returns the day-count error; it sends nothing to the
    forecast service. *)
Theorem bad_days_stop_before_forecast_client
    (city : string) (days : Z) (log : list request) :
  days < 1 \/ 7 < days ->
  exists (out : outcome json) (log' : list request),
    get_coordinates http_get city log = (out, log')
    /\ get_forecast http_get str_other fromisoformat timestamp city days log
       = (after_day_check out, log')
    /\ (log' = log \/ log' = log ++ [(geo_url, geo_params (strip city))])
    /\ sent_to weather_url log' = sent_to weather_url log.
Proof.
  intros Hdays.
  destruct (get_coordinates_cases city log) as (out & log' & Hget & Hres & Hlog).
  exists out, log'. split; [done |]. split; [| split; [done |]].
  - unfold get_forecast. rewrite io_bind_run, Hget.
    destruct Hres as [msg | lat lon name country admin1 | e].
    + rewrite io_bind_lift, contains_dict. eval_entries.
      unfold after_day_check. rewrite field_dict. by eval_entries.
    + destruct (found_fields lat lon name country admin1) as (Herr & _).
      cbv zeta in Herr. rewrite io_bind_lift, Herr.
      assert ((days <? 1) || (7 <? days) = true) as ->.
      { apply orb_true_iff. destruct Hdays; [left | right]; lia. }
      unfold after_day_check. rewrite field_dict. by eval_entries.
    + done.
  - destruct Hlog as [-> | ->]; [done | apply sent_to_geo].
Qed.

(** The first days of a list of dates in order are in order. *)
Lemma in_date_order_take (dates : list json) (n : nat) :
  in_date_order dates = true -> in_date_order (take n dates) = true.
Proof.
  revert n. induction dates as [|a rest IH]; intros n; [by destruct n |].
  destruct n as [|n]; [done |].
  cbn [in_date_order take]. intros [Hhead Hrest]%andb_prop.
  rewrite (IH n Hrest), andb_true_r.
  destruct rest as [|b rest']; [by destruct n |].
  destruct n as [|n]; [done |]. exact Hhead.
Qed.

Lemma has_days_time_length (daily : json) (k : nat) :
  has_days fromisoformat timestamp daily k = true ->
  length (column daily "time") = k.
Proof.
  unfold has_days, daily_keys. cbn [forallb].
  intros [[Hcols _]%andb_prop _]%andb_prop.
  apply andb_prop in Hcols as [Htime _].
  unfold is_column in Htime. unfold column.
  destruct (field daily "time") as [[| | | | | xs |] |]; try discriminate.
  by apply Nat.eqb_eq.
Qed.

End ServiceProps.

(** ** The properties in the sample world *)

Section SampleWorld.
Import WeatherService.

Let london : json :=
  dict [ ("lat", JFloat (515 # 10)); ("lon", JFloat (-(1 # 10)));
         ("name", JStr "London"); ("country", JStr "United Kingdom");
         ("admin1", JStr "England") ]%string.

Example sample_coordinates :
  get_coordinates (Sample.http_get true) "  London " []
  = (Ok london, [(geo_url, geo_params "London")]).
Proof. vm_compute. reflexivity. Qed.

Example sample_city_not_found :
  get_coordinates (fun _ _ _ => Some (dict [("results"%string, JList [])]))
    "Atlantis" []
  = (Ok (dict [("error"%string, JStr "City 'Atlantis' not found")]),
     [(geo_url, geo_params "Atlantis")]).
Proof. vm_compute. reflexivity. Qed.

(** London, code 0: the legacy [weather[0].main] is "Clear". *)
Example sample_current_weather_legacy :
  field (Sample.value (Sample.current_weather true "London").1) "weather"
  = Some (JList [ dict [ ("main", JStr "Clear");
                         ("description", JStr "Clear sky") ] ])%string.
Proof. vm_compute. reflexivity. Qed.

End SampleWorld.

(** C3 for London in the sample world. *)
Lemma current_views_agree_witness :
  exists temperature feels_like humidity pressure wind_speed wind_direction : json,
    let r := Sample.value (Sample.current_weather true "London").1 in
    (field2 r "current" "temperature" = Some temperature
     /\ field2 r "main" "temp" = Some temperature)
    /\ (field2 r "current" "feels_like" = Some feels_like
        /\ field2 r "main" "feels_like" = Some feels_like)
    /\ (field2 r "current" "humidity" = Some humidity
        /\ field2 r "main" "humidity" = Some humidity)
    /\ (field2 r "current" "pressure" = Some pressure
        /\ field2 r "main" "pressure" = Some pressure)
    /\ (field2 r "current" "wind_speed" = Some wind_speed
        /\ field2 r "wind" "speed" = Some wind_speed)
    /\ (field2 r "current" "wind_direction" = Some wind_direction
        /\ field2 r "wind" "deg" = Some wind_direction).
Proof.
  apply (current_views_agree (Sample.http_get true) Sample.str_other
           "London" [] (Sample.current_weather true "London").2
           (Sample.value (Sample.current_weather true "London").1)).
  - vm_compute. reflexivity.
  - vm_compute. reflexivity.
Defined.

(** C1, as the code has it, for London and for the second day of the
    sample forecast. *)
Lemma legacy_entries_replace_canonical_witness :
  (exists description condition : string,
     let r := Sample.value (Sample.current_weather true "London").1 in
     field r "weather"
     = Some (JList [ dict [ ("main", JStr (title condition));
                            ("description", JStr description) ] ])%string
     /\ field2 r "weather" "code" = None
     /\ field2 r "weather" "condition" = None)
  /\ (exists (speed : json) (description condition : string),
        let item :=
          Sample.value (WeatherService.forecast_item Sample.fromisoformat
                          Sample.timestamp (Sample.daily_document true) 1) in
        field item "wind" = Some (dict [("speed"%string, speed)])
        /\ field2 item "wind" "direction" = None
        /\ field item "weather"
           = Some (JList [ dict [ ("main", JStr (title condition));
                                  ("description", JStr description) ] ])%string
        /\ field2 item "weather" "code" = None).
Proof.
  split.
  - apply (proj1 (legacy_entries_replace_canonical (Sample.http_get true)
                    Sample.str_other string Sample.fromisoformat
                    Sample.timestamp)
             "London" [] (Sample.current_weather true "London").2
             (Sample.value (Sample.current_weather true "London").1)).
    + vm_compute. reflexivity.
    + vm_compute. reflexivity.
  - apply (proj2 (legacy_entries_replace_canonical (Sample.http_get true)
                    Sample.str_other string Sample.fromisoformat
                    Sample.timestamp)
             (Sample.daily_document true) _ 1%nat).
    vm_compute. reflexivity.
Defined.

(** The method called with London and 10 days: the geocoding request is
    sent before the day count is looked at, and on a network that is down
    the error returned is the resolver's. *)
Example bad_days_reach_the_resolver :
  Sample.forecast true "London" 10
  = (Ok (dict [("error"%string, JStr "Days must be between 1 and 7")]),
     [(WeatherService.geo_url, WeatherService.geo_params "London")])
  /\ (Sample.forecast true "London" 10).2 <> []
  /\ WeatherService.get_forecast Sample.offline Sample.str_other
       Sample.fromisoformat Sample.timestamp "London" 10 []
     = (Ok (dict [("error"%string,
                   JStr "Failed to fetch coordinates for London")]),
        [(WeatherService.geo_url, WeatherService.geo_params "London")]).
Proof.
  split; [| split].
  - vm_compute. reflexivity.
  - vm_compute. discriminate.
  - vm_compute. reflexivity.
Qed.

(** The method called with London and 0 days. *)
Lemma bad_days_stop_before_forecast_client_witness :
  exists (out : outcome json) (log' : list request),
    WeatherService.get_coordinates (Sample.http_get true) "London" []
    = (out, log')
    /\ Sample.forecast true "London" 0 = (after_day_check out, log')
    /\ (log' = []
        \/ log' = [] ++ [(WeatherService.geo_url,
                          WeatherService.geo_params (strip "London"))])
    /\ sent_to WeatherService.weather_url log'
       = sent_to WeatherService.weather_url [].
Proof.
  apply (bad_days_stop_before_forecast_client (Sample.http_get true)
           Sample.str_other string Sample.fromisoformat Sample.timestamp
           "London" 0 []).
  left. lia.
Defined.

(** C5 at an upstream answer without precipitation: the current reading
    reports 0, the forecast raises [KeyError] after both requests. *)
Theorem forecast_without_precipitation_raises :
  field2 (Sample.value (Sample.current_weather false "London").1)
    "current" "precipitation" = Some (JInt 0)
  /\ (Sample.forecast false "London" 3).1
     = Raise (KeyError (JStr "precipitation_sum"))
  /\ length (Sample.forecast false "London" 3).2 = 2%nat.
Proof. repeat split; vm_compute; reflexivity. Qed.



(** * Further properties of the code *)

(** ** Glyph selection *)

Section GlyphProps.
Import WeatherGlyphs.

Lemma art_map_cases (condition : string) :
  first_match condition art_map WeatherArt.CLOUDY
  ∈ [ WeatherArt.SUNNY; WeatherArt.RAINY; WeatherArt.STORMY;
      WeatherArt.SNOWY; WeatherArt.FOGGY; WeatherArt.CLOUDY ].
Proof.
  unfold art_map. cbn [first_match].
  repeat (destruct (is_substring _ condition); [list_member |]).
  list_member.
Qed.

Lemma first_match_not_night (condition : string) :
  first_match condition art_map WeatherArt.CLOUDY <> WeatherArt.NIGHT.
Proof.
  pose proof (art_map_cases condition) as Hin.
  repeat (apply elem_of_cons in Hin as [-> | Hin]; [by vm_compute |]).
  by apply elem_of_nil in Hin.
Qed.

(** The night glyph is shown at night for a condition that is exactly
    "clear" or "sunny" (in any case) and for nothing else; for every other
    condition the hour changes nothing, and by day the night glyph never
    appears. *)
Theorem night_glyph_only_for_clear (condition : string) :
  (get_weather_art condition true = WeatherArt.NIGHT
   <-> lower condition = "clear"%string \/ lower condition = "sunny"%string)
  /\ (get_weather_art condition true = WeatherArt.NIGHT
      \/ get_weather_art condition true = get_weather_art condition false)
  /\ get_weather_art condition false <> WeatherArt.NIGHT.
Proof.
  unfold get_weather_art. cbn [andb existsb].
  destruct (String.eqb_spec (lower condition) "clear") as [Hc | Hc];
    [| destruct (String.eqb_spec (lower condition) "sunny") as [Hs | Hs]];
    cbn [orb].
  - split; [| split]; [| by left | apply first_match_not_night].
    split; [by left | done].
  - split; [| split]; [| by left | apply first_match_not_night].
    split; [by right | done].
  - split; [| split]; [| by right | apply first_match_not_night].
    split; [| by intros [? | ?]].
    intros Hnight. by destruct (first_match_not_night (lower condition)).
Qed.

(** The large glyph shown by day and the compact token always denote the
    same kind of weather. *)
Theorem glyph_and_token_agree (condition : string) :
  (get_weather_art condition false, get_mini_weather_art condition)
  ∈ glyph_pairs.
Proof.
  unfold get_weather_art, get_mini_weather_art, art_map, icons, glyph_pairs.
  cbn [andb first_match].
  repeat (destruct (is_substring _ (lower condition)); [list_member |]).
  list_member.
Qed.

(** For every integer weather code, the legacy [main] name of its category
    selects the glyph and the token of that category; at night the night
    glyph replaces it for the category clear only. *)
Theorem glyph_of_every_code (code : Z) :
  exists (description category art token : string),
    describe code = Ok (description, category)
    /\ (category, (art, token)) ∈ category_glyphs
    /\ get_weather_art (title category) false = art
    /\ get_mini_weather_art (title category) = token
    /\ (get_weather_art (title category) true = WeatherArt.NIGHT
        <-> category = "clear"%string).
Proof.
  rewrite describe_int.
  unfold last_entry, WeatherCodeMapper.WMO_table. cbn [foldl fst snd].
  repeat (case_decide as Hcode; clear Hcode);
    do 4 eexists; (split; [reflexivity |]); cbn [default from_option id];
    (split; [unfold category_glyphs; list_member |]);
    (split; [vm_compute; reflexivity |]);
    (split; [vm_compute; reflexivity |]);
    (split; intros Hiff;
     first [ reflexivity
           | discriminate Hiff
           | exfalso; vm_compute in Hiff; discriminate Hiff
           | vm_compute; reflexivity ]).
Qed.

Example glyph_clear_sky_at_night :
  get_weather_art "Clear sky" true = WeatherArt.SUNNY.
Proof. vm_compute. reflexivity. Qed.

End GlyphProps.

(** ** Validation and the JSON endpoints *)

Section ApiProps.
Import Api.
Variable http_get : list request -> string -> json -> option json.
Variable str_other : json -> string.
Variable datetime : Type.
Variable fromisoformat : string -> option datetime.
Variable timestamp : datetime -> option Q.
Variable int_of_string : string -> option Z.
Variable exn_text : exn -> string.

(** [validate_days] accepts exactly the strings that [int] reads as a
    number from 1 to 7. Every rejection carries the same message: the
    message of the range check inside the [try] is replaced by the
    [except] around it and never reaches the caller. *)
Theorem validate_days_accepts_one_to_seven (days_str : string) :
  (forall days : Z,
      validate_days int_of_string days_str = Valid days
      <-> int_of_string days_str = Some days /\ 1 <= days <= 7)
  /\ (forall msg : string,
        validate_days int_of_string days_str = Invalid msg ->
        msg = "Days must be a valid number between 1 and 7"%string).
Proof.
  unfold validate_days. destruct (int_of_string days_str) as [d |].
  - destruct ((d <? 1) || (7 <? d)) eqn:Hout.
    + apply orb_true_iff in Hout. split.
      * intros days. split; [discriminate |]. intros [[= ->] ?]. lia.
      * by intros msg [= <-].
    + apply orb_false_iff in Hout. split.
      * intros days. split.
        -- intros [= <-]. split; [done | lia].
        -- by intros [[= ->] _].
      * discriminate.
  - split.
    + intros days. split; [discriminate | by intros [? _]].
    + by intros msg [= <-].
Qed.

Lemma strip_empty : strip "" = ""%string.
Proof. reflexivity. Qed.

Lemma codepoints_nonempty (s : string) :
  (0 < length (codepoints s))%nat -> s <> ""%string.
Proof. intros Hlen ->. cbn in Hlen. lia. Qed.

(** [validate_city] accepts a city exactly when its stripped name has 2
    to 100 characters and returns that stripped name; a blank city, a
    one-character name and a name of more than 100 characters are each
    rejected with their own message. *)
Theorem validate_city_accepts_stripped (city : string) :
  (forall name : string,
      validate_city city = Valid name
      <-> name = strip city
          /\ (2 <= length (codepoints (strip city)) <= 100)%nat)
  /\ (blank city = true ->
      validate_city city
      = Invalid "City parameter is required and cannot be empty")
  /\ (length (codepoints (strip city)) = 1%nat ->
      validate_city city
      = Invalid "City name must be at least 2 characters long")
  /\ ((100 < length (codepoints (strip city)))%nat ->
      validate_city city = Invalid "City name is too long").
Proof.
  assert (forall n : nat, (0 < n)%nat ->
            length (codepoints (strip city)) = n ->
            String.eqb city "" || String.eqb (strip city) "" = false) as Hfilled.
  { intros n Hn Hlen. apply orb_false_iff. split; apply String.eqb_neq.
    - intros ->. rewrite strip_empty in Hlen. cbn in Hlen. lia.
    - apply codepoints_nonempty. lia. }
  unfold validate_city. split; [| split; [| split]].
  - intros name. split.
    + destruct (String.eqb city "" || String.eqb (strip city) ""); [discriminate |].
      destruct (Nat.ltb_spec (length (codepoints (strip city))) 2); [discriminate |].
      destruct (Nat.ltb_spec 100 (length (codepoints (strip city)))); [discriminate |].
      intros [= <-]. split; [done | lia].
    + intros [-> Hlen]. rewrite (Hfilled (length (codepoints (strip city))) ltac:(lia) eq_refl).
      destruct (Nat.ltb_spec (length (codepoints (strip city))) 2); [lia |].
      destruct (Nat.ltb_spec 100 (length (codepoints (strip city)))); [lia | done].
  - intros Hblank. rewrite (strip_blank city Hblank). cbn [String.eqb].
    by rewrite orb_true_r.
  - intros Hone. rewrite (Hfilled 1%nat ltac:(lia) Hone). by rewrite Hone.
  - intros Hlong. rewrite (Hfilled (length (codepoints (strip city))) ltac:(lia) eq_refl).
    destruct (Nat.ltb_spec (length (codepoints (strip city))) 2); [lia |].
    destruct (Nat.ltb_spec 100 (length (codepoints (strip city)))); [done | lia].
Qed.

(** The [/forecast] endpoint answers a day count that [int] cannot read,
    or reads as a number outside 1..7, with status 400 and an
    "Invalid input" body, and sends no request at all: the log is
    unchanged, whatever the city. *)
Theorem forecast_endpoint_rejects_bad_days
    (args : gmap string string) (log : list request) :
  match int_of_string (default "5"%string (args !! "days"%string)) with
  | Some days => days < 1 \/ 7 < days
  | None => True
  end ->
  exists msg : string,
    Api.get_forecast http_get str_other fromisoformat timestamp
      int_of_string exn_text args log
    = ((dict [("error"%string, JStr ("Invalid input: " +:+ msg))], 400), log).
Proof.
  intros Hbad. unfold Api.get_forecast, handle_errors, get_forecast_view.
  destruct (city_of args) as [city | msg]; [| by exists msg].
  destruct (validate_days int_of_string _) as [days | msg] eqn:Hdays;
    [| by exists msg].
  apply (proj1 (validate_days_accepts_one_to_seven _)) in Hdays as [Hint ?].
  rewrite Hint in Hbad. lia.
Qed.

(** C2. The forecast operation, [/forecast], rejects every day count
    outside 1..7 by local validation, before any collaborator is
    contacted: the view raises the [ValueError] of the validators and
    the answer is status 400 with an "Invalid input" error, with the log
    of requests as it was, so that neither the geocoder nor the forecast
    service has been called. With a city that passes validation the
    message is that of the day check. *)
Theorem bad_days_rejected_before_any_request
    (args : gmap string string) (days : Z) (log : list request) :
  int_of_string (default "5"%string (args !! "days"%string)) = Some days ->
  days < 1 \/ 7 < days ->
  exists msg : string,
    get_forecast_view http_get str_other fromisoformat timestamp
      int_of_string args log
    = (inr (Rejected msg), log)
    /\ Api.get_forecast http_get str_other fromisoformat timestamp
         int_of_string exn_text args log
       = ((dict [("error"%string, JStr ("Invalid input: " +:+ msg))], 400), log)
    /\ (forall city : string,
          city_of args = Valid city ->
          msg = "Days must be a valid number between 1 and 7"%string).
Proof.
  intros Hint Hbad.
  assert (validate_days int_of_string (default "5"%string (args !! "days"%string))
          = Invalid "Days must be a valid number between 1 and 7") as Hdays.
  { unfold validate_days. rewrite Hint.
    assert ((days <? 1) || (7 <? days) = true) as ->; [| done].
    apply orb_true_iff. destruct Hbad; [left | right]; lia. }
  unfold Api.get_forecast, handle_errors, get_forecast_view.
  destruct (city_of args) as [city | msg].
  - rewrite Hdays. eexists. split; [done |]. split; [done |]. done.
  - exists msg. split; [done |]. split; [done |]. discriminate.
Qed.

(** Without a [city] parameter, or with one that is blank, both
    endpoints answer as they do for London. *)
Theorem endpoints_default_to_london
    (args : gmap string string) (log : list request) :
  blank (default ""%string (args !! "city"%string)) = true ->
  Api.get_current_weather http_get str_other exn_text args log
  = Api.get_current_weather http_get str_other exn_text
      (<["city"%string := "London"%string]> args) log
  /\ Api.get_forecast http_get str_other fromisoformat timestamp
       int_of_string exn_text args log
     = Api.get_forecast http_get str_other fromisoformat timestamp
         int_of_string exn_text (<["city"%string := "London"%string]> args) log.
Proof.
  intros Hblank.
  assert (city_of args = Valid "London"%string) as Hargs.
  { unfold city_of. by rewrite (strip_blank _ Hblank). }
  assert (city_of (<["city"%string := "London"%string]> args)
          = Valid "London"%string) as Hlondon.
  { unfold city_of. by rewrite lookup_insert_eq. }
  unfold Api.get_current_weather, Api.get_forecast, handle_errors,
    get_current_weather_view, get_forecast_view.
  rewrite Hargs, Hlondon. split; [done |].
  by rewrite lookup_insert_ne.
Qed.

End ApiProps.

(** The acceptance of days at "3" and the rejection at "10". *)
Lemma validate_days_accepts_one_to_seven_witness :
  Sample.int_of_string "3" = Some 3 /\ 1 <= 3 <= 7
  /\ Api.validate_days Sample.int_of_string "10"
     = Api.Invalid "Days must be a valid number between 1 and 7".
Proof.
  split; [| split].
  - apply (proj1 (proj1 (validate_days_accepts_one_to_seven
                           Sample.int_of_string "3") 3)).
    reflexivity.
  - apply (proj1 (proj1 (validate_days_accepts_one_to_seven
                           Sample.int_of_string "3") 3)).
    reflexivity.
  - vm_compute. reflexivity.
Defined.

(** The acceptance of " Paris " and the rejection of "X". *)
Lemma validate_city_accepts_stripped_witness :
  Api.validate_city " Paris " = Api.Valid "Paris"%string
  /\ Api.validate_city "X"
     = Api.Invalid "City name must be at least 2 characters long".
Proof.
  split.
  - apply (proj2 (proj1 (validate_city_accepts_stripped " Paris ") "Paris"%string)).
    vm_compute. split; [reflexivity | lia].
  - apply (proj1 (proj2 (proj2 (validate_city_accepts_stripped "X")))).
    reflexivity.
Defined.

(** [/forecast?city=London&days=10] in the sample world. *)
Lemma forecast_endpoint_rejects_bad_days_witness :
  exists msg : string,
    Api.get_forecast (Sample.http_get true) Sample.str_other
      Sample.fromisoformat Sample.timestamp Sample.int_of_string
      Sample.exn_text
      (<["days"%string := "10"%string]> {["city"%string := "London"%string]}) []
    = ((dict [("error"%string, JStr ("Invalid input: " +:+ msg))], 400), []).
Proof.
  apply (forecast_endpoint_rejects_bad_days (Sample.http_get true)
           Sample.str_other string Sample.fromisoformat Sample.timestamp
           Sample.int_of_string Sample.exn_text
           (<["days"%string := "10"%string]> {["city"%string := "London"%string]})
           []).
  vm_compute. right. reflexivity.
Defined.

(** C2 for [/forecast?city=London&days=10] and for [/forecast?days=0] in
    the sample world. *)
Lemma bad_days_rejected_before_any_request_witness :
  Api.get_forecast (Sample.http_get true) Sample.str_other
    Sample.fromisoformat Sample.timestamp Sample.int_of_string
    Sample.exn_text
    (<["days"%string := "10"%string]> {["city"%string := "London"%string]}) []
  = ((dict [("error"%string,
             JStr "Invalid input: Days must be a valid number between 1 and 7")],
      400), [])
  /\ Api.get_forecast (Sample.http_get true) Sample.str_other
       Sample.fromisoformat Sample.timestamp Sample.int_of_string
       Sample.exn_text {["days"%string := "0"%string]} []
     = ((dict [("error"%string,
                JStr "Invalid input: Days must be a valid number between 1 and 7")],
         400), []).
Proof.
  split.
  - pose proof (bad_days_rejected_before_any_request (Sample.http_get true)
                  Sample.str_other string Sample.fromisoformat Sample.timestamp
                  Sample.int_of_string Sample.exn_text
                  (<["days"%string := "10"%string]>
                     {["city"%string := "London"%string]}) 10 []) as Hthm.
    destruct Hthm as (msg & _ & Hanswer & Hmsg);
      [vm_compute; reflexivity | right; lia |].
    rewrite Hanswer, (Hmsg "London"%string); [reflexivity |].
    vm_compute. reflexivity.
  - pose proof (bad_days_rejected_before_any_request (Sample.http_get true)
                  Sample.str_other string Sample.fromisoformat Sample.timestamp
                  Sample.int_of_string Sample.exn_text
                  {["days"%string := "0"%string]} 0 []) as Hthm.
    destruct Hthm as (msg & _ & Hanswer & Hmsg);
      [vm_compute; reflexivity | left; lia |].
    rewrite Hanswer, (Hmsg "London"%string); [reflexivity |].
    vm_compute. reflexivity.
Defined.

(** [/weather] without parameters in the sample world. *)
Lemma endpoints_default_to_london_witness :
  Api.get_current_weather (Sample.http_get true) Sample.str_other
    Sample.exn_text ∅ []
  = Api.get_current_weather (Sample.http_get true) Sample.str_other
      Sample.exn_text {["city"%string := "London"%string]} [].
Proof.
  change ({["city"%string := "London"%string]} : gmap string string)
    with (<["city"%string := "London"%string]> (∅ : gmap string string)).
  refine (proj1 (endpoints_default_to_london (Sample.http_get true)
                   Sample.str_other string Sample.fromisoformat
                   Sample.timestamp Sample.int_of_string Sample.exn_text ∅ [] _)).
  vm_compute. reflexivity.
Defined.

(** ** The service: outcomes and requests *)

Section ServiceOutcomes.
Import WeatherService.
Variable http_get : list request -> string -> json -> option json.
Variable str_other : json -> string.

Lemma strip_filled (city : string) :
  strip city <> ""%string ->
  String.eqb city "" || String.eqb (strip city) "" = false.
Proof.
  intros Hfilled. apply orb_false_iff. split; apply String.eqb_neq; [| done].
  intros ->. by apply Hfilled.
Qed.

Lemma truthy_object (m : gmap string json) : m <> ∅ -> truthy (JObj m) = true.
Proof.
  intros Hm. cbn [truthy]. apply negb_true_iff, Nat.eqb_neq.
  intros Hsize. by apply map_size_empty_inv in Hsize.
Qed.

(** A city that is not blank costs exactly one geocoding request, for the
    stripped name. When the request fails, or its answer is an empty
    document, the error says that the coordinates could not be fetched;
    when the answer has no [results], or an empty or null one, the error
    says that the city was not found. Both messages name the stripped
    city. *)
Theorem coordinates_errors_name_the_city (city : string) (log : list request) :
  strip city <> ""%string ->
  let name := strip city in
  let log' := log ++ [(geo_url, geo_params name)] in
  (http_get log geo_url (geo_params name) = None
   \/ http_get log geo_url (geo_params name) = Some (JObj ∅) ->
   get_coordinates http_get city log
   = (Ok (dict [("error"%string,
                 JStr ("Failed to fetch coordinates for " +:+ name))]), log'))
  /\ (forall m : gmap string json,
        http_get log geo_url (geo_params name) = Some (JObj m) ->
        m <> ∅ ->
        truthy (default JNull (m !! "results"%string)) = false ->
        get_coordinates http_get city log
        = (Ok (dict [("error"%string,
                      JStr ("City '" +:+ name +:+ "' not found"))]), log')).
Proof.
  intros Hfilled name log'. unfold get_coordinates.
  rewrite (strip_filled city Hfilled), io_bind_run. unfold make_request.
  fold name. split.
  - intros [-> | ->]; reflexivity.
  - intros m -> Hm Hresults. cbn [default from_option id].
    rewrite (truthy_object m Hm). cbn [negb]. unfold lift.
    cbn [get mbind outcome_bind]. rewrite Hresults. reflexivity.
Qed.

(** The coordinates are those of the first result; a missing country
    becomes "Unknown" and a missing region the empty string. *)
Theorem coordinates_of_first_result
    (city : string) (log : list request) (m loc : gmap string json)
    (others : list json) (lat lon name : json) :
  strip city <> ""%string ->
  http_get log geo_url (geo_params (strip city)) = Some (JObj m) ->
  m !! "results"%string = Some (JList (JObj loc :: others)) ->
  loc !! "latitude"%string = Some lat ->
  loc !! "longitude"%string = Some lon ->
  loc !! "name"%string = Some name ->
  get_coordinates http_get city log
  = (Ok (dict [ ("lat", lat); ("lon", lon); ("name", name);
                ("country", default (JStr "Unknown") (loc !! "country"%string));
                ("admin1", default (JStr "") (loc !! "admin1"%string)) ]%string),
     log ++ [(geo_url, geo_params (strip city))]).
Proof.
  intros Hfilled Hget Hresults Hlat Hlon Hname. unfold get_coordinates.
  rewrite (strip_filled city Hfilled), io_bind_run. unfold make_request.
  rewrite Hget. cbn [default from_option id].
  assert (m <> ∅) as Hm by (intros ->; by rewrite lookup_empty in Hresults).
  rewrite (truthy_object m Hm). cbn [negb]. unfold lift.
  cbn [get getitem mbind outcome_bind]. rewrite Hresults.
  cbn [default from_option id truthy negb mbind outcome_bind len length Nat.eqb
       index lookup list_lookup].
  unfold getitem, get. rewrite Hlat, Hlon, Hname. reflexivity.
Qed.

End ServiceOutcomes.

(** Atlantis on a network that is down, and with an answer that has no
    [results]. *)
Lemma coordinates_errors_name_the_city_witness :
  WeatherService.get_coordinates Sample.offline " Atlantis" []
  = (Ok (dict [("error"%string,
                JStr "Failed to fetch coordinates for Atlantis")]),
     [(WeatherService.geo_url, WeatherService.geo_params "Atlantis")])
  /\ WeatherService.get_coordinates
       (fun _ _ _ => Some (JObj {["generationtime_ms"%string := JFloat (1 # 2)]}))
       " Atlantis" []
     = (Ok (dict [("error"%string, JStr "City 'Atlantis' not found")]),
        [(WeatherService.geo_url, WeatherService.geo_params "Atlantis")]).
Proof.
  split.
  - apply (proj1 (coordinates_errors_name_the_city Sample.offline " Atlantis" []
                    ltac:(vm_compute; discriminate))).
    by left.
  - apply (proj2 (coordinates_errors_name_the_city
                    (fun _ _ _ => Some (JObj {["generationtime_ms"%string := JFloat (1 # 2)]}))
                    " Atlantis" [] ltac:(vm_compute; discriminate))
             {["generationtime_ms"%string := JFloat (1 # 2)]}).
    + reflexivity.
    + apply insert_non_empty.
    + vm_compute. reflexivity.
Defined.

(** Two matches, the first without a country. *)
Lemma coordinates_of_first_result_witness :
  WeatherService.get_coordinates
    (fun _ _ _ =>
       Some (JObj {["results"%string :=
                    JList [ JObj (<["latitude"%string := JInt 1]>
                                  (<["longitude"%string := JInt 2]>
                                   {["name"%string := JStr "Springfield"]}));
                            JObj {["name"%string := JStr "Springfield, IL"]} ]]}))
    "Springfield" []
  = (Ok (dict [ ("lat", JInt 1); ("lon", JInt 2); ("name", JStr "Springfield");
                ("country", JStr "Unknown"); ("admin1", JStr "") ]%string),
     [(WeatherService.geo_url, WeatherService.geo_params "Springfield")]).
Proof.
  refine (eq_trans (coordinates_of_first_result _ "Springfield" []
           {["results"%string :=
             JList [ JObj (<["latitude"%string := JInt 1]>
                           (<["longitude"%string := JInt 2]>
                            {["name"%string := JStr "Springfield"]}));
                     JObj {["name"%string := JStr "Springfield, IL"]} ]]}
           (<["latitude"%string := JInt 1]>
            (<["longitude"%string := JInt 2]>
             {["name"%string := JStr "Springfield"]}))
           [JObj {["name"%string := JStr "Springfield, IL"]}]
           (JInt 1) (JInt 2) (JStr "Springfield") _ _ _ _ _ _) _).
  - vm_compute. discriminate.
  - reflexivity.
  - vm_compute. reflexivity.
  - vm_compute. reflexivity.
  - vm_compute. reflexivity.
  - vm_compute. reflexivity.
  - vm_compute. reflexivity.
Defined.

Section ServiceRuns.
Import WeatherService.
Variable http_get : list request -> string -> json -> option json.
Variable str_other : json -> string.
Variable datetime : Type.
Variable fromisoformat : string -> option datetime.
Variable timestamp : datetime -> option Q.

Lemma getitem_field (d v : json) (k : string) :
  getitem d k = Ok v -> field d k = Some v.
Proof.
  destruct d as [| | | | | | m]; try discriminate. cbn [getitem field].
  destruct (m !! k); [by intros [= ->] | discriminate].
Qed.

Lemma mapM_outcome_inv {A B : Type} (f : A -> outcome B) (l : list A) (ys : list B) :
  mapM f l = Ok ys -> Forall2 (fun x y => f x = Ok y) l ys.
Proof.
  revert ys. induction l as [| x l IH]; intros ys; cbn [mapM].
  - intros [= <-]. constructor.
  - destruct (f x) as [y |] eqn:Hy; cbn [mbind outcome_bind]; [| discriminate].
    destruct (mapM f l) as [ys' |]; cbn [mbind outcome_bind]; [| discriminate].
    intros [= <-]. constructor; [done | by apply IH].
Qed.

Lemma current_result_no_error (coords data r : json) :
  current_result coords data = Ok r -> field r "error" = None.
Proof.
  intros Hres.
  destruct (current_result_shape _ _ _ Hres)
    as (cur & description & condition & n & c & la & lo & _ & _ & _ & ->).
  rewrite field_dict. by eval_entries.
Qed.

Lemma forecast_result_inv (coords data r : json) (days : Z) :
  forecast_result fromisoformat timestamp coords data days = Ok r ->
  exists (daily times name country : json) (k : nat) (items : list json),
    field data "daily" = Some daily
    /\ field daily "time" = Some times
    /\ len times = Ok k
    /\ Forall2 (fun i item =>
                  forecast_item fromisoformat timestamp daily i = Ok item)
         (seq 0 (Z.to_nat (Z.min days (Z.of_nat k)))) items
    /\ r = dict [ ("location", dict [("name", name); ("country", country)]);
                  ("forecast", JList items);
                  ("list", JList items);
                  ("city", dict [("name", name)]) ]%string.
Proof.
  unfold forecast_result. intros Hr.
  destruct (getitem data "daily") as [daily |] eqn:Hdaily; [| discriminate Hr].
  cbn [mbind outcome_bind] in Hr.
  destruct (getitem daily "time") as [times |] eqn:Htimes; [| discriminate Hr].
  cbn [mbind outcome_bind] in Hr.
  destruct (len times) as [k |] eqn:Hlen; [| discriminate Hr].
  cbn [mbind outcome_bind] in Hr.
  destruct (mapM _ _) as [items |] eqn:Hitems; [| discriminate Hr].
  cbn [mbind outcome_bind] in Hr.
  destruct (getitem coords "name") as [name |]; [| discriminate Hr].
  cbn [mbind outcome_bind] in Hr.
  destruct (getitem coords "country") as [country |]; [| discriminate Hr].
  cbn [mbind outcome_bind] in Hr. injection Hr as <-.
  exists daily, times, name, country, k, items.
  split; [by apply getitem_field |]. split; [by apply getitem_field |].
  split; [done |]. split; [by apply mapM_outcome_inv | done].
Qed.

Lemma get_coordinates_runs (city : string) (log : list request) :
  exists (out : outcome json) (log' : list request),
    get_coordinates http_get city log = (out, log')
    /\ ((log' = log
         /\ out = Ok (dict [("error"%string, JStr "City name cannot be empty")]))
        \/ (log' = log ++ [(geo_url, geo_params (strip city))]
            /\ resolution out)).
Proof.
  destruct (get_coordinates_cases http_get city log)
    as (out & log' & Hrun & Hres & _).
  exists out, log'. split; [done |]. revert Hrun. unfold get_coordinates.
  destruct (String.eqb city "" || String.eqb (strip city) "").
  - intros [= <- <-]. by left.
  - rewrite io_bind_run. unfold make_request.
    destruct (truthy _); cbn [negb]; intros [= _ <-]; by right.
Qed.

Lemma current_result_display (coords data r : json) :
  current_result coords data = Ok r ->
  field r "error" = None /\ exists kvs, r = dict kvs.
Proof.
  intros Hres. split; [by eapply current_result_no_error |].
  destruct (current_result_shape _ _ _ Hres)
    as (cur & description & condition & n & c & la & lo & _ & _ & _ & ->).
  eauto.
Qed.

Lemma forecast_result_display (coords data r : json) (days : Z) :
  forecast_result fromisoformat timestamp coords data days = Ok r ->
  field r "error" = None /\ exists kvs, r = dict kvs.
Proof.
  intros Hres.
  destruct (forecast_result_inv _ _ _ _ Hres)
    as (daily & times & n & c & k & items & _ & _ & _ & _ & ->).
  split; [rewrite field_dict; by eval_entries | eauto].
Qed.

Lemma current_weather_run_cases
    (city : string) (log log' : list request) (out : outcome json) :
  get_current_weather http_get str_other city log = (out, log') ->
  run_shape city (fun lat lon => (weather_url, current_params lat lon))
    log log' out.
Proof.
  unfold get_current_weather, run_shape. rewrite io_bind_run.
  destruct (get_coordinates_runs city log)
    as (out1 & log1 & -> & [[-> ->] | [-> Hres]]).
  { rewrite io_bind_lift, contains_dict. eval_entries. intros [= <- <-].
    exists []. split; [by rewrite app_nil_r |]. split; [by left |].
    intros r [= <-]. left. eauto. }
  destruct Hres as [msg | lat lon name country admin1 | e].
  - rewrite io_bind_lift, contains_dict. eval_entries. intros [= <- <-].
    eexists. split; [done |]. split; [by right; left |].
    intros r [= <-]. left. eauto.
  - destruct (found_fields lat lon name country admin1)
      as (Herr & Hlat & Hlon & Hname & _).
    cbv zeta in *. rewrite io_bind_lift, Herr.
    rewrite io_bind_lift, Hlat, io_bind_lift, Hlon.
    rewrite io_bind_run. unfold make_request.
    set (data := default JNull _). rewrite io_bind_lift.
    intros Hrun.
    exists [ (geo_url, geo_params (strip city));
             (weather_url, current_params lat lon) ].
    assert (log' = log ++ [ (geo_url, geo_params (strip city));
                            (weather_url, current_params lat lon) ]
            /\ forall r : json,
                 out = Ok r ->
                 (exists msg : string, r = dict [("error"%string, JStr msg)])
                 \/ (field r "error" = None /\ exists kvs, r = dict kvs))
      as [-> Hout].
    { revert Hrun.
      destruct (truthy data); cbn [negb].
      - destruct (contains data "current") as [[] |];
          cbn [mbind outcome_bind negb].
        + unfold lift. intros [= <- <-]. split; [by rewrite <- app_assoc |].
          intros r Hr. right. by eapply current_result_display.
        + rewrite io_bind_lift, Hname. intros [= <- <-].
          split; [by rewrite <- app_assoc |]. intros r [= <-]. left. eauto.
        + intros [= <- <-]. split; [by rewrite <- app_assoc | discriminate].
      - rewrite io_bind_lift, Hname. intros [= <- <-].
        split; [by rewrite <- app_assoc |]. intros r [= <-]. left. eauto. }
    split; [done |]. split; [right; right; eauto |].
    intros r Hr. destruct (Hout r Hr) as [? | [? ?]]; [by left | by right].
  - intros [= <- <-]. eexists. split; [done |]. split; [by right; left |].
    discriminate.
Qed.

Lemma forecast_run_cases
    (city : string) (days : Z) (log log' : list request) (out : outcome json) :
  get_forecast http_get str_other fromisoformat timestamp city days log
  = (out, log') ->
  run_shape city (fun lat lon => (weather_url, forecast_params lat lon days))
    log log' out.
Proof.
  unfold get_forecast, run_shape. rewrite io_bind_run.
  destruct (get_coordinates_runs city log)
    as (out1 & log1 & -> & [[-> ->] | [-> Hres]]).
  { rewrite io_bind_lift, contains_dict. eval_entries. intros [= <- <-].
    exists []. split; [by rewrite app_nil_r |]. split; [by left |].
    intros r [= <-]. left. eauto. }
  destruct Hres as [msg | lat lon name country admin1 | e].
  - rewrite io_bind_lift, contains_dict. eval_entries. intros [= <- <-].
    eexists. split; [done |]. split; [by right; left |].
    intros r [= <-]. left. eauto.
  - destruct (found_fields lat lon name country admin1)
      as (Herr & Hlat & Hlon & Hname & _).
    cbv zeta in *. rewrite io_bind_lift, Herr.
    destruct ((days <? 1) || (7 <? days)).
    { intros [= <- <-]. eexists. split; [done |]. split; [by right; left |].
      intros r [= <-]. left. eauto. }
    rewrite io_bind_lift, Hlat, io_bind_lift, Hlon.
    rewrite io_bind_run. unfold make_request.
    set (data := default JNull _). rewrite io_bind_lift.
    intros Hrun.
    exists [ (geo_url, geo_params (strip city));
             (weather_url, forecast_params lat lon days) ].
    assert (log' = log ++ [ (geo_url, geo_params (strip city));
                            (weather_url, forecast_params lat lon days) ]
            /\ forall r : json,
                 out = Ok r ->
                 (exists msg : string, r = dict [("error"%string, JStr msg)])
                 \/ (field r "error" = None /\ exists kvs, r = dict kvs))
      as [-> Hout].
    { revert Hrun.
      destruct (truthy data); cbn [negb].
      - destruct (contains data "daily") as [[] |];
          cbn [mbind outcome_bind negb].
        + unfold lift. intros [= <- <-]. split; [by rewrite <- app_assoc |].
          intros r Hr. right. by eapply forecast_result_display.
        + rewrite io_bind_lift, Hname. intros [= <- <-].
          split; [by rewrite <- app_assoc |]. intros r [= <-]. left. eauto.
        + intros [= <- <-]. split; [by rewrite <- app_assoc | discriminate].
      - rewrite io_bind_lift, Hname. intros [= <- <-].
        split; [by rewrite <- app_assoc |]. intros r [= <-]. left. eauto. }
    split; [done |]. split; [right; right; eauto |].
    intros r Hr. destruct (Hout r Hr) as [? | [? ?]]; [by left | by right].
  - intros [= <- <-]. eexists. split; [done |]. split; [by right; left |].
    discriminate.
Qed.

(** [get_current_weather] and [get_forecast] send at most two requests,
    the geocoding request first and then one forecast request. Whatever
    they return with an [error] key is the flat object with that key
    alone, and a response without one is returned only after both
    requests. *)
Theorem service_requests_and_errors
    (city : string) (days : Z) (log log' : list request) (out : outcome json) :
  get_current_weather http_get str_other city log = (out, log')
  \/ get_forecast http_get str_other fromisoformat timestamp city days log
     = (out, log') ->
  exists new : list request,
    log' = log ++ new
    /\ (new = []
        \/ new = [(geo_url, geo_params (strip city))]
        \/ exists params : json,
             new = [ (geo_url, geo_params (strip city));
                     (weather_url, params) ])
    /\ (forall r : json,
          out = Ok r ->
          (exists msg : string, r = dict [("error"%string, JStr msg)])
          \/ (field r "error" = None /\ length new = 2%nat)).
Proof.
  intros [Hrun | Hrun];
    [ apply current_weather_run_cases in Hrun
    | apply forecast_run_cases in Hrun ];
    destruct Hrun as (new & Hlog & Hnew & Hout);
    exists new; (split; [done |]);
    (split; [destruct Hnew as [? | [? | (lat & lon & ?)]]; eauto |]);
    intros r Hr; destruct (Hout r Hr) as [? | (? & ? & _)]; eauto.
Qed.

Lemma current_result_ok (coords data : json) (cur : gmap string json)
    (name country lat lon : json) :
  field data "current" = Some (JObj cur) ->
  hashable (default (JInt 0) (cur !! "weather_code"%string)) = true ->
  getitem coords "name" = Ok name ->
  getitem coords "country" = Ok country ->
  getitem coords "lat" = Ok lat ->
  getitem coords "lon" = Ok lon ->
  exists r : json, current_result coords data = Ok r.
Proof.
  intros Hcur Hhash Hname Hcountry Hlat Hlon.
  destruct (hashable_lookup _ Hhash) as [[description condition] Hlookup].
  unfold current_result.
  rewrite (field_getitem _ _ _ Hcur). cbn [mbind outcome_bind get].
  unfold WeatherCodeMapper.get_description, WeatherCodeMapper.get_condition.
  rewrite Hlookup. cbn [mbind outcome_bind].
  rewrite Hname. cbn [mbind outcome_bind].
  rewrite Hcountry. cbn [mbind outcome_bind].
  rewrite Hlat. cbn [mbind outcome_bind].
  rewrite Hlon. cbn [mbind outcome_bind].
  eauto.
Qed.

(** Whatever fields the upstream reading lacks, [get_current_weather]
    succeeds as long as [current] is an object and the weather code, if
    present, is hashable: an absent reading is reported as [None], and an
    absent weather code counts as code 0, clear sky. *)
Theorem current_weather_tolerates_missing_fields
    (city : string) (log log1 : list request) (coords lat lon data : json)
    (cur : gmap string json) :
  get_coordinates http_get city log = (Ok coords, log1) ->
  field coords "error" = None ->
  field coords "lat" = Some lat ->
  field coords "lon" = Some lon ->
  http_get log1 weather_url (current_params lat lon) = Some data ->
  field data "current" = Some (JObj cur) ->
  hashable (default (JInt 0) (cur !! "weather_code"%string)) = true ->
  exists r : json,
    get_current_weather http_get str_other city log
    = (Ok r, log1 ++ [(weather_url, current_params lat lon)])
    /\ field r "error" = None
    /\ field2 r "current" "temperature" = Some (reading cur "temperature_2m")
    /\ field2 r "current" "humidity" = Some (reading cur "relative_humidity_2m")
    /\ field2 r "current" "wind_speed" = Some (reading cur "wind_speed_10m")
    /\ field r "timestamp" = Some (reading cur "time")
    /\ (cur !! "weather_code"%string = None ->
        field r "weather"
        = Some (JList [ dict [ ("main", JStr "Clear");
                               ("description", JStr "Clear sky") ] ])%string).
Proof.
  intros Hget Hok Hlat Hlon Hdata Hcur Hhash.
  destruct (coordinates_found http_get _ _ _ _ Hget Hok)
    as (lat' & lon' & name & country & admin1 & ->).
  rewrite field_dict in Hlat, Hlon. revert Hlat Hlon. eval_entries.
  intros [= ->] [= ->].
  destruct (found_fields lat lon name country admin1)
    as (Herr & Hglat & Hglon & Hname & Hcountry).
  cbv zeta in *.
  destruct (current_result_ok _ data cur name country lat lon
              Hcur Hhash Hname Hcountry Hglat Hglon) as [r Hres].
  exists r. split.
  { unfold get_current_weather. rewrite io_bind_run, Hget.
    rewrite io_bind_lift, Herr.
    rewrite io_bind_lift, Hglat, io_bind_lift, Hglon.
    rewrite io_bind_run. unfold make_request. rewrite Hdata.
    change (default JNull (Some data)) with data.
    rewrite io_bind_lift, (truthy_field _ _ _ Hcur). cbn [negb].
    rewrite (contains_field _ _ _ Hcur). cbn [mbind outcome_bind negb].
    unfold lift. by rewrite Hres. }
  destruct (current_result_shape _ _ _ Hres)
    as (cur' & description & condition & n & c & la & lo & Hcur' & Hd & Hc & ->).
  rewrite Hcur in Hcur'. injection Hcur' as <-.
  unfold field2.
  repeat split;
    try (rewrite field_dict; eval_entries; cbn [mbind option_bind];
         try rewrite field_dict; by eval_entries).
  intros Hnone. rewrite Hnone in Hd, Hc.
  vm_compute in Hd, Hc. injection Hd as <-. injection Hc as <-.
  rewrite field_dict. by eval_entries.
Qed.

(** In every forecast item the legacy view repeats the canonical one:
    [main.temp] and [main.temp_max] are the day's maximum, [main.temp_min]
    its minimum, [main.humidity] is the constant 65, and [wind.speed],
    [precipitation] and [date] are the upstream values of that day. *)
Theorem forecast_item_fields (daily item : json) (i : nat) :
  forecast_item fromisoformat timestamp daily i = Ok item ->
  exists date temp_max temp_min precipitation speed : json,
    daily_at daily "time" i = Ok date
    /\ daily_at daily "temperature_2m_max" i = Ok temp_max
    /\ daily_at daily "temperature_2m_min" i = Ok temp_min
    /\ daily_at daily "precipitation_sum" i = Ok precipitation
    /\ daily_at daily "wind_speed_10m_max" i = Ok speed
    /\ field item "date" = Some date
    /\ field2 item "temperature" "max" = Some temp_max
    /\ field2 item "temperature" "min" = Some temp_min
    /\ field item "precipitation" = Some precipitation
    /\ field item "main"
       = Some (dict [ ("temp", temp_max); ("temp_min", temp_min);
                      ("temp_max", temp_max); ("humidity", JInt 65) ]%string)
    /\ field item "wind" = Some (dict [("speed"%string, speed)]).
Proof.
  unfold forecast_item. intros Hitem.
  destruct (daily_at daily "time" i) as [date |] eqn:Hdate; [| discriminate Hitem].
  cbn [mbind outcome_bind] in Hitem.
  destruct date as [| | | | s | |]; try discriminate Hitem.
  destruct (fromisoformat _) as [d |]; [| discriminate Hitem].
  cbn [mbind outcome_bind] in Hitem.
  destruct (daily_at daily "weather_code" i) as [code |]; [| discriminate Hitem].
  cbn [mbind outcome_bind] in Hitem.
  destruct (WeatherCodeMapper.get_description code) as [description |];
    [| discriminate Hitem].
  cbn [mbind outcome_bind] in Hitem.
  destruct (WeatherCodeMapper.get_condition code) as [condition |];
    [| discriminate Hitem].
  cbn [mbind outcome_bind] in Hitem.
  destruct (daily_at daily "temperature_2m_max" i) as [temp_max |] eqn:Hmax;
    [| discriminate Hitem].
  cbn [mbind outcome_bind] in Hitem.
  destruct (daily_at daily "temperature_2m_min" i) as [temp_min |] eqn:Hmin;
    [| discriminate Hitem].
  cbn [mbind outcome_bind] in Hitem.
  destruct (daily_at daily "precipitation_sum" i) as [precipitation |] eqn:Hp;
    [| discriminate Hitem].
  cbn [mbind outcome_bind] in Hitem.
  destruct (daily_at daily "wind_speed_10m_max" i) as [speed |] eqn:Hspeed;
    [| discriminate Hitem].
  cbn [mbind outcome_bind] in Hitem.
  destruct (daily_at daily "wind_direction_10m_dominant" i) as [direction |];
    [| discriminate Hitem].
  cbn [mbind outcome_bind] in Hitem.
  destruct (timestamp d) as [t |]; [| discriminate Hitem].
  cbn [mbind outcome_bind] in Hitem.
  injection Hitem as <-.
  exists (JStr s), temp_max, temp_min, precipitation, speed.
  unfold field2.
  repeat split; try done;
    rewrite field_dict; eval_entries; cbn [mbind option_bind];
    try rewrite field_dict; by eval_entries.
Qed.

(** A forecast without an [error] key is returned only for a day count in
    1..7 and after both requests. Its [forecast] and [list] are the same
    list, of exactly [min(days, len(daily["time"]))] items, so of at most 7,
    and the item at position [i] is the one built from day [i]. *)
Theorem forecast_success_inversion
    (city : string) (days : Z) (log log' : list request) (r : json) :
  get_forecast http_get str_other fromisoformat timestamp city days log
  = (Ok r, log') ->
  field r "error" = None ->
  1 <= days <= 7
  /\ exists (lat lon daily times : json) (k : nat) (items : list json),
       log' = log ++ [ (geo_url, geo_params (strip city));
                       (weather_url, forecast_params lat lon days) ]
       /\ field (default JNull
                   (http_get (log ++ [(geo_url, geo_params (strip city))])
                      weather_url (forecast_params lat lon days))) "daily"
          = Some daily
       /\ field daily "time" = Some times
       /\ len times = Ok k
       /\ field r "forecast" = Some (JList items)
       /\ field r "list" = Some (JList items)
       /\ length items = Z.to_nat (Z.min days (Z.of_nat k))
       /\ (length items <= 7)%nat
       /\ (forall (i : nat) (item : json),
             items !! i = Some item ->
             forecast_item fromisoformat timestamp daily i = Ok item).
Proof.
  unfold get_forecast. rewrite io_bind_run.
  destruct (get_coordinates_runs city log)
    as (out1 & log1 & -> & [[-> ->] | [-> Hres]]).
  { rewrite io_bind_lift, contains_dict. eval_entries. intros [= <- <-].
    rewrite field_dict. by eval_entries. }
  destruct Hres as [msg | lat lon name country admin1 | e]; [| | discriminate].
  { rewrite io_bind_lift, contains_dict. eval_entries. intros [= <- <-].
    rewrite field_dict. by eval_entries. }
  destruct (found_fields lat lon name country admin1)
    as (Herr & Hlat & Hlon & Hname & _).
  cbv zeta in *. rewrite io_bind_lift, Herr.
  destruct ((days <? 1) || (7 <? days)) eqn:Hdays.
  { intros [= <- <-]. rewrite field_dict. by eval_entries. }
  apply orb_false_iff in Hdays as [Hlo%Z.ltb_ge Hhi%Z.ltb_ge].
  rewrite io_bind_lift, Hlat, io_bind_lift, Hlon.
  rewrite io_bind_run. unfold make_request.
  set (data := default JNull _). rewrite io_bind_lift.
  assert (forall msg : string,
            field (dict [("error"%string, JStr msg)]) "error" = None -> False)
    as Hflat.
  { intros msg. rewrite field_dict. by eval_entries. }
  destruct (truthy data); cbn [negb].
  2:{ rewrite io_bind_lift, Hname. intros [= <- <-] Hnone.
      by destruct (Hflat _ Hnone). }
  destruct (contains data "daily") as [[] |]; cbn [mbind outcome_bind negb];
    [| | discriminate].
  2:{ rewrite io_bind_lift, Hname. intros [= <- <-] Hnone.
      by destruct (Hflat _ Hnone). }
  unfold lift. intros [= Hres <-] _. split; [lia |].
  destruct (forecast_result_inv _ _ _ _ Hres)
    as (daily & times & n & c & k & items & Hdaily & Htimes & Hlen & Hall & ->).
  exists lat, lon, daily, times, k, items.
  pose proof (Forall2_length _ _ _ Hall) as Hcount.
  rewrite length_seq in Hcount.
  split; [by rewrite <- app_assoc |]. split; [exact Hdaily |].
  split; [done |]. split; [done |].
  split; [rewrite field_dict; by eval_entries |].
  split; [rewrite field_dict; by eval_entries |].
  split; [done |]. split; [lia |].
  intros i item Hitem.
  destruct (Forall2_lookup_r _ _ _ _ _ Hall Hitem) as (j & Hj & Hbuilt).
  apply lookup_seq in Hj as [-> _]. exact Hbuilt.
Qed.

(** The forecast is all or nothing: if the item of one of the first
    [min(days, len(daily["time"]))] days cannot be built, the whole
    normalization raises and no shorter list is returned. *)
Theorem forecast_is_all_or_nothing
    (coords data daily times : json) (days : Z) (k i : nat) (e : exn) :
  field data "daily" = Some daily ->
  field daily "time" = Some times ->
  len times = Ok k ->
  (i < Z.to_nat (Z.min days (Z.of_nat k)))%nat ->
  forecast_item fromisoformat timestamp daily i = Raise e ->
  exists e' : exn,
    forecast_result fromisoformat timestamp coords data days = Raise e'.
Proof.
  intros Hdaily Htimes Hlen Hi Hfail.
  destruct (forecast_result fromisoformat timestamp coords data days)
    as [r | e'] eqn:Hres; [| eauto].
  destruct (forecast_result_inv _ _ _ _ Hres)
    as (daily' & times' & n & c & k' & items & Hdaily' & Htimes' & Hlen' & Hall & _).
  rewrite Hdaily in Hdaily'. injection Hdaily' as <-.
  rewrite Htimes in Htimes'. injection Htimes' as <-.
  rewrite Hlen in Hlen'. injection Hlen' as <-.
  destruct (Forall2_lookup_l _ _ _ i i Hall) as (item & _ & Hitem).
  { apply lookup_seq. lia. }
  congruence.
Qed.

End ServiceRuns.

Section ApiAnswers.
Import Api.
Variable http_get : list request -> string -> json -> option json.
Variable str_other : json -> string.
Variable datetime : Type.
Variable fromisoformat : string -> option datetime.
Variable timestamp : datetime -> option Q.
Variable int_of_string : string -> option Z.
Variable exn_text : exn -> string.

Lemma answer_cases (call : io json) (log log' : list request)
    (res : response + raised) :
  (forall out log1, call log = (out, log1) ->
     forall r, out = Ok r ->
       (exists msg : string, r = dict [("error"%string, JStr msg)])
       \/ (field r "error" = None /\ exists kvs, r = dict kvs)) ->
  answer call log = (res, log') ->
  (exists r, res = inl (r, 200) /\ field r "error" = None)
  \/ (exists msg, res = inl (dict [("error"%string, JStr msg)], 404))
  \/ (exists e, res = inr (Crashed e)).
Proof.
  intros Hshape. unfold answer.
  destruct (call log) as [[data | e] log1] eqn:Hcall.
  - destruct (Hshape _ _ eq_refl data eq_refl) as [[msg ->] | [Hnone [kvs ->]]].
    + rewrite contains_dict. eval_entries. intros [= <- <-]. right. left. eauto.
    + rewrite contains_dict. rewrite field_dict in Hnone. rewrite Hnone.
      intros [= <- <-]. left. eexists. split; [done |].
      by rewrite field_dict.
  - intros [= <- <-]. right. right. eauto.
Qed.

Lemma handle_errors_cases (f : view) (log log' : list request)
    (body : json) (status : Z) :
  (forall res log1, f log = (res, log1) ->
     (exists r, res = inl (r, 200) /\ field r "error" = None)
     \/ (exists msg, res = inl (dict [("error"%string, JStr msg)], 404))
     \/ (exists e, res = inr e)) ->
  handle_errors exn_text f log = ((body, status), log') ->
  (status = 200 /\ field body "error" = None)
  \/ (status = 404 /\ exists msg, body = dict [("error"%string, JStr msg)])
  \/ (status = 400
      /\ exists msg, body = dict [("error"%string, JStr ("Invalid input: " +:+ msg))])
  \/ (status = 500 /\ body = dict [("error"%string, JStr "Internal server error")]).
Proof.
  intros Hshape. unfold handle_errors.
  destruct (f log) as [res log1] eqn:Hf.
  destruct (Hshape _ _ eq_refl) as [(r & -> & Hr) | [(msg & ->) | (e & ->)]].
  - intros [= <- <- <-]. by left.
  - intros [= <- <- <-]. right. left. eauto.
  - destruct e as [msg | []]; intros [= <- <- <-];
      solve [ right; right; left; eauto | right; right; right; eauto ].
Qed.

(** Every answer of [/weather] and [/forecast] has one of four forms:
    status 200 with a body without an [error] key; status 404 with a
    flat error object of the service; status 400 with an "Invalid input"
    message; status 500 with the fixed body "Internal server error",
    whatever the exception was. No exception leaves an endpoint. *)
Theorem endpoint_answers
    (args : gmap string string) (log log' : list request)
    (body : json) (status : Z) :
  Api.get_current_weather http_get str_other exn_text args log
  = ((body, status), log')
  \/ Api.get_forecast http_get str_other fromisoformat timestamp
       int_of_string exn_text args log
     = ((body, status), log') ->
  (status = 200 /\ field body "error" = None)
  \/ (status = 404 /\ exists msg, body = dict [("error"%string, JStr msg)])
  \/ (status = 400
      /\ exists msg, body = dict [("error"%string, JStr ("Invalid input: " +:+ msg))])
  \/ (status = 500 /\ body = dict [("error"%string, JStr "Internal server error")]).
Proof.
  intros [Hrun | Hrun]; revert Hrun; apply handle_errors_cases;
    intros res log1.
  - unfold get_current_weather_view.
    destruct (city_of args) as [city | msg].
    + intros Hanswer. eapply answer_cases in Hanswer.
      * destruct Hanswer as [? | [? | [e ->]]]; eauto.
      * intros out log2 Hcall r Hr.
        apply current_weather_run_cases in Hcall as (new & _ & _ & Hout).
        destruct (Hout r Hr) as [? | (? & _ & ?)]; eauto.
    + intros [= <- <-]. eauto.
  - unfold get_forecast_view.
    destruct (city_of args) as [city | msg].
    + destruct (validate_days int_of_string _) as [days | msg].
      * intros Hanswer. eapply answer_cases in Hanswer.
        -- destruct Hanswer as [? | [? | [e ->]]]; eauto.
        -- intros out log2 Hcall r Hr.
           apply forecast_run_cases in Hcall as (new & _ & _ & Hout).
           destruct (Hout r Hr) as [? | (? & _ & ?)]; eauto.
      * intros [= <- <-]. eauto.
    + intros [= <- <-]. eauto.
Qed.

End ApiAnswers.

(** ** The further properties in the sample world *)

(** The current weather of London: two requests, no error. *)
Lemma service_requests_and_errors_witness :
  exists new : list request,
    (Sample.current_weather true "London").2 = [] ++ new
    /\ (new = []
        \/ new = [(WeatherService.geo_url,
                   WeatherService.geo_params (strip "London"))]
        \/ exists params : json,
             new = [ (WeatherService.geo_url,
                      WeatherService.geo_params (strip "London"));
                     (WeatherService.weather_url, params) ])
    /\ (forall r : json,
          (Sample.current_weather true "London").1 = Ok r ->
          (exists msg : string, r = dict [("error"%string, JStr msg)])
          \/ (field r "error" = None /\ length new = 2%nat)).
Proof.
  apply (service_requests_and_errors (Sample.http_get true) Sample.str_other
           string Sample.fromisoformat Sample.timestamp "London" 3 []
           (Sample.current_weather true "London").2
           (Sample.current_weather true "London").1).
  left. vm_compute. reflexivity.
Defined.

(** London with an upstream reading that has no [precipitation]. *)
Lemma current_weather_tolerates_missing_fields_witness :
  exists r : json,
    Sample.current_weather false "London"
    = (Ok r,
       [(WeatherService.geo_url, WeatherService.geo_params "London")]
       ++ [(WeatherService.weather_url,
            WeatherService.current_params (JFloat (515 # 10))
              (JFloat (-(1 # 10))))])
    /\ field r "error" = None.
Proof.
  destruct (current_weather_tolerates_missing_fields (Sample.http_get false)
              Sample.str_other "London" []
              [(WeatherService.geo_url, WeatherService.geo_params "London")]
              (Sample.value (WeatherService.get_coordinates
                               (Sample.http_get false) "London" []).1)
              (JFloat (515 # 10)) (JFloat (-(1 # 10)))
              (Sample.current_document false)
              (match field (Sample.current_document false) "current" with
               | Some (JObj cur) => cur
               | _ => ∅
               end))
    as (r & Hrun & Hok & _).
  - vm_compute. reflexivity.
  - vm_compute. reflexivity.
  - vm_compute. reflexivity.
  - vm_compute. reflexivity.
  - vm_compute. reflexivity.
  - vm_compute. reflexivity.
  - vm_compute. reflexivity.
  - exists r. by split.
Defined.

(** The second day of the sample forecast. *)
Lemma forecast_item_fields_witness :
  let item :=
    Sample.value (WeatherService.forecast_item Sample.fromisoformat
                    Sample.timestamp (Sample.daily_document true) 1) in
  field2 item "main" "temp" = Some (JFloat (165 # 10))
  /\ field2 item "main" "humidity" = Some (JInt 65).
Proof.
  intros item.
  destruct (forecast_item_fields string Sample.fromisoformat Sample.timestamp
              (Sample.daily_document true) item 1)
    as (date & tmax & tmin & prec & speed & _ & Hmax & _ & _ & _ & _ & _ & _
        & _ & Hmain & _).
  - vm_compute. reflexivity.
  - unfold field2. rewrite Hmain. cbn [mbind option_bind].
    rewrite !field_dict. vm_compute in Hmax. injection Hmax as <-.
    split; by eval_entries.
Defined.

(** London, 7 days requested, 3 available. *)
Lemma forecast_success_inversion_witness :
  1 <= 7 <= 7
  /\ exists items : list json,
       field (Sample.value (Sample.forecast true "London" 7).1) "list"
       = Some (JList items)
       /\ (length items <= 7)%nat.
Proof.
  destruct (forecast_success_inversion (Sample.http_get true) Sample.str_other
              string Sample.fromisoformat Sample.timestamp "London" 7 []
              (Sample.forecast true "London" 7).2
              (Sample.value (Sample.forecast true "London" 7).1))
    as (Hdays & lat & lon & daily & times & k & items & _ & _ & _ & _ & _
        & Hlist & _ & Hmax & _).
  - vm_compute. reflexivity.
  - vm_compute. reflexivity.
  - split; [exact Hdays |]. exists items. by split.
Defined.

(** The sample forecast without its [precipitation_sum] column. *)
Lemma forecast_is_all_or_nothing_witness :
  exists e' : exn,
    WeatherService.forecast_result Sample.fromisoformat Sample.timestamp
      JNull (Sample.forecast_document false) 3
    = Raise e'.
Proof.
  apply (forecast_is_all_or_nothing string Sample.fromisoformat
           Sample.timestamp JNull (Sample.forecast_document false)
           (Sample.daily_document false)
           (JList [JStr "2024-05-01"; JStr "2024-05-02"; JStr "2024-05-03"])
           3 3 0 (KeyError (JStr "precipitation_sum"))).
  - vm_compute. reflexivity.
  - vm_compute. reflexivity.
  - reflexivity.
  - vm_compute. lia.
  - vm_compute. reflexivity.
Defined.

(** [/weather?city=London] in the sample world. *)
Lemma endpoint_answers_witness :
  let answer :=
    (Api.get_current_weather (Sample.http_get true) Sample.str_other
       Sample.exn_text {["city"%string := "London"%string]} []).1 in
  (answer.2 = 200 /\ field answer.1 "error" = None)
  \/ (answer.2 = 404
      /\ exists msg, answer.1 = dict [("error"%string, JStr msg)])
  \/ (answer.2 = 400
      /\ exists msg,
           answer.1 = dict [("error"%string, JStr ("Invalid input: " +:+ msg))])
  \/ (answer.2 = 500
      /\ answer.1 = dict [("error"%string, JStr "Internal server error")]).
Proof.
  intros answer.
  apply (endpoint_answers (Sample.http_get true) Sample.str_other string
           Sample.fromisoformat Sample.timestamp Sample.int_of_string
           Sample.exn_text {["city"%string := "London"%string]} []
           (Api.get_current_weather (Sample.http_get true) Sample.str_other
              Sample.exn_text {["city"%string := "London"%string]} []).2
           answer.1 answer.2).
  left. vm_compute. reflexivity.
Defined.

Example endpoint_forecast_without_precipitation :
  (Api.get_forecast (Sample.http_get false) Sample.str_other
     Sample.fromisoformat Sample.timestamp Sample.int_of_string
     Sample.exn_text {["city"%string := "London"%string]} []).1
  = (dict [("error"%string, JStr "Internal server error")], 500).
Proof. vm_compute. reflexivity. Qed.

(** ** The line graph, drawn *)

Section GraphDrawn.
Import TerminalGraph.
Variable format_6_1f : Q -> string.

Lemma create_line_graph_drawn (x : Q) (xs : list Q) (labels : list string)
    (title : string) (height : Z) (unit : string) :
  (2 <= length (x :: xs))%nat ->
  length (x :: xs) = length labels ->
  create_line_graph format_6_1f (x :: xs) labels title height unit
  = (row_lines ←
       mapM (graph_row format_6_1f (max_list x xs) (graph_range x xs) height
               unit (normalized x xs height))
            (map (fun k => height - 1 - Z.of_nat k) (seq 0 (Z.to_nat height)));
     Ok (join nl ([nl +:+ "[GRAPH] " +:+ title; join "" (replicate 60 "=")]
                  ++ row_lines
                  ++ [ "        +" +:+
                       join "" (replicate (length (x :: xs) * 2 - 1) SEGMENT);
                       "         " +:+ join "  " (map (prefix 3) labels) ]))).
Proof.
  intros Hlen Heq. unfold create_line_graph.
  rewrite (proj2 (Nat.eqb_eq _ _) Heq).
  rewrite (proj2 (Nat.ltb_ge _ _) Hlen). reflexivity.
Qed.

(** With at least two samples and as many labels, the graph has one row
    line per unit of [height] between the two header lines and the two
    axis lines, each row built by the row routine for rows [height - 1]
    down to 0. A height of 1 is the exception: it raises
    [ZeroDivisionError]. A height of 0 or less gives no row at all. *)
Theorem line_graph_rows (x : Q) (xs : list Q) (labels : list string)
    (title : string) (height : Z) (unit : string) :
  (2 <= length (x :: xs))%nat ->
  length (x :: xs) = length labels ->
  (height = 1 ->
   create_line_graph format_6_1f (x :: xs) labels title height unit
   = Raise ZeroDivisionError)
  /\ (height <> 1 ->
      exists rows : list string,
        length rows = Z.to_nat height
        /\ Forall2
             (fun k row =>
                graph_row format_6_1f (max_list x xs) (graph_range x xs)
                  height unit (normalized x xs height)
                  (height - 1 - Z.of_nat k) = Ok row)
             (seq 0 (Z.to_nat height)) rows
        /\ create_line_graph format_6_1f (x :: xs) labels title height unit
           = Ok (join nl
                   ([nl +:+ "[GRAPH] " +:+ title; join "" (replicate 60 "=")]
                    ++ rows
                    ++ [ "        +" +:+
                         join "" (replicate (length (x :: xs) * 2 - 1) SEGMENT);
                         "         " +:+ join "  " (map (prefix 3) labels) ]))).
Proof.
  intros Hlen Heq. rewrite (create_line_graph_drawn _ _ _ _ _ _ Hlen Heq).
  split.
  - intros ->. reflexivity.
  - intros Hheight.
    destruct (mapM_outcome
                (graph_row format_6_1f (max_list x xs) (graph_range x xs)
                   height unit (normalized x xs height))
                (map (fun k => height - 1 - Z.of_nat k) (seq 0 (Z.to_nat height))))
      as (rows & Hrows & Hall).
    { intros row _. unfold graph_row.
      destruct (Z.eqb_spec (height - 1) 0); [lia | eauto]. }
    exists rows. rewrite Hrows. split; [| split; [| done]].
    + apply Forall2_length in Hall. by rewrite length_map, length_seq in Hall.
    + by apply Forall2_fmap_l in Hall.
Qed.

Lemma graph_cell_point (row : Z) (norm : list Q) (i : nat) (v : Q) :
  graph_cell row norm i v = POINT
  <-> (Py.abs (v - inject_Z row) < 1 # 2)%Q.
Proof.
  unfold graph_cell. rewrite <- Qltb_lt.
  destruct (Qltb _ _); [done |]. split; [| discriminate].
  destruct (0 <? i)%nat; [| discriminate].
  destruct (norm !! _); [| discriminate].
  destruct (_ || _); discriminate.
Qed.

Lemma abs_lt (q b : Q) : (Py.abs q < b)%Q <-> (- b < q /\ q < b)%Q.
Proof.
  unfold Py.abs. destruct (Qle_bool 0 q) eqn:Hq.
  - apply Qle_bool_iff in Hq. split; [intros ?; split; lra | by intros [_ ?]].
  - assert (q < 0)%Q as Hneg.
    { apply Qnot_le_lt. intros Hle. apply Qle_bool_iff in Hle. congruence. }
    split; [intros ?; split; lra | intros [? _]; lra].
Qed.


Lemma min_max_flat (x : Q) (xs : list Q) :
  Forall (fun v => (v == x)%Q) xs -> min_list x xs = x /\ max_list x xs = x.
Proof.
  unfold min_list, max_list. induction 1 as [| v xs Hv _ IH]; [done |].
  cbn [foldl].
  assert (Qltb v x = false) as -> by (apply Qltb_ge; lra).
  assert (Qltb x v = false) as -> by (apply Qltb_ge; lra).
  exact IH.
Qed.

(** When all samples are equal the range is taken to be 1, so nothing is
    divided by zero: every sample is normalized to 0 and is marked in the
    bottom row and in no other. *)
Theorem graph_flat_series (x : Q) (xs : list Q) (height : Z) :
  Forall (fun v => (v == x)%Q) xs ->
  graph_range x xs = 1%Q
  /\ forall (row : Z) (i : nat) (v : Q),
       v ∈ x :: xs ->
       (normalize x xs height v == 0)%Q
       /\ (graph_cell row (normalized x xs height) i (normalize x xs height v)
           = POINT <-> row = 0).
Proof.
  intros Hflat. destruct (min_max_flat x xs Hflat) as [Hmin Hmax].
  assert (graph_range x xs = 1%Q) as Hrange.
  { unfold graph_range. rewrite Hmin, Hmax.
    by rewrite (proj2 (Qeq_bool_iff x x) (Qeq_refl x)). }
  split; [done |]. intros row i v Hv.
  assert (v == x)%Q as Hvx.
  { apply elem_of_cons in Hv as [-> | Hv]; [reflexivity |].
    rewrite Forall_forall in Hflat. by apply Hflat. }
  assert (normalize x xs height v == 0)%Q as Hnorm.
  { unfold normalize. rewrite Hrange, Hmin, Hvx. field. }
  split; [done |].
  rewrite graph_cell_point, abs_lt, Hnorm. split.
  - intros [Hlo Hhi].
    assert (inject_Z (-1) < inject_Z row)%Q as H1
      by (change (inject_Z (-1)) with (-1 # 1)%Q; lra).
    assert (inject_Z row < inject_Z 1)%Q as H2
      by (change (inject_Z 1) with 1%Q; lra).
    rewrite <- Zlt_Qlt in H1, H2. lia.
  - intros ->. change (inject_Z 0) with 0%Q. split; lra.
Qed.

End GraphDrawn.

(** Three samples on ten rows. *)
Lemma line_graph_rows_witness :
  exists rows : list string,
    length rows = 10%nat
    /\ TerminalGraph.create_line_graph Sample.str_num [3; 1; 2]%Q
         ["a"; "b"; "c"]%string "T" 10 ""
       = Ok (join TerminalGraph.nl
               ([TerminalGraph.nl +:+ "[GRAPH] " +:+ "T";
                 join "" (replicate 60 "=")]
                ++ rows
                ++ [ "        +" +:+ join "" (replicate 5 TerminalGraph.SEGMENT);
                     "         " +:+ join "  " ["a"; "b"; "c"] ]))%string.
Proof.
  destruct (proj2 (line_graph_rows Sample.str_num 3%Q [1; 2]%Q
                     ["a"; "b"; "c"]%string "T" 10 ""
                     ltac:(cbn; lia) eq_refl) ltac:(lia))
    as (rows & Hlen & _ & Hgraph).
  exists rows. split; [exact Hlen | exact Hgraph].
Defined.


(** Three equal samples. *)
Lemma graph_flat_series_witness :
  graph_range 5 [5; 5]%Q = 1%Q.
Proof.
  apply (proj1 (graph_flat_series 5%Q [5; 5]%Q 10
                  ltac:(repeat constructor))).
Defined.

(** ** The gauge, in general *)

Section GaugeGeneral.
Import WeatherService Float64.

Lemma of_Q_inv (q z : Q) :
  of_Q q = Fin z ->
  z = round64 q /\ (- max_double <= z <= max_double)%Q.
Proof.
  unfold of_Q. cbv zeta.
  destruct (Qltb max_double (round64 q)) eqn:Hhi; [discriminate |].
  destruct (Qltb (round64 q) (- max_double)) eqn:Hlo; [discriminate |].
  apply Qltb_ge in Hhi, Hlo. intros [= <-]. done.
Qed.

Lemma sub_fin_inv (a b : float) (z : Q) :
  sub a b = Fin z ->
  exists x y : Q, a = Fin x /\ b = Fin y /\ z = round64 (x - y)
                  /\ (- max_double <= z <= max_double)%Q.
Proof.
  destruct a as [x | s |], b as [y | s' |]; cbn [sub]; try discriminate.
  - intros [-> ?]%of_Q_inv. by exists x, y.
  - destruct (Bool.eqb s s'); discriminate.
Qed.

(** A quotient of finite doubles between 0 and 1, scaled to the bar. *)
Lemma unit_fraction (x z : Q) :
  (0 <= x <= z)%Q -> (0 < z)%Q ->
  exists e : Q,
    mul (of_Q (x / z)) (of_int (bar_length - 1)) = Fin e
    /\ 0 <= int e <= bar_length - 1.
Proof.
  intros [Hx Hxz] Hz.
  assert (0 <= x / z <= 1)%Q as Hq.
  { split.
    - apply Qle_shift_div_l; [done | lra].
    - apply Qle_shift_div_r; [done | lra]. }
  destruct (round64_between _ _ _ Hq) as [Hq0 Hq1].
  set (q := round64 (x / z)) in *.
  assert (0 <= q <= 1)%Q as [Hq0' Hq1'].
  { split.
    - eapply Qle_trans; [| exact Hq0]. qcompute.
    - eapply Qle_trans; [exact Hq1 |]. qcompute. }
  rewrite (of_Q_fin (x / z)).
  2: { fold q. split.
       - apply Qle_trans with 0%Q; [qcompute | done].
       - apply Qle_trans with 1%Q; [done | qcompute]. }
  fold q.
  change (mul (Fin q) (of_int (bar_length - 1)))
    with (of_Q (q * inject_Z (bar_length - 1))).
  assert (0 * inject_Z (bar_length - 1) <= q * inject_Z (bar_length - 1)
          <= 1 * inject_Z (bar_length - 1))%Q as Hm.
  { split; (apply Qmult_le_compat_r; [done | qcompute]). }
  destruct (round64_between _ _ _ Hm) as [He0 He49].
  set (e := round64 (q * inject_Z (bar_length - 1))) in *.
  assert (0 <= e <= inject_Z 49)%Q as [He0' He49'].
  { split.
    - eapply Qle_trans; [| exact He0]. qcompute.
    - eapply Qle_trans; [exact He49 |]. qcompute. }
  exists e. split.
  - rewrite of_Q_fin; [done |]. fold e. split.
    + apply Qle_trans with 0%Q; [qcompute | done].
    + apply Qle_trans with (inject_Z 49); [done | qcompute].
  - pose proof (int_at_most _ 49 He0' He49').
    destruct (int_nonneg _ He0') as [Hint ?]. unfold bar_length. lia.
Qed.

Lemma zero_fraction : mul (Fin 0) (of_int (bar_length - 1)) = Fin 0.
Proof. vm_compute. reflexivity. Qed.

(** For any range, a position that is computed lies on the bar, and the
    computation raises nothing but [ZeroDivisionError], when the width of
    the range is zero and the temperature is not outside it, and
    [ValueError], when the quotient is a NaN: the temperature or a bound
    is one, or the width and the offset of the temperature overflow. *)
Theorem gauge_position_any_range (temp lo hi : float) :
  (forall pos : Z, temp_pos temp lo hi = Ok pos -> 0 <= pos <= bar_length - 1)
  /\ (forall e : exn,
        temp_pos temp lo hi = Raise e ->
        e = ZeroDivisionError \/ e = ValueError)
  /\ (temp_pos temp lo hi = Raise ZeroDivisionError <->
      lt temp lo = false /\ lt hi temp = false
      /\ exists z : Q, sub hi lo = Fin z /\ (z == 0)%Q).
Proof.
  unfold temp_pos.
  destruct (lt temp lo) eqn:Hlo.
  { split; [| split].
    - intros pos [= <-]. unfold bar_length. lia.
    - discriminate.
    - split; [discriminate | by intros [? _]]. }
  destruct (lt hi temp) eqn:Hhi.
  { split; [| split].
    - intros pos [= <-]. unfold bar_length. lia.
    - discriminate.
    - split; [discriminate | by intros (_ & ? & _)]. }
  destruct (sub hi lo) as [z | s |] eqn:Hd.
  - (* a finite width *)
    destruct (Qeq_bool z 0) eqn:Hz.
    { assert (div (sub temp lo) (Fin z) = Raise ZeroDivisionError) as ->.
      { unfold div. by rewrite Hz. }
      cbn [mbind outcome_bind]. split; [discriminate |]. split.
      - intros e [= <-]. by left.
      - split; [| done]. intros _. split; [done |]. split; [done |].
        exists z. split; [done |]. by apply Qeq_bool_iff. }
    destruct (sub_fin_inv _ _ _ Hd) as (h & l & -> & -> & Hzeq & Hzmax).
    assert (~ (z == 0)%Q) as Hznz by (by apply Qeq_bool_neq).
    destruct temp as [t | s |].
    + change (Qltb t l = false) in Hlo. change (Qltb h t = false) in Hhi.
      apply Qltb_ge in Hlo, Hhi.
      destruct (round64_between 0 (h - l) (t - l) ltac:(split; lra))
        as [Hx0 Hxz].
      rewrite <- Hzeq in Hxz.
      assert (0 <= round64 (t - l))%Q as Hx0'.
      { eapply Qle_trans; [| exact Hx0]. qcompute. }
      change (sub (Fin t) (Fin l)) with (of_Q (t - l)).
      rewrite (of_Q_fin (t - l)).
      2: { split; [| lra]. apply Qle_trans with 0%Q; [qcompute | done]. }
      rewrite div_fin by done. cbn [mbind outcome_bind].
      destruct (unit_fraction (round64 (t - l)) z ltac:(done) ltac:(lra))
        as (e & -> & He).
      cbn [to_int]. split; [by intros pos [= <-] |].
      split; [discriminate |]. split; [discriminate |].
      intros (_ & _ & z' & [= <-] & Hz'). contradiction.
    + destruct s; discriminate.
    + cbn [sub]. unfold div. rewrite Hz. cbn [mbind outcome_bind mul to_int].
      split; [discriminate |]. split; [intros e [= <-]; by right |].
      split; [discriminate |].
      intros (_ & _ & z' & [= <-] & Hz'). contradiction.
  - (* an infinite width *)
    destruct (sub temp lo) as [x | s' |]; cbn [div mbind outcome_bind];
      [rewrite zero_fraction | |]; cbn [mul to_int].
    + split; [intros pos [= <-]; done |]. split; [discriminate |].
      split; [discriminate | by intros (_ & _ & z & ? & _)].
    + split; [discriminate |]. split; [intros e [= <-]; by right |].
      split; [discriminate | by intros (_ & _ & z & ? & _)].
    + split; [discriminate |]. split; [intros e [= <-]; by right |].
      split; [discriminate | by intros (_ & _ & z & ? & _)].
  - (* a width that is a NaN *)
    cbn [div mbind outcome_bind mul to_int].
    split; [discriminate |]. split; [intros e [= <-]; by right |].
    split; [discriminate | by intros (_ & _ & z & ? & _)].
Qed.

(** The bar is made of the fill glyph of the temperature band up to the
    marker, the marker, and the placeholder after it: 50 cells in all. *)
Theorem gauge_bar_layout (temp : float) (pos : Z) :
  0 <= pos <= bar_length - 1 ->
  bar_chars temp pos
  = replicate (Z.to_nat pos) (fill_glyph temp)
    ++ MARKER :: replicate (Z.to_nat (bar_length - 1 - pos)) EMPTY.
Proof. apply bar_chars_layout. Qed.

End GaugeGeneral.

(** A gauge from 0 to 0 degrees at 0 degrees, and one from 0 to 10 at 5. *)
Lemma gauge_position_any_range_witness :
  (WeatherService.temp_pos (Float64.of_int 0) (Float64.of_int 0)
     (Float64.of_int 0) = Raise ZeroDivisionError)
  /\ 0 <= 24 <= 49.
Proof.
  split.
  - apply (proj2 (proj2 (proj2 (gauge_position_any_range
                                  (Float64.of_int 0) (Float64.of_int 0)
                                  (Float64.of_int 0))))).
    split; [reflexivity |]. split; [reflexivity |].
    exists 0%Q. split; [vm_compute; reflexivity | reflexivity].
  - apply (proj1 (gauge_position_any_range (Float64.of_int 5)
                    (Float64.of_int 0) (Float64.of_int 10)) 24).
    vm_compute. reflexivity.
Defined.

(** The bar at 21.5 degrees, marker at 29. *)
Lemma gauge_bar_layout_witness :
  WeatherService.bar_chars (Float64.Fin (43 # 2)) 29
  = replicate 29 WeatherService.LIGHT
    ++ WeatherService.MARKER :: replicate 20 WeatherService.EMPTY.
Proof.
  apply (gauge_bar_layout (Float64.Fin (43 # 2)) 29).
  unfold WeatherService.bar_length. lia.
Defined.

(** ** Code points and [strip] *)

Section StripProps.

Lemma codepoints_scan (s : string) :
  codepoints s
  = match (scan (list_ascii_of_string s)).1 with
    | [] => (scan (list_ascii_of_string s)).2
    | pending => string_of_list_ascii pending :: (scan (list_ascii_of_string s)).2
    end.
Proof. reflexivity. Qed.

Lemma list_ascii_app (a b : string) :
  list_ascii_of_string (a +:+ b)
  = list_ascii_of_string a ++ list_ascii_of_string b.
Proof.
  induction a as [| c a IH]; [reflexivity |].
  change (String c a +:+ b)%string with (String c (a +:+ b)).
  cbn [list_ascii_of_string app]. by rewrite IH.
Qed.

Lemma append_empty (s : string) : (s +:+ "")%string = s.
Proof.
  induction s as [| c s IH]; [reflexivity |].
  change (String c s +:+ "")%string with (String c (s +:+ "")).
  by rewrite IH.
Qed.

Lemma join_cons (c : string) (cs : list string) :
  join "" (c :: cs) = (c +:+ join "" cs)%string.
Proof.
  unfold join. destruct cs as [| c' cs]; [| reflexivity].
  cbn [String.concat]. by rewrite append_empty.
Qed.

Lemma join_bytes (cs : list string) :
  list_ascii_of_string (join "" cs) = bytes_of cs.
Proof.
  unfold bytes_of. induction cs as [| c cs IH]; [done |].
  rewrite join_cons, list_ascii_app, IH. reflexivity.
Qed.

Lemma scan_continuations (p l : list ascii) :
  continuations p -> scan (p ++ l) = (p ++ (scan l).1, (scan l).2).
Proof.
  unfold scan. induction 1 as [| b p Hb _ IH]; cbn [app foldr].
  - by destruct (foldr scan_step ([], []) l).
  - rewrite IH. unfold scan_step at 1. by rewrite Hb.
Qed.

Lemma scan_whole (cs : list string) :
  Forall whole cs -> scan (bytes_of cs) = ([], cs).
Proof.
  unfold bytes_of. induction 1 as [| c cs Hc _ IH]; [done |].
  destruct c as [| b t]; [done |]. destruct Hc as [Hb Ht].
  cbn [map concat list_ascii_of_string app].
  change (scan (b :: list_ascii_of_string t
                  ++ concat (map list_ascii_of_string cs)))
    with (scan_step b (scan (list_ascii_of_string t
                               ++ concat (map list_ascii_of_string cs)))).
  rewrite (scan_continuations _ _ Ht), IH. cbn [fst snd].
  unfold scan_step. rewrite Hb, app_nil_r. cbn [fst snd].
  change (string_of_list_ascii (b :: list_ascii_of_string t))
    with (String b (string_of_list_ascii (list_ascii_of_string t))).
  by rewrite string_of_list_ascii_of_string.
Qed.

Lemma scan_invariant (l : list ascii) :
  continuations (scan l).1 /\ Forall whole (scan l).2.
Proof.
  unfold scan, continuations. induction l as [| b l [IHp IHc]]; cbn [foldr].
  - split; constructor.
  - unfold scan_step at 1 3.
    destruct (is_continuation b) eqn:Hb; cbn [fst snd].
    + split; [apply Forall_cons; by split | done].
    + split; [constructor |]. apply Forall_cons. split; [| done].
      cbn [string_of_list_ascii whole]. split; [done |].
      by rewrite list_ascii_of_string_of_list_ascii.
Qed.

Lemma codepoints_chunked (s : string) : chunked (codepoints s).
Proof.
  rewrite codepoints_scan.
  destruct (scan_invariant (list_ascii_of_string s)) as [Hp Hc].
  destruct (scan (list_ascii_of_string s)).1 as [| b p] eqn:Hpending.
  - destruct (scan (list_ascii_of_string s)).2 as [| c cs]; [done |].
    apply Forall_cons in Hc as [? ?]. split; [by left | done].
  - split; [| done]. right. split; [done |].
    by rewrite list_ascii_of_string_of_list_ascii.
Qed.

Lemma codepoints_join (cs : list string) :
  chunked cs -> codepoints (join "" cs) = cs.
Proof.
  intros Hcs. rewrite codepoints_scan, join_bytes.
  destruct cs as [| c cs]; [done |]. destruct Hcs as [[Hc | [Hne Hc]] Hrest].
  - by rewrite (scan_whole (c :: cs)) by (by constructor).
  - unfold bytes_of. cbn [map concat].
    rewrite (scan_continuations _ _ Hc).
    fold (bytes_of cs). rewrite (scan_whole cs Hrest). cbn [fst snd].
    rewrite app_nil_r.
    destruct (list_ascii_of_string c) as [| b p] eqn:Hbytes.
    + destruct c; [done | discriminate].
    + by rewrite <- Hbytes, string_of_list_ascii_of_string.
Qed.

Lemma chunked_suffix (a b : list string) : chunked (a ++ b) -> chunked b.
Proof.
  destruct a as [| x a]; [done |]. intros [_ Hrest].
  apply Forall_app in Hrest as [_ Hb].
  destruct b as [| y b]; [done |]. apply Forall_cons in Hb as [? ?].
  split; [by left | done].
Qed.

Lemma chunked_prefix (a b : list string) : chunked (a ++ b) -> chunked a.
Proof.
  destruct a as [| x a]; [done |]. intros [Hx Hrest].
  apply Forall_app in Hrest as [Ha _]. by split.
Qed.

Lemma lstrip_suffix (l : list string) : exists pre, l = pre ++ lstrip_cps l.
Proof.
  induction l as [| c l [pre IH]]; [by exists [] |]. cbn [lstrip_cps].
  destruct (isspace c).
  - exists (c :: pre). cbn. by rewrite <- IH.
  - by exists [].
Qed.

Lemma lstrip_head (l rest : list string) (c : string) :
  lstrip_cps l = c :: rest -> isspace c = false.
Proof.
  induction l as [| x l IH]; [discriminate |]. cbn [lstrip_cps].
  destruct (isspace x) eqn:Hx; [done |]. by intros [= <- _].
Qed.

Lemma lstrip_fixed (l : list string) : lstrip_cps (lstrip_cps l) = lstrip_cps l.
Proof.
  destruct (lstrip_cps l) as [| c rest] eqn:Hl; [done |].
  cbn [lstrip_cps]. by rewrite (lstrip_head _ _ _ Hl).
Qed.

Lemma strip_codepoints (s : string) :
  codepoints (strip s)
  = rev (lstrip_cps (rev (lstrip_cps (codepoints s)))).
Proof.
  unfold strip. apply codepoints_join.
  destruct (lstrip_suffix (codepoints s)) as [pre Hpre].
  destruct (lstrip_suffix (rev (lstrip_cps (codepoints s)))) as [post Hpost].
  pose proof (codepoints_chunked s) as Hs. rewrite Hpre in Hs.
  apply chunked_suffix in Hs.
  apply (f_equal (@rev string)) in Hpost.
  rewrite rev_involutive, rev_app_distr in Hpost. rewrite Hpost in Hs.
  by apply chunked_prefix in Hs.
Qed.

Lemma strip_twice (s : string) : strip (strip s) = strip s.
Proof.
  unfold strip at 1. rewrite strip_codepoints. unfold strip.
  set (X := lstrip_cps (codepoints s)).
  assert (lstrip_cps (rev (lstrip_cps (rev X))) = rev (lstrip_cps (rev X)))
    as ->.
  { destruct (lstrip_suffix (rev X)) as [post Hpost].
    apply (f_equal (@rev string)) in Hpost.
    rewrite rev_involutive, rev_app_distr in Hpost.
    destruct (rev (lstrip_cps (rev X))) as [| r R] eqn:HR; [done |].
    cbn [lstrip_cps]. cbn [app] in Hpost.
    unfold X in Hpost. by rewrite (lstrip_head _ _ _ Hpost). }
  by rewrite rev_involutive, lstrip_fixed.
Qed.

End StripProps.

Section Whitespace.
Import WeatherService.
Variable http_get : list request -> string -> json -> option json.
Variable str_other : json -> string.
Variable datetime : Type.
Variable fromisoformat : string -> option datetime.
Variable timestamp : datetime -> option Q.

Lemma get_coordinates_stripped (city : string) :
  get_coordinates http_get (strip city) = get_coordinates http_get city.
Proof.
  unfold get_coordinates. rewrite strip_twice.
  destruct (String.eqb_spec city "") as [-> | Hcity]; [reflexivity |].
  cbn [orb]. by rewrite orb_diag.
Qed.

(** Whitespace around the city name changes nothing: the coordinate
    lookup, the current weather and the forecast of a city are those of
    its stripped name, request for request. *)
Theorem city_whitespace_is_ignored (city : string) (days : Z) (log : list request) :
  get_coordinates http_get (strip city) log = get_coordinates http_get city log
  /\ get_current_weather http_get str_other (strip city) log
     = get_current_weather http_get str_other city log
  /\ get_forecast http_get str_other fromisoformat timestamp (strip city) days log
     = get_forecast http_get str_other fromisoformat timestamp city days log.
Proof.
  unfold get_current_weather, get_forecast.
  by rewrite get_coordinates_stripped.
Qed.

End Whitespace.
